(** * botcity_aux/bot_runner.py: the retrying bot runners

    A shallow embedding of [BotRunnerMaestro] and [BotRunnerLocal]:
    the constructors, [_get_execution_time], [_add_log_file_into_maestro],
    [_insert_database_log_execution] and the retry loop of [run].

    Every call that leaves the module (the task function [main], the
    orchestrator, SharePoint, the SQL connector, Telegram, the clock, the
    logger) is recorded in a trace and answered by an environment that may
    look at the whole history of earlier calls. *)

From Stdlib Require Import ZArith List String Ascii Bool Lia.
From Stdlib Require Import DecimalString.
Import ListNotations.

Local Open Scope string_scope.
Local Open Scope Z_scope.

(** ** Python values used by the module *)

(** [str(n)] for an [int]. *)
Definition str_int (n : Z) : string := NilZero.string_of_int (Z.to_int n).

(** [f"{n:02}"]: sign-aware zero padding to width two.  A negative number
    already fills the width with its sign and one digit. *)
Definition format_02 (n : Z) : string :=
  if n <? 0 then str_int n
  else if n <? 10 then "0" ++ str_int n
  else str_int n.

(** [divmod(a, b)] for [int]s: floor division and its remainder. *)
Definition divmod (a b : Z) : Z * Z := (a / b, a mod b).

(** The newline of the success message. *)
Definition nl : string := String (ascii_of_nat 10) EmptyString.

(** Exceptions.  [except Exception] catches everything but the
    [BaseException]s that are not [Exception]s ([KeyboardInterrupt],
    [SystemExit], ...). *)
Inductive ExnClass : Type :=
| ValueError
| OtherException
| NonException.

Record Exn : Type := mkExn { exn_class : ExnClass; exn_msg : string }.

Definition is_Exception (e : Exn) : bool :=
  match exn_class e with
  | NonException => false
  | _ => true
  end.

(** [str(e)], as the f-strings print it. *)
Definition str_exn (e : Exn) : string := exn_msg e.

(** [AutomationTaskFinishStatus], the two members the module uses. *)
Inductive AutomationTaskFinishStatus : Type := SUCCESS | FAILED.

(** [BotExecution], as far as the module reads it. *)
Record BotExecution : Type :=
  mkExecution { task_id : string; parameters : string }.

(** The body of [_get_execution_time] after [elapsed_seconds] is known. *)
Definition format_execution_time (elapsed_seconds : Z) : string :=
  let '(days, remainder) := divmod elapsed_seconds 86400 in
  let '(hours, remainder) := divmod remainder 3600 in
  let '(minutes, seconds) := divmod remainder 60 in
  format_02 days ++ ":" ++ format_02 hours ++ ":" ++
  format_02 minutes ++ ":" ++ format_02 seconds.

(** ** Calls that leave the module, and the trace of a run *)

Inductive Call : Type :=
(* the standard library and loguru *)
| Time_time
| Logger_info (msg : string)
| Logger_error (msg : string)
| Warnings_filterwarnings
(* the task function, [src.main.main] *)
| Main
(* psutil and GPUtil, read by [_get_resource_usage] *)
| Resource_usage
(* LoggerConfig *)
| LoggerConfig_new (bot_name log_dir : string)
(* BotMaestroSDK *)
| Maestro_from_sys_args (raise_not_connected : bool)
| Maestro_new (server login key : string)
| Maestro_login
| Maestro_get_execution
| Maestro_get_credential (label key : string)
| Maestro_finish_task (task : string) (status : AutomationTaskFinishStatus)
    (message : string)
| Maestro_error (task : string) (e : Exn) (attachments : list string)
| Maestro_post_artifact (task artifact_name filepath : string)
(* SharePointApi *)
| SharePointApi_new (site_url username password log_folder bot_name : string)
| Sharepoint_list_folders_by_number
| Sharepoint_upload_files (paths : list string)
(* SQLDatabaseConnector *)
| Sql_new (server database : string) (use_windows_auth : bool)
    (username password : option string)
| Sql_connect
| Sql_execute_query_from_file (query : string) (params : list string)
| Sql_disconnect
(* TelegramBot *)
| TelegramBot_new (token : option string)
| Telegram_send_message (text group : string)
| Telegram_upload_document (document group caption : string).

(** The calls the claims count. *)
Definition is_main (c : Call) : bool :=
  match c with Main => true | _ => false end.

Definition is_finish_task (c : Call) : bool :=
  match c with Maestro_finish_task _ _ _ => true | _ => false end.

Definition is_finish_with (st : AutomationTaskFinishStatus) (c : Call) : bool :=
  match c, st with
  | Maestro_finish_task _ SUCCESS _, SUCCESS => true
  | Maestro_finish_task _ FAILED _, FAILED => true
  | _, _ => false
  end.

Definition is_post_artifact (c : Call) : bool :=
  match c with Maestro_post_artifact _ _ _ => true | _ => false end.

Definition is_maestro_error (c : Call) : bool :=
  match c with Maestro_error _ _ _ => true | _ => false end.

Definition is_telegram (c : Call) : bool :=
  match c with
  | Telegram_send_message _ _ | Telegram_upload_document _ _ _ => true
  | _ => false
  end.

Definition is_sql_execute (c : Call) : bool :=
  match c with Sql_execute_query_from_file _ _ => true | _ => false end.

Definition is_orchestrator_report (c : Call) : bool :=
  is_finish_task c || is_post_artifact c || is_maestro_error c.

Definition is_upload_files (c : Call) : bool :=
  match c with Sharepoint_upload_files _ => true | _ => false end.

(** The side effects on the collaborators: orchestrator error, finish and
    artifact calls, file-store uploads, the database insertion, Telegram. *)
Definition is_side_effect (c : Call) : bool :=
  is_orchestrator_report c || is_upload_files c || is_sql_execute c ||
  is_telegram c.

(** The logger and the clock are taken not to raise; every other call may. *)
Definition may_raise (c : Call) : bool :=
  match c with
  | Time_time | Logger_info _ | Logger_error _ => false
  | _ => true
  end.

(** [LoggerConfig], as far as the module reads it. *)
Record LoggerConfig : Type :=
  mkLoggerConfig { log_filename : string; log_path : string }.

(** The instance attributes both classes set in [__init__] and [run]
    reads.  [execution] exists on [BotRunnerMaestro] only;
    [telegram_group] is set only when [use_telegram] is. *)
Record Attrs : Type := mkAttrs {
  bot_name : string;
  logger : LoggerConfig;
  execution : BotExecution;
  dev : string;
  sector : string;
  stakeholder : string;
  recurrence : string;
  max_retries : Z;
  use_telegram : bool;
  telegram_group : string
}.

(** [not telegram_group] for an [Optional[str]]. *)
Definition not_str (o : option string) : bool :=
  match o with
  | None => true
  | Some s => (s =? "")%string
  end.

(** What [run] does next at the end of one pass through the loop body. *)
Inductive Flow : Type :=
| Break
| Continue (attempts : Z).

Inductive Result (A : Type) : Type :=
| Ok (a : A)
| Raise (e : Exn).
Arguments Ok {A} a.
Arguments Raise {A} e.

Section World.

(** [time.time()] returns a float.  The module never looks into one: it
    only subtracts two of them and truncates the difference, so the type
    of time stamps is left open. *)
Variable Time : Type.

Inductive Reply : Type :=
| Returned
| Returned_str (s : string)
| Returned_time (t : Time)
| Returned_execution (x : BotExecution)
| Returned_logger (l : LoggerConfig)
| Raised (e : Exn).

(** One entry of the trace: the call and how it ended. *)
Definition Event : Type := (Call * Reply)%type.

(** The state a method works on: [self.start_time] and the calls made so
    far, the most recent one first. *)
Record State : Type := mkState {
  start_time : option Time;
  trace : list Event
}.

(** The outside world.  Each answer may depend on the whole history. *)
Record Env : Type := mkEnv {
  clock : list Event -> Time;
  raises : list Event -> Call -> option Exn;
  answer : list Event -> Call -> string;
  execution_of : list Event -> BotExecution;
  logger_of : list Event -> LoggerConfig
}.

Definition M (A : Type) : Type := State -> State * Result A.

Definition ret {A} (a : A) : M A := fun s => (s, Ok a).

Definition bind {A B} (m : M A) (f : A -> M B) : M B :=
  fun s =>
    match m s with
    | (s1, Ok a) => f a s1
    | (s1, Raise e) => (s1, Raise e)
    end.

Definition raise {A} (e : Exn) : M A := fun s => (s, Raise e).

Definition get_start_time : M (option Time) :=
  fun s => (s, Ok (start_time s)).

Definition set_start_time (t : option Time) : M unit :=
  fun s => (mkState t (trace s), Ok tt).

Definition record (c : Call) (r : Reply) (s : State) : State :=
  mkState (start_time s) ((c, r) :: trace s).

(** [try: body / except Exception as e: handler e]. *)
Definition try_except {A} (body : M A) (handler : Exn -> M A) : M A :=
  fun s =>
    match body s with
    | (s1, Ok a) => (s1, Ok a)
    | (s1, Raise e) =>
        if is_Exception e then handler e s1 else (s1, Raise e)
    end.

(** [try: body / finally: final]: [final] runs on every way out of
    [body], and what it raises replaces the outcome of [body]. *)
Definition try_finally {A} (body : M A) (final : M unit) : M A :=
  fun s =>
    match body s with
    | (s1, r) =>
        match final s1 with
        | (s2, Ok _) => (s2, r)
        | (s2, Raise e) => (s2, Raise e)
        end
    end.

Variable env : Env.

(** A call: the environment decides from the history whether it raises;
    otherwise it returns [value], logged as [reply value]. *)
Definition call_with {A} (reply : A -> Reply) (value : list Event -> A)
    (c : Call) : M A :=
  fun s =>
    match (if may_raise c then raises env (trace s) c else None) with
    | Some e => (record c (Raised e) s, Raise e)
    | None =>
        let v := value (trace s) in
        (record c (reply v) s, Ok v)
    end.

(** A call that returns nothing the module uses. *)
Definition call (c : Call) : M unit :=
  call_with (fun _ => Returned) (fun _ => tt) c.

(** A call that returns a string. *)
Definition call_str (c : Call) : M string :=
  call_with Returned_str (fun h => answer env h c) c.

Definition time_time : M Time :=
  call_with Returned_time (clock env) Time_time.

Definition logger_info (msg : string) : M unit := call (Logger_info msg).
Definition logger_error (msg : string) : M unit := call (Logger_error msg).

Definition maestro_get_execution : M BotExecution :=
  call_with Returned_execution (execution_of env) Maestro_get_execution.

Definition logger_config_new (bot_name log_dir : string) : M LoggerConfig :=
  call_with Returned_logger (logger_of env) (LoggerConfig_new bot_name log_dir).

End World.

Arguments Returned {Time}.
Arguments Returned_str {Time} s.
Arguments Returned_time {Time} t.
Arguments Returned_execution {Time} x.
Arguments Returned_logger {Time} l.
Arguments Raised {Time} e.
Arguments mkState {Time} start_time trace.
Arguments start_time {Time} s.
Arguments trace {Time} s.
Arguments mkEnv {Time} clock raises answer execution_of logger_of.
Arguments clock {Time} e h.
Arguments raises {Time} e h c.
Arguments answer {Time} e h c.
Arguments execution_of {Time} e h.
Arguments logger_of {Time} e h.
Arguments ret {Time A} a s.
Arguments bind {Time A B} m f s.
Arguments raise {Time A} e s.
Arguments get_start_time {Time} s.
Arguments set_start_time {Time} t s.
Arguments record {Time} c r s.
Arguments try_except {Time A} body handler s.
Arguments try_finally {Time A} body final s.
Arguments call_with {Time} env {A} reply value c s.
Arguments call {Time} env c s.
Arguments call_str {Time} env c s.
Arguments time_time {Time} env s.
Arguments logger_info {Time} env msg s.
Arguments logger_error {Time} env msg s.
Arguments maestro_get_execution {Time} env s.
Arguments logger_config_new {Time} env bot_name log_dir s.

Declare Scope runner_scope.
Delimit Scope runner_scope with runner.
Notation "x <- m ;; k" := (bind m (fun x => k))
  (at level 61, m at next level, right associativity) : runner_scope.
Notation "m ;; k" := (bind m (fun _ => k))
  (at level 61, right associativity) : runner_scope.
Local Open Scope runner_scope.

(** The entries of a trace whose call satisfies [p], most recent first. *)
Definition events_of {Time} (p : Call -> bool) (tr : list (Event Time))
    : list (Event Time) :=
  filter (fun ev => p (fst ev)) tr.

(** Number of calls in a trace that satisfy [p]. *)
Definition count_calls {Time} (p : Call -> bool) (tr : list (Event Time)) : nat :=
  List.length (events_of p tr).

(** The calls of a trace that satisfy [p], oldest first. *)
Definition calls_of {Time} (p : Call -> bool) (tr : list (Event Time)) : list Call :=
  rev (map fst (events_of p tr)).

(** How the most recent call that satisfies [p] ended. *)
Definition last_reply {Time} (p : Call -> bool) (tr : list (Event Time))
    : option (Reply Time) :=
  match events_of p tr with
  | ev :: _ => Some (snd ev)
  | [] => None
  end.

(** ** class BotRunnerMaestro *)

Module BotRunnerMaestro.

(** The arguments of [__init__]. *)
Record InitArgs : Type := mkInitArgs {
  arg_bot_name : string;
  arg_dev : string;
  arg_sector : string;
  arg_stakeholder : string;
  arg_recurrence : string;
  arg_log_folder : string;
  arg_bot_maestro_sdk_raise : bool;
  arg_log_dir : string;
  arg_use_telegram : bool;
  arg_telegram_group : option string;
  arg_max_retries : Z
}.

Section Methods.

Context {Time : Type}.
(** [int_sub end_time start_time] is [int(end_time - start_time)]. *)
Variable int_sub : Time -> Time -> Z.
Variable env : Env Time.

Definition _setup_maestro (bot_maestro_sdk_raise : bool) : M Time BotExecution :=
  try_except
    (call env (Maestro_from_sys_args bot_maestro_sdk_raise) ;;
     execution <- maestro_get_execution env ;;
     logger_info env ("Task ID is: " ++ task_id execution) ;;
     logger_info env ("Task Parameters are: " ++ parameters execution) ;;
     ret execution)
    (fun e =>
       logger_error env ("Failed to initialize BotMaestroSDK: " ++ str_exn e) ;;
       raise e).

Definition _get_telegram_token (use_telegram : bool) : M Time (option string) :=
  if negb use_telegram then ret None
  else
    try_except
      (token <- call_str env (Maestro_get_credential "Telegram" "token") ;;
       if (token =? "")%string then
         raise (mkExn ValueError
                  "Telegram Token must be provided in Maestro credentials")
       else
         logger_info env "Telegram token retrieved successfully." ;;
         ret (Some token))
      (fun e =>
         logger_error env ("Failed to retrieve telegram token: " ++ str_exn e) ;;
         raise e).

Definition __init__ (a : InitArgs) : M Time Attrs :=
  (* initial config *)
  logger <- logger_config_new env (arg_bot_name a) (arg_log_dir a) ;;
  (* maestro config *)
  execution <- _setup_maestro (arg_bot_maestro_sdk_raise a) ;;
  (* Sharepoint credentials *)
  site_url <- call_str env
    (Maestro_get_credential "Your_Sharepoint_Credentials" "site_url") ;;
  let site_url_sharepoint := site_url ++ "YourGroup" in
  username_sharepoint <- call_str env
    (Maestro_get_credential "Your_Sharepoint_Credentials" "username") ;;
  password_sharepoint <- call_str env
    (Maestro_get_credential "Your_Sharepoint_Credentials" "password") ;;
  call env (SharePointApi_new site_url_sharepoint username_sharepoint
              password_sharepoint (arg_log_folder a) (arg_bot_name a)) ;;
  (* telegram config *)
  telegram_group <-
    (if arg_use_telegram a then
       if not_str (arg_telegram_group a) then
         raise (mkExn ValueError
                  "Telegram group must be provided when use_telegram is True.")
       else
         telegram_token <- _get_telegram_token (arg_use_telegram a) ;;
         call env (TelegramBot_new telegram_token) ;;
         ret (match arg_telegram_group a with Some g => g | None => "" end)
     else ret "") ;;
  (* time config *)
  set_start_time None ;;
  ret (mkAttrs (arg_bot_name a) logger execution (arg_dev a) (arg_sector a)
         (arg_stakeholder a) (arg_recurrence a) (arg_max_retries a)
         (arg_use_telegram a) telegram_group).

Variable self : Attrs.

(** The [ServerMessage] it returns is not used by [run]. *)
Definition _add_log_file_into_maestro : M Time unit :=
  try_except
    (call env (Maestro_post_artifact (task_id (execution self))
                 (log_filename (logger self)) (log_path (logger self))) ;;
     logger_info env ("Log file '" ++ log_filename (logger self) ++
                      "' uploaded successfully to BotCity Maestro.") ;;
     ret tt)
    (fun e =>
       logger_error env ("Failed to upload log file '" ++
                         log_filename (logger self) ++
                         "' into BotCity Maestro: " ++ str_exn e) ;;
       raise e).

Definition _get_execution_time : M Time string :=
  start <- get_start_time ;;
  match start with
  | None => ret "Execution time not available"
  | Some start_time =>
      end_time <- time_time env ;;
      let elapsed_seconds := int_sub end_time start_time in
      ret (format_execution_time elapsed_seconds)
  end.

(** The CPU, RAM and GPU readings and their formatting with floats are
    left to the environment, which hands back the finished string. *)
Definition _get_resource_usage : M Time string :=
  call_str env Resource_usage.

Definition _insert_database_log_execution : M Time unit :=
  time <- _get_execution_time ;;
  sql_server <- call_str env
    (Maestro_get_credential "Your_SQL_Credentials" "your_sql_server") ;;
  sql_database <- call_str env
    (Maestro_get_credential "Your_SQL_Credentials" "your_sql_database") ;;
  sql_username <- call_str env
    (Maestro_get_credential "Your_SQL_Credentials" "your_sql_username") ;;
  sql_password <- call_str env
    (Maestro_get_credential "Your_SQL_Credentials" "your_sql_key") ;;
  call env (Sql_new sql_server sql_database false
              (Some sql_username) (Some sql_password)) ;;
  call env Sql_connect ;;
  let params := [bot_name self; dev self; sector self; stakeholder self;
                 recurrence self; time] in
  let query := "botcity_aux\sql\query\insert_log.sql" in
  call env (Sql_execute_query_from_file query params) ;;
  call env Sql_disconnect.

Definition _execute_bot_task : M Time unit := call env Main.

(** The two Telegram calls [run] makes under [if self.use_telegram]. *)
Definition notify (text : string) : M Time unit :=
  if use_telegram self then
    call env (Telegram_send_message text (telegram_group self)) ;;
    call env (Telegram_upload_document (log_path (logger self))
                (telegram_group self) (bot_name self))
  else ret tt.

(** The [try] block of [run]. *)
Definition run_try (attempts : Z) : M Time Flow :=
  now <- time_time env ;;
  set_start_time (Some now) ;;
  logger_info env ("Bot execution started. Attempt " ++ str_int attempts) ;;
  _execute_bot_task ;;
  execution_time <- _get_execution_time ;;
  resource_usage <- _get_resource_usage ;;
  logger_info env (bot_name self ++ " Bot execution completed on attempt " ++
                   str_int attempts ++ ".") ;;
  logger_info env ("Execution time: " ++ execution_time) ;;
  logger_info env ("Resource usage at end of execution: " ++ resource_usage) ;;
  call env Sharepoint_list_folders_by_number ;;
  call env (Sharepoint_upload_files [log_path (logger self)]) ;;
  _insert_database_log_execution ;;
  let success_message :=
    "Execution time: " ++ execution_time ++ nl ++
    "Resource usage at end of execution: " ++ resource_usage in
  call env (Maestro_finish_task (task_id (execution self)) SUCCESS
              success_message) ;;
  notify (bot_name self ++ " Bot execution completed.") ;;
  ret Break.

(** The [except Exception as e] block of [run]. *)
Definition run_except (attempts : Z) (e : Exn) : M Time Flow :=
  let attempts := attempts + 1 in
  logger_error env ("An error occurred during bot '" ++ bot_name self ++
                    "' execution: " ++ str_exn e) ;;
  call env (Maestro_error (task_id (execution self)) e
              [log_path (logger self)]) ;;
  call env (Maestro_finish_task (task_id (execution self)) FAILED
              ("An error occurred during bot execution: " ++ str_exn e)) ;;
  notify ("An error occurred during bot '" ++ bot_name self ++
          "' execution: " ++ str_exn e) ;;
  if attempts >? max_retries self then
    logger_error env ("Max retries reached (" ++
                      str_int (max_retries self) ++ "). Giving up.") ;;
    call env Sharepoint_list_folders_by_number ;;
    call env (Sharepoint_upload_files [log_path (logger self)]) ;;
    raise e
  else
    logger_info env ("Retrying bot execution (attempt " ++
                     str_int attempts ++ ")...") ;;
    ret (Continue attempts).

(** One pass through the body of the [while]:
    [try] / [except Exception] / [finally]. *)
Definition run_attempt (attempts : Z) : M Time Flow :=
  try_finally
    (try_except (run_try attempts) (run_except attempts))
    _add_log_file_into_maestro.

(** [while attempts <= self.max_retries].  [None] is a loop cut short by
    [fuel]; [maestro_run_returns] shows that [run] never is. *)
Fixpoint run_while (fuel : nat) (attempts : Z) (s : State Time)
    : option (State Time * Result unit) :=
  if attempts <=? max_retries self then
    match fuel with
    | O => None
    | S fuel' =>
        match run_attempt attempts s with
        | (s1, Ok Break) => Some (s1, Ok tt)
        | (s1, Ok (Continue attempts')) => run_while fuel' attempts' s1
        | (s1, Raise e) => Some (s1, Raise e)
        end
    end
  else Some (s, Ok tt).

Definition run (s : State Time) : option (State Time * Result unit) :=
  let attempts := 0 in
  run_while (Z.to_nat (max_retries self + 1)) attempts s.

End Methods.

End BotRunnerMaestro.

(** ** class BotRunnerLocal(BotMaestroSDK) *)

Module BotRunnerLocal.

(** The arguments of [__init__]. *)
Record InitArgs : Type := mkInitArgs {
  arg_bot_name : string;
  arg_dev : string;
  arg_sector : string;
  arg_stakeholder : string;
  arg_recurrence : string;
  arg_log_folder : string;
  arg_server : string;
  arg_login : string;
  arg_key : string;
  arg_log_dir : string;
  arg_use_telegram : bool;
  arg_telegram_group : option string;
  arg_max_retries : Z
}.

Section Methods.

Context {Time : Type}.
(** [int_sub end_time start_time] is [int(end_time - start_time)]. *)
Variable int_sub : Time -> Time -> Z.
Variable env : Env Time.

Definition _get_telegram_token (use_telegram : bool) : M Time (option string) :=
  if negb use_telegram then ret None
  else
    try_except
      (token <- call_str env (Maestro_get_credential "Telegram" "token") ;;
       if (token =? "")%string then
         raise (mkExn ValueError
                  "Telegram Token must be provided in Maestro credentials")
       else
         logger_info env "Telegram token retrieved successfully." ;;
         ret (Some token))
      (fun e =>
         logger_error env ("Failed to retrieve telegram token: " ++ str_exn e) ;;
         raise e).

(** This class has no [self.execution]; the attribute record carries an
    empty one that [run] never reads.  The flags [RAISE_NOT_CONNECTED]
    and [VERIFY_SSL_CERT] it sets are read by the SDK only. *)
Definition __init__ (a : InitArgs) : M Time Attrs :=
  (* BotMaestroSDK config *)
  call env (Maestro_new (arg_server a) (arg_login a) (arg_key a)) ;;
  call env Maestro_login ;;
  call env Warnings_filterwarnings ;;
  (* initial config *)
  logger <- logger_config_new env (arg_bot_name a) (arg_log_dir a) ;;
  (* Sharepoint credentials *)
  site_url <- call_str env
    (Maestro_get_credential "Your_Sharepoint_Credentials" "site_url") ;;
  let site_url_sharepoint := site_url ++ "YourGroup" in
  username_sharepoint <- call_str env
    (Maestro_get_credential "Your_Sharepoint_Credentials" "username") ;;
  password_sharepoint <- call_str env
    (Maestro_get_credential "Your_Sharepoint_Credentials" "password") ;;
  call env (SharePointApi_new site_url_sharepoint username_sharepoint
              password_sharepoint (arg_log_folder a) (arg_bot_name a)) ;;
  (* telegram config *)
  telegram_group <-
    (if arg_use_telegram a then
       if not_str (arg_telegram_group a) then
         raise (mkExn ValueError
                  "Telegram group must be provided when use_telegram is True.")
       else
         telegram_token <- _get_telegram_token (arg_use_telegram a) ;;
         call env (TelegramBot_new telegram_token) ;;
         ret (match arg_telegram_group a with Some g => g | None => "" end)
     else ret "") ;;
  (* time config *)
  set_start_time None ;;
  ret (mkAttrs (arg_bot_name a) logger (mkExecution "" "") (arg_dev a)
         (arg_sector a) (arg_stakeholder a) (arg_recurrence a)
         (arg_max_retries a) (arg_use_telegram a) telegram_group).

Variable self : Attrs.

Definition _get_execution_time : M Time string :=
  start <- get_start_time ;;
  match start with
  | None => ret "Execution time not available"
  | Some start_time =>
      end_time <- time_time env ;;
      let elapsed_seconds := int_sub end_time start_time in
      ret (format_execution_time elapsed_seconds)
  end.

(** The CPU, RAM and GPU readings and their formatting with floats are
    left to the environment, which hands back the finished string. *)
Definition _get_resource_usage : M Time string :=
  call_str env Resource_usage.

Definition _insert_database_log_execution : M Time unit :=
  time <- _get_execution_time ;;
  call env (Sql_new "srv-homologation" "your_database" true None None) ;;
  call env Sql_connect ;;
  let params := [bot_name self; dev self; sector self; stakeholder self;
                 recurrence self; time] in
  let query := "botcity_aux\sql\query\insert_log.sql" in
  call env (Sql_execute_query_from_file query params) ;;
  call env Sql_disconnect.

Definition _execute_bot_task : M Time unit := call env Main.

(** The two Telegram calls [run] makes under [if self.use_telegram]. *)
Definition notify (text : string) : M Time unit :=
  if use_telegram self then
    call env (Telegram_send_message text (telegram_group self)) ;;
    call env (Telegram_upload_document (log_path (logger self))
                (telegram_group self) (bot_name self))
  else ret tt.

(** The [try] block of [run]. *)
Definition run_try (attempts : Z) : M Time Flow :=
  now <- time_time env ;;
  set_start_time (Some now) ;;
  logger_info env ("Bot execution started. Attempt " ++ str_int attempts) ;;
  _execute_bot_task ;;
  logger_info env (bot_name self ++ " Bot execution completed on attempt " ++
                   str_int attempts ++ ".") ;;
  execution_time <- _get_execution_time ;;
  logger_info env ("Execution time: " ++ execution_time) ;;
  resource_usage <- _get_resource_usage ;;
  logger_info env ("Resource usage at end of execution: " ++ resource_usage) ;;
  call env Sharepoint_list_folders_by_number ;;
  call env (Sharepoint_upload_files [log_path (logger self)]) ;;
  _insert_database_log_execution ;;
  notify (bot_name self ++ " Bot execution completed.") ;;
  ret Break.

(** The [except Exception as e] block of [run]. *)
Definition run_except (attempts : Z) (e : Exn) : M Time Flow :=
  let attempts := attempts + 1 in
  logger_error env ("An error occurred during bot '" ++ bot_name self ++
                    "' attempt: " ++ str_int attempts ++
                    ", execution: " ++ str_exn e) ;;
  notify ("An error occurred during bot '" ++ bot_name self ++
          "' execution: " ++ str_exn e) ;;
  if attempts >? max_retries self then
    logger_error env ("Max retries reached (" ++
                      str_int (max_retries self) ++ "). Giving up.") ;;
    raise e
  else
    logger_info env ("Retrying bot execution (attempt " ++
                     str_int attempts ++ ")...") ;;
    ret (Continue attempts).

(** One pass through the body of the [while]: [try] / [except Exception];
    this class has no [finally]. *)
Definition run_attempt (attempts : Z) : M Time Flow :=
  try_except (run_try attempts) (run_except attempts).

(** [while attempts <= self.max_retries], cut short by [fuel] as in
    [BotRunnerMaestro.run_while]; [local_run_returns] shows that [run]
    never is. *)
Fixpoint run_while (fuel : nat) (attempts : Z) (s : State Time)
    : option (State Time * Result unit) :=
  if attempts <=? max_retries self then
    match fuel with
    | O => None
    | S fuel' =>
        match run_attempt attempts s with
        | (s1, Ok Break) => Some (s1, Ok tt)
        | (s1, Ok (Continue attempts')) => run_while fuel' attempts' s1
        | (s1, Raise e) => Some (s1, Raise e)
        end
    end
  else Some (s, Ok tt).

Definition run (s : State Time) : option (State Time * Result unit) :=
  let attempts := 0 in
  run_while (Z.to_nat (max_retries self + 1)) attempts s.

End Methods.

End BotRunnerLocal.

(** ** Vocabulary of the properties *)

(** [keeps p m]: [m] makes no call that satisfies [p]. *)
Definition keeps {Time A} (p : Call -> bool) (m : M Time A) : Prop :=
  forall s, events_of p (trace (fst (m s))) = events_of p (trace s).

(** Every call that does not satisfy [p] returns normally, whatever happened
    before. *)
Definition returns_unless {Time} (env : Env Time) (p : Call -> bool) : Prop :=
  forall h c, p c = false -> raises env h c = None.

(** The history the task function is called in during the pass that starts
    in state [s]: [run] has read the clock and logged the attempt. *)
Definition task_history {Time} (env : Env Time) (attempts : Z) (s : State Time)
    : list (Event Time) :=
  (Logger_info ("Bot execution started. Attempt " ++ str_int attempts), Returned)
    :: (Time_time, Returned_time (clock env (trace s))) :: trace s.

(** How the task function ends when called in history [h]. *)
Definition main_reply {Time} (env : Env Time) (h : list (Event Time)) : Reply Time :=
  match raises env h Main with
  | Some e => Raised e
  | None => Returned
  end.

(** Whether a result is a normal return. *)
Definition returned {A} (r : Result A) : bool :=
  match r with Ok _ => true | Raise _ => false end.

(** The two texts [run] sends to Telegram. *)
Definition success_text (self : Attrs) : string :=
  bot_name self ++ " Bot execution completed.".

Definition error_text (self : Attrs) (e : Exn) : string :=
  "An error occurred during bot '" ++ bot_name self ++ "' execution: " ++
  str_exn e.

(** The Telegram calls of [notify], most recent first. *)
Definition notify_calls (self : Attrs) (text : string) : list Call :=
  if use_telegram self then
    [Telegram_upload_document (log_path (logger self)) (telegram_group self)
       (bot_name self);
     Telegram_send_message text (telegram_group self)]
  else [].

(** Between the states [s] and [s'], [k] calls that satisfy [p] were made. *)
Definition adds {Time} (p : Call -> bool) (k : nat) (s s' : State Time) : Prop :=
  count_calls p (trace s') = (k + count_calls p (trace s))%nat.

(** What was reported between [s] and [s']: [succ] calls of [finish_task]
    with SUCCESS, [fail] with FAILED, and the Telegram calls [tele] (most
    recent first). *)
Definition reported {Time} (succ fail : nat) (tele : list Call)
    (s s' : State Time) : Prop :=
  adds (is_finish_with SUCCESS) succ s s' /\
  adds (is_finish_with FAILED) fail s s' /\
  adds is_finish_task (succ + fail) s s' /\
  map fst (events_of is_telegram (trace s')) =
  (tele ++ map fst (events_of is_telegram (trace s)))%list.

(** What both loop bodies do when every collaborator returns.  [fin] is
    the number of [finish_task] calls per pass: one in [BotRunnerMaestro],
    none in [BotRunnerLocal]. *)
Section Attempt_spec.

Context {Time : Type}.
Variable env : Env Time.
Variable self : Attrs.
Variable fin : nat.
Variable attempt : Z -> M Time Flow.

(** Every pass calls the task function exactly once. *)
Definition calls_main_once : Prop :=
  forall a s,
    events_of is_main (trace (fst (attempt a s))) =
    (Main, main_reply env (task_history env a s)) ::
    events_of is_main (trace s).

(** The task function returns: success is reported and the loop ends. *)
Definition on_success : Prop :=
  forall a s,
    raises env (task_history env a s) Main = None ->
    exists s',
      attempt a s = (s', Ok Break) /\
      reported fin 0 (notify_calls self (success_text self)) s s'.

(** The task function raises an [Exception] and attempts remain. *)
Definition on_retry : Prop :=
  forall a s e,
    raises env (task_history env a s) Main = Some e ->
    is_Exception e = true ->
    a + 1 <= max_retries self ->
    exists s',
      attempt a s = (s', Ok (Continue (a + 1))) /\
      reported 0 fin (notify_calls self (error_text self e)) s s'.

(** The task function raises an [Exception] and no attempt remains. *)
Definition on_give_up : Prop :=
  forall a s e,
    raises env (task_history env a s) Main = Some e ->
    is_Exception e = true ->
    max_retries self < a + 1 ->
    exists s',
      attempt a s = (s', Raise e) /\
      reported 0 fin (notify_calls self (error_text self e)) s s'.

(** The task function raises something [except Exception] lets through. *)
Definition on_pass_through : Prop :=
  forall a s e,
    raises env (task_history env a s) Main = Some e ->
    is_Exception e = false ->
    exists s', attempt a s = (s', Raise e) /\ reported 0 0 [] s s'.

Definition attempt_spec : Prop :=
  calls_main_once /\ on_success /\ on_retry /\ on_give_up /\
  on_pass_through.

End Attempt_spec.

(** The shape both [run_while] loops have, over any loop body. *)
Section Loop.

Context {Time : Type}.
Variable attempt : Z -> M Time Flow.
Variable limit : Z.

Fixpoint while_loop (fuel : nat) (attempts : Z) (s : State Time)
    : option (State Time * Result unit) :=
  if attempts <=? limit then
    match fuel with
    | O => None
    | S fuel' =>
        match attempt attempts s with
        | (s1, Ok Break) => Some (s1, Ok tt)
        | (s1, Ok (Continue attempts')) => while_loop fuel' attempts' s1
        | (s1, Raise e) => Some (s1, Raise e)
        end
    end
  else Some (s, Ok tt).

End Loop.

(** *** Concrete worlds, used to run the model *)

Module Sample.

Definition boom : Exn := mkExn OtherException "boom".
Definition disk_full : Exn := mkExn OtherException "disk full".

Definition the_logger : LoggerConfig := mkLoggerConfig "bot.log" "logs/bot.log".
Definition the_execution : BotExecution := mkExecution "42" "{}".

(** A runner named [bot] with the given retry budget. *)
Definition bot (max_retries : Z) (use_telegram : bool) : Attrs :=
  mkAttrs "bot" the_logger the_execution "dev" "sector" "stakeholder"
    "daily" max_retries use_telegram "ops".

(** Time stamps are whole seconds; the clock advances by one second per
    call made. *)
Definition ticking (h : list (Event Z)) : Z := Z.of_nat (List.length h).

(** The task function ends as [outcome i] says on its invocation number
    [i] (from 0); a call picked by [flaky] raises [disk_full] when the
    number of invocations of the task function so far satisfies [during];
    every other call returns. *)
Definition world (outcome : nat -> option Exn) (flaky : Call -> bool)
    (during : nat -> bool) : Env Z :=
  mkEnv ticking
    (fun h c =>
       if is_main c then outcome (count_calls is_main h)
       else if flaky c && during (count_calls is_main h)
            then Some disk_full
            else None)
    (fun _ _ => "x")
    (fun _ => the_execution)
    (fun _ => the_logger).

Definition always (_ : nat) : bool := true.
Definition first_attempt (i : nat) : bool := (i =? 1)%nat.

(** Every collaborator returns. *)
Definition calm (outcome : nat -> option Exn) : Env Z :=
  world outcome (fun _ => false) always.

(** The task function raises [boom] on invocations [0 .. k-1] and returns
    afterwards. *)
Definition fails_first (k : nat) (i : nat) : option Exn :=
  if (i <? k)%nat then Some boom else None.

Definition always_fails (_ : nat) : option Exn := Some boom.
Definition always_returns (_ : nat) : option Exn := None.

(** A fresh runner: [start_time] is [None], nothing has been called. *)
Definition fresh : State Z := mkState None [].

Definition maestro_args (use_telegram : bool) (group : option string)
    : BotRunnerMaestro.InitArgs :=
  BotRunnerMaestro.mkInitArgs "bot" "dev" "sector" "stakeholder" "daily"
    "folder" false "logs" use_telegram group 2.

Definition local_args (use_telegram : bool) (group : option string)
    : BotRunnerLocal.InitArgs :=
  BotRunnerLocal.mkInitArgs "bot" "dev" "sector" "stakeholder" "daily"
    "folder" "https://server" "login" "key" "logs" use_telegram group 2.

End Sample.

(** ** Further calls the properties count, and further worlds *)

Definition is_sql (c : Call) : bool :=
  match c with
  | Sql_new _ _ _ _ _ | Sql_connect | Sql_execute_query_from_file _ _
  | Sql_disconnect => true
  | _ => false
  end.

Definition is_sql_connect (c : Call) : bool :=
  match c with Sql_connect => true | _ => false end.

Definition is_sql_disconnect (c : Call) : bool :=
  match c with Sql_disconnect => true | _ => false end.

Definition is_get_credential (c : Call) : bool :=
  match c with Maestro_get_credential _ _ => true | _ => false end.

(** The calls of [_insert_database_log_execution]: the credentials it
    fetches and what it does with the connector. *)
Definition is_database_session (c : Call) : bool :=
  is_sql c || is_get_credential c.

Definition is_telegram_bot_new (c : Call) : bool :=
  match c with TelegramBot_new _ => true | _ => false end.

(** What a constructor does for Telegram: fetching the token and building
    the [TelegramBot]. *)
Definition is_telegram_setup (c : Call) : bool :=
  match c with
  | TelegramBot_new _ => true
  | Maestro_get_credential label _ => (label =? "Telegram")%string
  | _ => false
  end.

Definition is_from_sys_args (c : Call) : bool :=
  match c with Maestro_from_sys_args _ => true | _ => false end.

Definition is_maestro_get_execution (c : Call) : bool :=
  match c with Maestro_get_execution => true | _ => false end.

Definition is_time_time (c : Call) : bool :=
  match c with Time_time => true | _ => false end.

Definition is_send_message (c : Call) : bool :=
  match c with Telegram_send_message _ _ => true | _ => false end.

Definition is_upload_document (c : Call) : bool :=
  match c with Telegram_upload_document _ _ _ => true | _ => false end.

Definition is_list_folders (c : Call) : bool :=
  match c with Sharepoint_list_folders_by_number => true | _ => false end.

Definition is_sql_new (c : Call) : bool :=
  match c with Sql_new _ _ _ _ _ => true | _ => false end.

(** The reporting calls of [BotRunnerMaestro.run], by the block that makes
    them: the artifact upload of the [finally] block; *)
Definition finally_reports : list (Call -> bool) := [is_post_artifact].

(** what the [except] block reports after every failed attempt; *)
Definition except_reports (self : Attrs) : list (Call -> bool) :=
  [is_maestro_error; is_finish_with FAILED] ++
  (if use_telegram self then [is_send_message; is_upload_document] else []).

(** the file-store upload the [except] block makes when it gives up; *)
Definition give_up_reports : list (Call -> bool) :=
  [is_list_folders; is_upload_files].

(** and what the [try] block reports after the task function returned: the
    file-store upload, the database insertion with the credentials it
    fetches, the finish call and the notification. *)
Definition try_reports (self : Attrs) : list (Call -> bool) :=
  [is_list_folders; is_upload_files; is_get_credential; is_sql_new;
   is_sql_connect; is_sql_execute; is_sql_disconnect;
   is_finish_with SUCCESS] ++
  (if use_telegram self then [is_send_message; is_upload_document] else []).

(** The first call that satisfies [p] after state [s] raises [e]. *)
Definition first_call_raises {Time} (env : Env Time) (p : Call -> bool)
    (e : Exn) (s : State Time) : Prop :=
  forall h c,
    p c = true -> count_calls p h = count_calls p (trace s) ->
    raises env h c = Some e.

(** The calls that satisfy [p] return once one of them has been made after
    state [s]. *)
Definition later_calls_return {Time} (env : Env Time) (p : Call -> bool)
    (s : State Time) : Prop :=
  forall h c,
    p c = true -> count_calls p h <> count_calls p (trace s) ->
    raises env h c = None.

(** The two messages of the [ValueError]s a constructor raises. *)
Definition missing_group_error : Exn :=
  mkExn ValueError "Telegram group must be provided when use_telegram is True.".

Definition missing_token_error : Exn :=
  mkExn ValueError "Telegram Token must be provided in Maestro credentials".

Module Sample_answers.

(** A world in which every call returns and a credential is answered by
    [credential label key]. *)
Definition answering (credential : string -> string -> string) : Env Z :=
  mkEnv Sample.ticking
    (fun _ _ => None)
    (fun _ c =>
       match c with
       | Maestro_get_credential label key => credential label key
       | _ => "x"
       end)
    (fun _ => Sample.the_execution)
    (fun _ => Sample.the_logger).

(** Every credential is its own key, except an empty Telegram token. *)
Definition no_token (label key : string) : string :=
  if (label =? "Telegram")%string then "" else key.

Definition by_key (label key : string) : string := key.

Definition keyboard_interrupt : Exn := mkExn NonException "KeyboardInterrupt".

Definition interrupted (_ : nat) : option Exn := Some keyboard_interrupt.

End Sample_answers.

Module Sample_retry.

(** The task function ends as [outcome i] says on its invocation number
    [i]; of the calls picked by [flaky], the first one made raises
    [disk_full]; every other call returns. *)
Definition failing_once (outcome : nat -> option Exn) (flaky : Call -> bool)
    : Env Z :=
  mkEnv Sample.ticking
    (fun h c =>
       if is_main c then outcome (count_calls is_main h)
       else if flaky c && (count_calls flaky h =? 0)%nat
            then Some Sample.disk_full
            else None)
    (fun _ _ => "x")
    (fun _ => Sample.the_execution)
    (fun _ => Sample.the_logger).

(** The state [BotRunnerLocal.run] is in at the top of its second pass,
    after a first attempt in which the task function raised: [start_time]
    still holds the clock reading of that first attempt. *)
Definition after_failure : State Z :=
  fst (BotRunnerLocal.run_attempt Z.sub (Sample.calm (Sample.fails_first 1))
         (Sample.bot 1 false) 0 Sample.fresh).

End Sample_retry.

(** ** The formatting of the execution time on examples *)

Example format_execution_time_90061 :
  format_execution_time 90061 = "01:01:01:01".
Proof. reflexivity. Qed.

Example format_execution_time_0 :
  format_execution_time 0 = "00:00:00:00".
Proof. reflexivity. Qed.

Example format_execution_time_back :
  format_execution_time (-1) = "-1:23:59:59".
Proof. reflexivity. Qed.

(** ** Reasoning about the monad *)

Section Monad_facts.

Context {Time : Type}.
Variable env : Env Time.

Lemma bind_ret {A B} (a : A) (f : A -> M Time B) s :
  bind (ret a) f s = f a s.
Proof. reflexivity. Qed.

Lemma bind_raise {A B} (e : Exn) (f : A -> M Time B) s :
  bind (raise e) f s = (s, Raise e).
Proof. reflexivity. Qed.

Lemma bind_bind {A B C} (m : M Time A) (f : A -> M Time B)
    (g : B -> M Time C) s :
  bind (bind m f) g s = bind m (fun a => bind (f a) g) s.
Proof. unfold bind. destruct (m s) as [s1 [a | e]]; reflexivity. Qed.

Lemma bind_get_start_time {B} (f : option Time -> M Time B) s :
  bind get_start_time f s = f (start_time s) s.
Proof. reflexivity. Qed.

Lemma bind_set_start_time {B} t (f : unit -> M Time B) s :
  bind (set_start_time t) f s = f tt (mkState t (trace s)).
Proof. reflexivity. Qed.

(** A call the environment lets return. *)
Lemma bind_call_returns {A B} reply (value : list (Event Time) -> A) c
    (f : A -> M Time B) s :
  (if may_raise c then raises env (trace s) c else None) = None ->
  bind (call_with env reply value c) f s =
  f (value (trace s)) (record c (reply (value (trace s))) s).
Proof. intros H. unfold bind, call_with. rewrite H. reflexivity. Qed.

(** A call the environment makes raise. *)
Lemma bind_call_raises {A B} reply (value : list (Event Time) -> A) c
    (f : A -> M Time B) s e :
  (if may_raise c then raises env (trace s) c else None) = Some e ->
  bind (call_with env reply value c) f s = (record c (Raised e) s, Raise e).
Proof. intros H. unfold bind, call_with. rewrite H. reflexivity. Qed.

Lemma call_returns {A} reply (value : list (Event Time) -> A) c s :
  (if may_raise c then raises env (trace s) c else None) = None ->
  call_with env reply value c s =
  (record c (reply (value (trace s))) s, Ok (value (trace s))).
Proof. intros H. unfold call_with. rewrite H. reflexivity. Qed.

Lemma call_raises {A} reply (value : list (Event Time) -> A) c s e :
  (if may_raise c then raises env (trace s) c else None) = Some e ->
  call_with env reply value c s = (record c (Raised e) s, Raise e).
Proof. intros H. unfold call_with. rewrite H. reflexivity. Qed.

(** Inversion of a [bind] that returned. *)
Lemma bind_Ok_inv {A B} (m : M Time A) (f : A -> M Time B) s s' b :
  bind m f s = (s', Ok b) ->
  exists a s1, m s = (s1, Ok a) /\ f a s1 = (s', Ok b).
Proof.
  unfold bind. destruct (m s) as [s1 [a | e]]; intros H.
  - exists a, s1. split; [reflexivity | exact H].
  - discriminate H.
Qed.

(** *** Calls a computation does not make *)

Lemma keeps_ret {A} p (a : A) : keeps p (@ret Time A a).
Proof. intros s. reflexivity. Qed.

Lemma keeps_raise {A} p e : keeps p (@raise Time A e).
Proof. intros s. reflexivity. Qed.

Lemma keeps_get_start_time p : keeps p (@get_start_time Time).
Proof. intros s. reflexivity. Qed.

Lemma keeps_set_start_time p t : keeps p (@set_start_time Time t).
Proof. intros s. reflexivity. Qed.

Lemma keeps_call_with {A} p reply (value : list (Event Time) -> A) c :
  p c = false -> keeps p (call_with env reply value c).
Proof.
  intros Hp s. unfold call_with.
  destruct (if may_raise c then raises env (trace s) c else None);
    cbn [fst record trace events_of filter]; rewrite Hp; reflexivity.
Qed.

Lemma keeps_bind {A B} p (m : M Time A) (f : A -> M Time B) :
  keeps p m -> (forall a, keeps p (f a)) -> keeps p (bind m f).
Proof.
  intros Hm Hf s. unfold bind. specialize (Hm s).
  destruct (m s) as [s1 [a | e]]; cbn [fst] in *.
  - rewrite Hf. exact Hm.
  - exact Hm.
Qed.

Lemma keeps_try_except {A} p (body : M Time A) handler :
  keeps p body -> (forall e, keeps p (handler e)) ->
  keeps p (try_except body handler).
Proof.
  intros Hb Hh s. unfold try_except. specialize (Hb s).
  destruct (body s) as [s1 [a | e]]; cbn [fst] in *.
  - exact Hb.
  - destruct (is_Exception e); cbn [fst].
    + rewrite Hh. exact Hb.
    + exact Hb.
Qed.

Lemma keeps_try_finally {A} p (body : M Time A) final :
  keeps p body -> keeps p final -> keeps p (try_finally body final).
Proof.
  intros Hb Hf s. unfold try_finally. specialize (Hb s).
  destruct (body s) as [s1 r]; cbn [fst] in *. specialize (Hf s1).
  destruct (final s1) as [s2 [u | e]]; cbn [fst] in *; congruence.
Qed.

(** What [final] and a handler add to the trace sits on top of what the
    [try] block left. *)
Lemma events_try_finally {A} p (body : M Time A) final s :
  events_of p (trace (fst (try_finally body final s))) =
  events_of p (trace (fst (final (fst (body s))))).
Proof.
  unfold try_finally. destruct (body s) as [s1 r]; cbn [fst].
  destruct (final s1) as [s2 [u | e]]; reflexivity.
Qed.

Lemma events_try_except_keeps {A} p (body : M Time A) handler s :
  (forall e, keeps p (handler e)) ->
  events_of p (trace (fst (try_except body handler s))) =
  events_of p (trace (fst (body s))).
Proof.
  intros Hh. unfold try_except.
  destruct (body s) as [s1 [a | e]]; cbn [fst]; [reflexivity |].
  destruct (is_Exception e); cbn [fst]; [apply Hh | reflexivity].
Qed.

(** A call that satisfies [p] leaves exactly one more entry, whether it
    returns or raises. *)
Lemma events_call_with {A} p reply (value : list (Event Time) -> A) c s :
  p c = true ->
  exists r,
    events_of p (trace (fst (call_with env reply value c s))) =
    (c, r) :: events_of p (trace s).
Proof.
  intros Hp. unfold call_with.
  destruct (if may_raise c then raises env (trace s) c else None);
    cbn [fst record trace events_of filter]; rewrite Hp; eexists; reflexivity.
Qed.

End Monad_facts.

(** Unfolds the named calls down to [call_with]. *)
Ltac to_call_with :=
  unfold logger_info, logger_error in *;
  unfold call, call_str, time_time, maestro_get_execution,
    logger_config_new in *.

(** Proves [keeps p m] for a computation written with [bind], the calls
    and the two [try] forms, when none of its calls satisfies [p]. *)
Ltac keeps_tac :=
  to_call_with;
  repeat first
    [ apply keeps_ret
    | apply keeps_raise
    | apply keeps_get_start_time
    | apply keeps_set_start_time
    | apply keeps_call_with; reflexivity
    | apply keeps_try_except; [ | intro ]
    | apply keeps_try_finally
    | apply keeps_bind; [ | intro ]
    | match goal with
      | |- keeps _ (match ?x with _ => _ end) => destruct x
      end ].

(** ** Symbolic execution of a method *)

(** The value a returning call hands back, kept abstract so that the
    histories inside later payloads stay small. *)
Lemma bind_call_returns_some {Time} (env : Env Time) {A B} reply
    (value : list (Event Time) -> A) c (f : A -> M Time B) s :
  (if may_raise c then raises env (trace s) c else None) = None ->
  exists v, bind (call_with env reply value c) f s = f v (record c (reply v) s).
Proof. intros H. eexists. apply bind_call_returns. exact H. Qed.

(** Side condition of a returning call: the call cannot raise, or the
    hypothesis [Hok] on the environment says that it returns. *)
Ltac call_side Hok :=
  cbn [may_raise];
  first [ reflexivity | apply Hok; reflexivity | eassumption ].

Ltac exec_pure :=
  repeat (first
    [ rewrite bind_bind
    | rewrite bind_ret
    | rewrite bind_raise
    | rewrite bind_get_start_time
    | rewrite bind_set_start_time ];
    cbv beta; cbn [start_time trace record]).

(** One returning call; [side] proves that the environment lets it return. *)
Ltac exec_call_by side :=
  match goal with
  | |- context [bind (call_with ?env ?reply ?value ?c) ?f ?s] =>
      let v := fresh "v" in
      let H := fresh in
      destruct (bind_call_returns_some env reply value c f s) as [v H];
      [ side | rewrite H; clear H ]
  end;
  cbv beta; cbn [start_time trace record].

(** Runs a chain of returning calls. *)
Ltac exec_by side := exec_pure; repeat (exec_call_by side; exec_pure).
Ltac exec Hok := exec_by ltac:(call_side Hok).

(** ** The loop *)

Section Loop_facts.

Context {Time : Type}.
Variable limit : Z.

(** Total correctness of the loop: [P] holds at the head of every pass,
    every pass that continues has counted one more attempt, and [Q] holds
    of the way the loop ends.  The fuel [run] gives is enough. *)
Lemma while_loop_rule (attempt : Z -> M Time Flow)
    (P : Z -> State Time -> Prop)
    (Q : State Time -> Result unit -> Prop) :
  (forall a s, P a s -> a <= limit ->
     match attempt a s with
     | (s1, Ok Break) => Q s1 (Ok tt)
     | (s1, Ok (Continue a')) => a' = a + 1 /\ P a' s1
     | (s1, Raise e) => Q s1 (Raise e)
     end) ->
  (forall a s, P a s -> limit < a -> Q s (Ok tt)) ->
  forall fuel a s,
    P a s -> (Z.to_nat (limit + 1 - a) <= fuel)%nat ->
    exists s' r, while_loop attempt limit fuel a s = Some (s', r) /\ Q s' r.
Proof.
  intros Hstep Hexit fuel.
  induction fuel as [| fuel IH]; intros a s HP Hfuel; cbn [while_loop].
  - destruct (Z.leb_spec a limit) as [Hle | Hgt]; [lia |].
    exists s, (Ok tt). split; [reflexivity | apply (Hexit a); assumption].
  - destruct (Z.leb_spec a limit) as [Hle | Hgt].
    + specialize (Hstep a s HP Hle).
      destruct (attempt a s) as [s1 [[| a'] | e]].
      * exists s1, (Ok tt). split; [reflexivity | exact Hstep].
      * destruct Hstep as [-> HP1]. apply IH; [exact HP1 | lia].
      * exists s1, (Raise e). split; [reflexivity | exact Hstep].
    + exists s, (Ok tt). split; [reflexivity | apply (Hexit a); assumption].
Qed.

(** Two loops whose passes end alike, run side by side. *)
Lemma while_loop_alike (attempt1 attempt2 : Z -> M Time Flow)
    (R : State Time -> State Time -> Prop) :
  (forall a s1 s2, R s1 s2 -> a <= limit ->
     match attempt1 a s1, attempt2 a s2 with
     | (t1, Ok Break), (t2, Ok Break) => R t1 t2
     | (t1, Ok (Continue a1)), (t2, Ok (Continue a2)) =>
         a1 = a + 1 /\ a2 = a + 1 /\ R t1 t2
     | (t1, Raise e1), (t2, Raise e2) => e1 = e2 /\ R t1 t2
     | _, _ => False
     end) ->
  forall fuel a s1 s2,
    R s1 s2 -> (Z.to_nat (limit + 1 - a) <= fuel)%nat ->
    exists t1 t2 r,
      while_loop attempt1 limit fuel a s1 = Some (t1, r) /\
      while_loop attempt2 limit fuel a s2 = Some (t2, r) /\
      R t1 t2.
Proof.
  intros Hstep fuel.
  induction fuel as [| fuel IH]; intros a s1 s2 HR Hfuel; cbn [while_loop].
  - destruct (Z.leb_spec a limit) as [Hle | Hgt]; [lia |].
    exists s1, s2, (Ok tt). repeat split; assumption.
  - destruct (Z.leb_spec a limit) as [Hle | Hgt].
    + specialize (Hstep a s1 s2 HR Hle).
      destruct (attempt1 a s1) as [t1 [[| a1] | e1]];
        destruct (attempt2 a s2) as [t2 [[| a2] | e2]];
        try contradiction.
      * exists t1, t2, (Ok tt). repeat split; assumption.
      * destruct Hstep as (-> & -> & HR1). apply IH; [exact HR1 | lia].
      * destruct Hstep as [-> HR1].
        exists t1, t2, (Raise e2). repeat split; assumption.
    + exists s1, s2, (Ok tt). repeat split; assumption.
Qed.

End Loop_facts.

(** ** Counting calls *)

Section Count_facts.

Context {Time : Type}.
Variable env : Env Time.

Lemma adds_refl p (s : State Time) : adds p 0 s s.
Proof. reflexivity. Qed.

Lemma adds_trans p j k (s s1 s2 : State Time) :
  adds p j s s1 -> adds p k s1 s2 -> adds p (k + j) s s2.
Proof. unfold adds. intros H1 H2. rewrite H2, H1. lia. Qed.

Lemma adds_keeps {A} p (m : M Time A) s : keeps p m -> adds p 0 s (fst (m s)).
Proof. intros H. unfold adds, count_calls. rewrite H. reflexivity. Qed.

Lemma reported_refl (s : State Time) : reported 0 0 [] s s.
Proof. repeat split. Qed.

Lemma reported_trans a b t c d u (s s1 s2 : State Time) :
  reported a b t s s1 -> reported c d u s1 s2 ->
  reported (c + a) (d + b) (u ++ t)%list s s2.
Proof.
  intros (H1 & H2 & H3 & H4) (K1 & K2 & K3 & K4).
  unfold reported, adds in *.
  rewrite K1, K2, K3, K4, H1, H2, H3, H4, app_assoc.
  repeat split; lia.
Qed.

Lemma reported_keeps {A} (m : M Time A) s :
  keeps (is_finish_with SUCCESS) m -> keeps (is_finish_with FAILED) m ->
  keeps is_finish_task m -> keeps is_telegram m ->
  reported 0 0 [] s (fst (m s)).
Proof.
  intros H1 H2 H3 H4. unfold reported.
  repeat split; try (apply adds_keeps; assumption).
  rewrite H4. reflexivity.
Qed.

(** A call that satisfies [p], followed by calls that do not. *)
Lemma events_bind_call {A B} p reply (value : list (Event Time) -> A) c
    (f : A -> M Time B) s :
  p c = true -> (forall a, keeps p (f a)) ->
  exists r,
    events_of p (trace (fst (bind (call_with env reply value c) f s))) =
    (c, r) :: events_of p (trace s).
Proof.
  intros Hp Hf. unfold bind, call_with.
  destruct (if may_raise c then raises env (trace s) c else None);
    cbn [fst]; [| rewrite Hf ];
    cbn [record trace events_of filter fst]; rewrite Hp;
    eexists; reflexivity.
Qed.

(** The task function, followed by calls that are not the task function. *)
Lemma events_bind_main {B} (f : unit -> M Time B) s :
  (forall a, keeps is_main (f a)) ->
  events_of is_main (trace (fst (bind (call env Main) f s))) =
  (Main, main_reply env (trace s)) :: events_of is_main (trace s).
Proof.
  intros Hf. unfold bind, call, call_with, main_reply. cbn [may_raise].
  destruct (raises env (trace s) Main); cbn [fst]; [| rewrite Hf ];
    reflexivity.
Qed.

Lemma count_cons p (ev : Event Time) tr :
  count_calls p (ev :: tr) =
  ((if p (fst ev) then 1 else 0) + count_calls p tr)%nat.
Proof.
  unfold count_calls, events_of. cbn [filter].
  destruct (p (fst ev)); reflexivity.
Qed.

End Count_facts.

(** ** The two [try] forms *)

Section Try_facts.

Context {Time : Type} {A : Type}.
Variables (body : M Time A) (handler : Exn -> M Time A) (final : M Time unit).

Lemma try_except_returns s s1 a :
  body s = (s1, Ok a) -> try_except body handler s = (s1, Ok a).
Proof. intros H. unfold try_except. rewrite H. reflexivity. Qed.

Lemma try_except_caught s s1 e :
  body s = (s1, Raise e) -> is_Exception e = true ->
  try_except body handler s = handler e s1.
Proof. intros H He. unfold try_except. rewrite H, He. reflexivity. Qed.

Lemma try_except_passes s s1 e :
  body s = (s1, Raise e) -> is_Exception e = false ->
  try_except body handler s = (s1, Raise e).
Proof. intros H He. unfold try_except. rewrite H, He. reflexivity. Qed.

Lemma try_finally_returns s s1 s2 r u :
  body s = (s1, r) -> final s1 = (s2, Ok u) ->
  try_finally body final s = (s2, r).
Proof. intros H1 H2. unfold try_finally. rewrite H1, H2. reflexivity. Qed.

Lemma try_finally_raises s s1 s2 r e :
  body s = (s1, r) -> final s1 = (s2, Raise e) ->
  try_finally body final s = (s2, Raise e).
Proof. intros H1 H2. unfold try_finally. rewrite H1, H2. reflexivity. Qed.

End Try_facts.

(** ** Facts about [BotRunnerMaestro] *)

Ltac unfold_maestro :=
  unfold BotRunnerMaestro.run_try, BotRunnerMaestro.run_except,
    BotRunnerMaestro._add_log_file_into_maestro,
    BotRunnerMaestro._insert_database_log_execution,
    BotRunnerMaestro._get_execution_time,
    BotRunnerMaestro._get_resource_usage,
    BotRunnerMaestro._execute_bot_task, BotRunnerMaestro.notify in *.

Section Maestro_facts.

Context {Time : Type}.
Variable int_sub : Time -> Time -> Z.
Variable env : Env Time.
Variable self : Attrs.

Local Abbreviation run_try := (BotRunnerMaestro.run_try int_sub env self).
Local Abbreviation run_except := (BotRunnerMaestro.run_except env self).
Local Abbreviation final := (BotRunnerMaestro._add_log_file_into_maestro env self).
Local Abbreviation run_attempt := (BotRunnerMaestro.run_attempt int_sub env self).
Local Abbreviation run_while := (BotRunnerMaestro.run_while int_sub env self).
Local Abbreviation run := (BotRunnerMaestro.run int_sub env self).

Lemma maestro_run_while_eq fuel a s :
  run_while fuel a s = while_loop run_attempt (max_retries self) fuel a s.
Proof.
  revert a s. induction fuel as [| fuel IH]; intros a s; cbn; [reflexivity |].
  destruct (a <=? max_retries self); [| reflexivity].
  destruct (run_attempt a s) as [s1 [[| a'] | e]]; auto.
Qed.

(** *** Calls each block does not make *)

Lemma maestro_try_keeps_artifact a : keeps is_post_artifact (run_try a).
Proof. unfold_maestro. keeps_tac. Qed.

Lemma maestro_except_keeps p a e :
  is_post_artifact = p \/ is_main = p -> keeps p (run_except a e).
Proof.
  intros [<- | <-]; unfold_maestro; keeps_tac.
Qed.

Lemma maestro_final_keeps_main : keeps is_main final.
Proof. unfold_maestro. keeps_tac. Qed.

Lemma maestro_final_reports s : reported 0 0 [] s (fst (final s)).
Proof. apply reported_keeps; unfold_maestro; keeps_tac. Qed.

(** *** One pass: the calls made in every world *)

(** Every pass calls the task function exactly once. *)
Lemma maestro_attempt_main a s :
  events_of is_main (trace (fst (run_attempt a s))) =
  (Main, main_reply env (task_history env a s)) :: events_of is_main (trace s).
Proof.
  unfold BotRunnerMaestro.run_attempt.
  rewrite events_try_finally, maestro_final_keeps_main.
  rewrite events_try_except_keeps
    by (intro; apply maestro_except_keeps; auto).
  unfold BotRunnerMaestro.run_try, BotRunnerMaestro._execute_bot_task.
  unfold logger_info, time_time.
  rewrite bind_call_returns by reflexivity. exec_pure.
  unfold call at 1.
  rewrite bind_call_returns by reflexivity. exec_pure.
  rewrite events_bind_main; [reflexivity |].
  intros _. unfold_maestro. keeps_tac.
Qed.

(** Every pass uploads the log file to the orchestrator exactly once. *)
Lemma maestro_attempt_artifact a s :
  exists c r,
    is_post_artifact c = true /\
    events_of is_post_artifact (trace (fst (run_attempt a s))) =
    (c, r) :: events_of is_post_artifact (trace s).
Proof.
  unfold BotRunnerMaestro.run_attempt.
  rewrite events_try_finally.
  unfold BotRunnerMaestro._add_log_file_into_maestro.
  rewrite events_try_except_keeps by (intro; keeps_tac).
  unfold call at 1.
  match goal with
  | |- context [bind (call_with env ?reply ?value ?c) ?f ?s0] =>
      destruct (events_bind_call env is_post_artifact reply value c f s0)
        as [r Hr]; [reflexivity | intro; keeps_tac |];
      exists c, r; split; [reflexivity | rewrite Hr]
  end.
  f_equal.
  apply (keeps_try_except is_post_artifact).
  - apply maestro_try_keeps_artifact.
  - intro. apply maestro_except_keeps; auto.
Qed.

(** *** How a pass can end *)

Lemma maestro_try_returns_break a s s' fl :
  run_try a s = (s', Ok fl) -> fl = Break.
Proof.
  intros H. unfold BotRunnerMaestro.run_try in H.
  repeat (apply bind_Ok_inv in H; destruct H as (? & ? & _ & H); cbv beta in H).
  inversion H. reflexivity.
Qed.

Lemma maestro_except_continue a e s s' a' :
  run_except a e s = (s', Ok (Continue a')) ->
  a' = a + 1 /\ a + 1 <= max_retries self.
Proof.
  intros H. unfold BotRunnerMaestro.run_except in H. cbv zeta in H.
  do 4 (apply bind_Ok_inv in H; destruct H as (? & ? & _ & H); cbv beta in H).
  destruct (Z.gtb_spec (a + 1) (max_retries self)) as [Hgt | Hle].
  - do 3 (apply bind_Ok_inv in H; destruct H as (? & ? & _ & H); cbv beta in H).
    discriminate H.
  - apply bind_Ok_inv in H. destruct H as (? & ? & _ & H).
    inversion H. split; [reflexivity | lia].
Qed.

(** A pass that continues has counted one more attempt, and the budget
    allows it. *)
Lemma maestro_attempt_continue a s s' a' :
  run_attempt a s = (s', Ok (Continue a')) ->
  a' = a + 1 /\ a + 1 <= max_retries self.
Proof.
  unfold BotRunnerMaestro.run_attempt, try_finally, try_except.
  destruct (run_try a s) as [s1 [fl | e]] eqn:Etry.
  - destruct (final s1) as [s2 [u | e2]]; intros H; inversion H; subst.
    apply maestro_try_returns_break in Etry. discriminate Etry.
  - destruct (is_Exception e).
    + destruct (run_except a e s1) as [s2 r] eqn:Eexc.
      destruct (final s2) as [s3 [u | e3]]; intros H; inversion H; subst.
      eapply maestro_except_continue. exact Eexc.
    + destruct (final s1) as [s2 [u | e2]]; intros H; inversion H.
Qed.

(** [run] returns in every world: the fuel it is given is enough. *)
Lemma maestro_run_returns s : exists s' r, run s = Some (s', r).
Proof.
  unfold BotRunnerMaestro.run. rewrite maestro_run_while_eq.
  destruct (while_loop_rule (max_retries self) run_attempt
              (fun _ _ => True) (fun _ _ => True)) with
    (fuel := Z.to_nat (max_retries self + 1)) (a := 0) (s := s)
    as (s' & r & H & _).
  - intros a s0 _ _.
    destruct (run_attempt a s0) as [s1 [[| a'] | e]] eqn:E; auto.
    apply maestro_attempt_continue in E. tauto.
  - auto.
  - exact I.
  - lia.
  - exists s', r. exact H.
Qed.

(** *** One pass when the collaborators return *)

Hypothesis Hok : returns_unless env is_main.

Lemma maestro_try_success a s :
  raises env (task_history env a s) Main = None ->
  exists s1,
    run_try a s = (s1, Ok Break) /\
    reported 1 0 (notify_calls self (success_text self)) s s1.
Proof.
  intros Hm. unfold task_history in Hm.
  unfold_maestro. unfold notify_calls. to_call_with.
  rewrite bind_call_returns by reflexivity. exec_pure.
  rewrite bind_call_returns by reflexivity. exec_pure.
  rewrite bind_call_returns by exact Hm. exec Hok.
  destruct (use_telegram self); exec Hok;
    (eexists; split; [reflexivity | repeat split]).
Qed.

Lemma maestro_try_fails a s e :
  raises env (task_history env a s) Main = Some e ->
  exists s1, run_try a s = (s1, Raise e) /\ reported 0 0 [] s s1.
Proof.
  intros Hm. unfold task_history in Hm.
  unfold_maestro. to_call_with.
  rewrite bind_call_returns by reflexivity. exec_pure.
  rewrite bind_call_returns by reflexivity. exec_pure.
  erewrite bind_call_raises by exact Hm.
  eexists; split; [reflexivity | repeat split].
Qed.

Lemma maestro_except_retry a e s :
  a + 1 <= max_retries self ->
  exists s2,
    run_except a e s = (s2, Ok (Continue (a + 1))) /\
    reported 0 1 (notify_calls self (error_text self e)) s s2.
Proof.
  intros Hle. unfold_maestro. unfold notify_calls. cbv zeta.
  destruct (Z.gtb_spec (a + 1) (max_retries self)) as [Hgt | _]; [lia |].
  to_call_with.
  destruct (use_telegram self); exec Hok;
    (eexists; split; [reflexivity | repeat split]).
Qed.

Lemma maestro_except_gives_up a e s :
  max_retries self < a + 1 ->
  exists s2,
    run_except a e s = (s2, Raise e) /\
    reported 0 1 (notify_calls self (error_text self e)) s s2.
Proof.
  intros Hlt. unfold_maestro. unfold notify_calls. cbv zeta.
  destruct (Z.gtb_spec (a + 1) (max_retries self)) as [_ | Hle]; [| lia].
  to_call_with.
  destruct (use_telegram self); exec Hok;
    (eexists; split; [reflexivity | repeat split]).
Qed.

Lemma maestro_final_returns s :
  exists s3, final s = (s3, Ok tt) /\ reported 0 0 [] s s3.
Proof.
  pose proof (maestro_final_reports s) as Hrep.
  revert Hrep. unfold_maestro. to_call_with.
  erewrite try_except_returns.
  - intros Hrep. eexists; split; [reflexivity | exact Hrep].
  - exec Hok. reflexivity.
Qed.

Lemma maestro_attempt_spec :
  attempt_spec env self 1 run_attempt.
Proof.
  unfold attempt_spec. split; [exact maestro_attempt_main |].
  unfold BotRunnerMaestro.run_attempt.
  split; [| split; [| split]].
  - (* the task function returns *)
    intros a s Hm.
    destruct (maestro_try_success a s Hm) as (s1 & Et & R1).
    destruct (maestro_final_returns s1) as (s3 & Ef & R3).
    exists s3. split.
    + eapply try_finally_returns; [| exact Ef].
      apply try_except_returns. exact Et.
    + exact (reported_trans _ _ _ _ _ _ _ _ _ R1 R3).
  - (* it raises, attempts remain *)
    intros a s e Hm He Hle.
    destruct (maestro_try_fails a s e Hm) as (s1 & Et & R1).
    destruct (maestro_except_retry a e s1 Hle) as (s2 & Ee & R2).
    destruct (maestro_final_returns s2) as (s3 & Ef & R3).
    exists s3. split.
    + eapply try_finally_returns; [| exact Ef].
      rewrite (try_except_caught _ _ _ _ _ Et He). exact Ee.
    + pose proof (reported_trans _ _ _ _ _ _ _ _ _ R1 R2) as R12.
      pose proof (reported_trans _ _ _ _ _ _ _ _ _ R12 R3) as R.
      rewrite app_nil_r in R. exact R.
  - (* it raises, no attempt remains *)
    intros a s e Hm He Hlt.
    destruct (maestro_try_fails a s e Hm) as (s1 & Et & R1).
    destruct (maestro_except_gives_up a e s1 Hlt) as (s2 & Ee & R2).
    destruct (maestro_final_returns s2) as (s3 & Ef & R3).
    exists s3. split.
    + eapply try_finally_returns; [| exact Ef].
      rewrite (try_except_caught _ _ _ _ _ Et He). exact Ee.
    + pose proof (reported_trans _ _ _ _ _ _ _ _ _ R1 R2) as R12.
      pose proof (reported_trans _ _ _ _ _ _ _ _ _ R12 R3) as R.
      rewrite app_nil_r in R. exact R.
  - (* it raises past [except Exception] *)
    intros a s e Hm He.
    destruct (maestro_try_fails a s e Hm) as (s1 & Et & R1).
    destruct (maestro_final_returns s1) as (s3 & Ef & R3).
    exists s3. split.
    + eapply try_finally_returns; [| exact Ef].
      apply try_except_passes; assumption.
    + exact (reported_trans _ _ _ _ _ _ _ _ _ R1 R3).
Qed.

End Maestro_facts.

(** ** Facts about [BotRunnerLocal] *)

Ltac unfold_local :=
  unfold BotRunnerLocal.run_try, BotRunnerLocal.run_except,
    BotRunnerLocal._insert_database_log_execution,
    BotRunnerLocal._get_execution_time,
    BotRunnerLocal._get_resource_usage,
    BotRunnerLocal._execute_bot_task, BotRunnerLocal.notify in *.

Section Local_facts.

Context {Time : Type}.
Variable int_sub : Time -> Time -> Z.
Variable env : Env Time.
Variable self : Attrs.

Local Abbreviation run_try := (BotRunnerLocal.run_try int_sub env self).
Local Abbreviation run_except := (BotRunnerLocal.run_except env self).
Local Abbreviation run_attempt := (BotRunnerLocal.run_attempt int_sub env self).
Local Abbreviation run_while := (BotRunnerLocal.run_while int_sub env self).
Local Abbreviation run := (BotRunnerLocal.run int_sub env self).

Lemma local_run_while_eq fuel a s :
  run_while fuel a s = while_loop run_attempt (max_retries self) fuel a s.
Proof.
  revert a s. induction fuel as [| fuel IH]; intros a s; cbn; [reflexivity |].
  destruct (a <=? max_retries self); [| reflexivity].
  destruct (run_attempt a s) as [s1 [[| a'] | e]]; auto.
Qed.

(** *** Calls the loop body does not make *)

(** This class reports nothing to the orchestrator. *)
Lemma local_attempt_keeps_orchestrator a :
  keeps is_orchestrator_report (run_attempt a).
Proof. unfold BotRunnerLocal.run_attempt. unfold_local. keeps_tac. Qed.

Lemma local_attempt_keeps_artifact a : keeps is_post_artifact (run_attempt a).
Proof. unfold BotRunnerLocal.run_attempt. unfold_local. keeps_tac. Qed.

Lemma local_attempt_keeps_finish a : keeps is_finish_task (run_attempt a).
Proof. unfold BotRunnerLocal.run_attempt. unfold_local. keeps_tac. Qed.

Lemma local_except_keeps_main a e : keeps is_main (run_except a e).
Proof. unfold_local. keeps_tac. Qed.

(** *** One pass: the calls made in every world *)

(** Every pass calls the task function exactly once. *)
Lemma local_attempt_main a s :
  events_of is_main (trace (fst (run_attempt a s))) =
  (Main, main_reply env (task_history env a s)) :: events_of is_main (trace s).
Proof.
  unfold BotRunnerLocal.run_attempt.
  rewrite events_try_except_keeps
    by (intro; apply local_except_keeps_main).
  unfold BotRunnerLocal.run_try, BotRunnerLocal._execute_bot_task.
  unfold logger_info, time_time.
  rewrite bind_call_returns by reflexivity. exec_pure.
  unfold call at 1.
  rewrite bind_call_returns by reflexivity. exec_pure.
  rewrite events_bind_main; [reflexivity |].
  intros _. unfold_local. keeps_tac.
Qed.

(** *** How a pass can end *)

Lemma local_try_returns_break a s s' fl :
  run_try a s = (s', Ok fl) -> fl = Break.
Proof.
  intros H. unfold BotRunnerLocal.run_try in H.
  repeat (apply bind_Ok_inv in H; destruct H as (? & ? & _ & H); cbv beta in H).
  inversion H. reflexivity.
Qed.

Lemma local_except_continue a e s s' a' :
  run_except a e s = (s', Ok (Continue a')) ->
  a' = a + 1 /\ a + 1 <= max_retries self.
Proof.
  intros H. unfold BotRunnerLocal.run_except in H. cbv zeta in H.
  do 2 (apply bind_Ok_inv in H; destruct H as (? & ? & _ & H); cbv beta in H).
  destruct (Z.gtb_spec (a + 1) (max_retries self)) as [Hgt | Hle].
  - apply bind_Ok_inv in H. destruct H as (? & ? & _ & H). discriminate H.
  - apply bind_Ok_inv in H. destruct H as (? & ? & _ & H).
    inversion H. split; [reflexivity | lia].
Qed.

(** A pass that continues has counted one more attempt, and the budget
    allows it. *)
Lemma local_attempt_continue a s s' a' :
  run_attempt a s = (s', Ok (Continue a')) ->
  a' = a + 1 /\ a + 1 <= max_retries self.
Proof.
  unfold BotRunnerLocal.run_attempt, try_except.
  destruct (run_try a s) as [s1 [fl | e]] eqn:Etry.
  - intros H; inversion H; subst.
    apply local_try_returns_break in Etry. discriminate Etry.
  - destruct (is_Exception e).
    + apply local_except_continue.
    + intros H; inversion H.
Qed.

(** [run] returns in every world: the fuel it is given is enough. *)
Lemma local_run_returns s : exists s' r, run s = Some (s', r).
Proof.
  unfold BotRunnerLocal.run. rewrite local_run_while_eq.
  destruct (while_loop_rule (max_retries self) run_attempt
              (fun _ _ => True) (fun _ _ => True)) with
    (fuel := Z.to_nat (max_retries self + 1)) (a := 0) (s := s)
    as (s' & r & H & _).
  - intros a s0 _ _.
    destruct (run_attempt a s0) as [s1 [[| a'] | e]] eqn:E; auto.
    apply local_attempt_continue in E. tauto.
  - auto.
  - exact I.
  - lia.
  - exists s', r. exact H.
Qed.

(** *** One pass when the collaborators return *)

Hypothesis Hok : returns_unless env is_main.

Lemma local_try_success a s :
  raises env (task_history env a s) Main = None ->
  exists s1,
    run_try a s = (s1, Ok Break) /\
    reported 0 0 (notify_calls self (success_text self)) s s1.
Proof.
  intros Hm. unfold task_history in Hm.
  unfold_local. unfold notify_calls. to_call_with.
  rewrite bind_call_returns by reflexivity. exec_pure.
  rewrite bind_call_returns by reflexivity. exec_pure.
  rewrite bind_call_returns by exact Hm. exec Hok.
  destruct (use_telegram self); exec Hok;
    (eexists; split; [reflexivity | repeat split]).
Qed.

Lemma local_try_fails a s e :
  raises env (task_history env a s) Main = Some e ->
  exists s1, run_try a s = (s1, Raise e) /\ reported 0 0 [] s s1.
Proof.
  intros Hm. unfold task_history in Hm.
  unfold_local. to_call_with.
  rewrite bind_call_returns by reflexivity. exec_pure.
  rewrite bind_call_returns by reflexivity. exec_pure.
  erewrite bind_call_raises by exact Hm.
  eexists; split; [reflexivity | repeat split].
Qed.

Lemma local_except_retry a e s :
  a + 1 <= max_retries self ->
  exists s2,
    run_except a e s = (s2, Ok (Continue (a + 1))) /\
    reported 0 0 (notify_calls self (error_text self e)) s s2.
Proof.
  intros Hle. unfold_local. unfold notify_calls. cbv zeta.
  destruct (Z.gtb_spec (a + 1) (max_retries self)) as [Hgt | _]; [lia |].
  to_call_with.
  destruct (use_telegram self); exec Hok;
    (eexists; split; [reflexivity | repeat split]).
Qed.

Lemma local_except_gives_up a e s :
  max_retries self < a + 1 ->
  exists s2,
    run_except a e s = (s2, Raise e) /\
    reported 0 0 (notify_calls self (error_text self e)) s s2.
Proof.
  intros Hlt. unfold_local. unfold notify_calls. cbv zeta.
  destruct (Z.gtb_spec (a + 1) (max_retries self)) as [_ | Hle]; [| lia].
  to_call_with.
  destruct (use_telegram self); exec Hok;
    (eexists; split; [reflexivity | repeat split]).
Qed.

Lemma local_attempt_spec :
  attempt_spec env self 0 run_attempt.
Proof.
  unfold attempt_spec. split; [exact local_attempt_main |].
  unfold BotRunnerLocal.run_attempt.
  split; [| split; [| split]].
  - intros a s Hm.
    destruct (local_try_success a s Hm) as (s1 & Et & R1).
    exists s1. split; [apply try_except_returns; exact Et | exact R1].
  - intros a s e Hm He Hle.
    destruct (local_try_fails a s e Hm) as (s1 & Et & R1).
    destruct (local_except_retry a e s1 Hle) as (s2 & Ee & R2).
    exists s2. split.
    + rewrite (try_except_caught _ _ _ _ _ Et He). exact Ee.
    + pose proof (reported_trans _ _ _ _ _ _ _ _ _ R1 R2) as R.
      rewrite app_nil_r in R. exact R.
  - intros a s e Hm He Hlt.
    destruct (local_try_fails a s e Hm) as (s1 & Et & R1).
    destruct (local_except_gives_up a e s1 Hlt) as (s2 & Ee & R2).
    exists s2. split.
    + rewrite (try_except_caught _ _ _ _ _ Et He). exact Ee.
    + pose proof (reported_trans _ _ _ _ _ _ _ _ _ R1 R2) as R.
      rewrite app_nil_r in R. exact R.
  - intros a s e Hm He.
    destruct (local_try_fails a s e Hm) as (s1 & Et & R1).
    exists s1. split; [apply try_except_passes; assumption | exact R1].
Qed.

End Local_facts.

(** ** The retry loop over a loop body that meets [attempt_spec] *)

Section Retry_facts.

Context {Time : Type}.
Variable env : Env Time.
Variable self : Attrs.

Local Abbreviation N := (max_retries self).

Lemma adds_event p k (s s1 s2 : State Time) ev :
  events_of p (trace s2) = ev :: events_of p (trace s1) ->
  adds p k s s1 -> adds p (S k) s s2.
Proof.
  unfold adds, count_calls. intros H1 H2.
  rewrite H1. cbn [List.length]. rewrite H2. lia.
Qed.

Lemma adds_step p j k m (s s1 s2 : State Time) :
  adds p j s s1 -> adds p k s1 s2 -> m = (k + j)%nat -> adds p m s s2.
Proof. intros H1 H2 ->. eapply adds_trans; eassumption. Qed.

(** The task function sees as many earlier invocations as the pass
    started with. *)
Lemma count_main_task_history a (s : State Time) :
  count_calls is_main (task_history env a s) = count_calls is_main (trace s).
Proof. reflexivity. Qed.

Section One_loop.

Variable fin : nat.
Variable attempt : Z -> M Time Flow.
Hypothesis Hspec : attempt_spec env self fin attempt.
Hypothesis Hbudget : 0 <= N.

Local Abbreviation loop := (while_loop attempt N (Z.to_nat (N + 1)) 0).

(** The task function always raises: [N + 1] invocations, then the
    error of the last one. *)
Lemma retry_always_fails s :
  (forall h, exists e, raises env h Main = Some e /\ is_Exception e = true) ->
  exists s' e,
    loop s = Some (s', Raise e) /\
    adds is_main (Z.to_nat (N + 1)) s s' /\
    last_reply is_main (trace s') = Some (Raised e).
Proof.
  intros Hfail.
  destruct Hspec as (Hmain & _ & Hretry & Hgive & _).
  destruct (while_loop_rule N attempt
              (fun a s1 => 0 <= a <= N /\ adds is_main (Z.to_nat a) s s1)
              (fun s' r => exists e, r = Raise e /\
                 adds is_main (Z.to_nat (N + 1)) s s' /\
                 last_reply is_main (trace s') = Some (Raised e)))
    with (fuel := Z.to_nat (N + 1)) (a := 0) (s := s)
    as (s' & r & Hrun & e & -> & Hn & Hlast).
  - intros a s1 [Ha Hadds] _.
    destruct (Hfail (task_history env a s1)) as (e & Hm & He).
    pose proof (Hmain a s1) as Hev.
    destruct (Z_le_gt_dec (a + 1) N) as [Hle | Hgt].
    + destruct (Hretry a s1 e Hm He Hle) as (s2 & Eatt & _).
      rewrite Eatt in Hev |- *. cbn [fst] in Hev.
      split; [reflexivity |]. split; [lia |].
      replace (Z.to_nat (a + 1)) with (S (Z.to_nat a)) by lia.
      eapply adds_event; eassumption.
    + destruct (Hgive a s1 e Hm He ltac:(lia)) as (s2 & Eatt & _).
      rewrite Eatt in Hev |- *. cbn [fst] in Hev.
      exists e. split; [reflexivity |]. split.
      * replace (Z.to_nat (N + 1)) with (S (Z.to_nat a)) by lia.
        eapply adds_event; eassumption.
      * unfold last_reply. rewrite Hev. unfold main_reply. rewrite Hm.
        reflexivity.
  - intros a s1 [Ha _] Hlt. lia.
  - split; [lia | apply adds_refl].
  - lia.
  - exists s', e. auto.
Qed.

(** The task function raises on its first [k <= N] invocations and
    returns on the next: [k + 1] invocations, then a normal return. *)
Lemma retry_fails_then_succeeds s (k : nat) :
  Z.of_nat k <= N ->
  (forall h,
     (count_calls is_main h < k + count_calls is_main (trace s))%nat ->
     exists e, raises env h Main = Some e /\ is_Exception e = true) ->
  (forall h,
     count_calls is_main h = (k + count_calls is_main (trace s))%nat ->
     raises env h Main = None) ->
  exists s', loop s = Some (s', Ok tt) /\ adds is_main (S k) s s'.
Proof.
  intros Hk Hfail Hsucc.
  destruct Hspec as (Hmain & Hsuccess & Hretry & _ & _).
  destruct (while_loop_rule N attempt
              (fun a s1 => 0 <= a <= Z.of_nat k /\
                           adds is_main (Z.to_nat a) s s1)
              (fun s' r => r = Ok tt /\ adds is_main (S k) s s'))
    with (fuel := Z.to_nat (N + 1)) (a := 0) (s := s)
    as (s' & r & Hrun & -> & Hn).
  - intros a s1 [Ha Hadds] _.
    pose proof (Hmain a s1) as Hev.
    pose proof (count_main_task_history a s1) as Hcount.
    rewrite Hadds in Hcount.
    destruct (Z_lt_ge_dec a (Z.of_nat k)) as [Hlt | Hge].
    + destruct (Hfail (task_history env a s1)) as (e & Hm & He);
        [rewrite Hcount; lia |].
      destruct (Hretry a s1 e Hm He ltac:(lia)) as (s2 & Eatt & _).
      rewrite Eatt in Hev |- *. cbn [fst] in Hev.
      split; [reflexivity |]. split; [lia |].
      replace (Z.to_nat (a + 1)) with (S (Z.to_nat a)) by lia.
      eapply adds_event; eassumption.
    + assert (Hm : raises env (task_history env a s1) Main = None)
        by (apply Hsucc; rewrite Hcount; lia).
      destruct (Hsuccess a s1 Hm) as (s2 & Eatt & _).
      rewrite Eatt in Hev |- *. cbn [fst] in Hev.
      split; [reflexivity |].
      replace k with (Z.to_nat a) by lia.
      eapply adds_event; eassumption.
  - intros a s1 [Ha _] Hlt. lia.
  - split; [lia | apply adds_refl].
  - lia.
  - exists s'. auto.
Qed.

(** What [finish_task] is called with, when every error of the task
    function is an [Exception]: once per pass, FAILED after a pass that
    raised, SUCCESS after the pass that returned. *)
Lemma retry_reports s :
  (forall h e, raises env h Main = Some e -> is_Exception e = true) ->
  exists s' r n,
    loop s = Some (s', r) /\
    (1 <= n)%nat /\
    adds is_main n s s' /\
    adds is_finish_task (fin * n) s s' /\
    adds (is_finish_with SUCCESS) (if returned r then fin else 0) s s' /\
    adds (is_finish_with FAILED)
      (fin * (n - (if returned r then 1 else 0))) s s'.
Proof.
  intros Hexc.
  destruct Hspec as (Hmain & Hsuccess & Hretry & Hgive & _).
  destruct (while_loop_rule N attempt
              (fun a s1 => 0 <= a <= N /\
                 adds is_main (Z.to_nat a) s s1 /\
                 adds is_finish_task (fin * Z.to_nat a) s s1 /\
                 adds (is_finish_with SUCCESS) 0 s s1 /\
                 adds (is_finish_with FAILED) (fin * Z.to_nat a) s s1)
              (fun s' r => exists n,
                 (1 <= n)%nat /\
                 adds is_main n s s' /\
                 adds is_finish_task (fin * n) s s' /\
                 adds (is_finish_with SUCCESS)
                   (if returned r then fin else 0) s s' /\
                 adds (is_finish_with FAILED)
                   (fin * (n - (if returned r then 1 else 0))) s s'))
    with (fuel := Z.to_nat (N + 1)) (a := 0) (s := s)
    as (s' & r & Hrun & n & Hn & H1 & H2 & H3 & H4).
  - intros a s1 (Ha & Am & Af & As & Ax) _.
    pose proof (Hmain a s1) as Hev.
    destruct (raises env (task_history env a s1) Main) as [e |] eqn:Hm.
    + pose proof (Hexc _ _ Hm) as He.
      destruct (Z_le_gt_dec (a + 1) N) as [Hle | Hgt].
      * destruct (Hretry a s1 e Hm He Hle) as (s2 & Eatt & Bs & Bx & Bf & _).
        rewrite Eatt in Hev |- *. cbn [fst] in Hev.
        split; [reflexivity |].
        replace (Z.to_nat (a + 1)) with (S (Z.to_nat a)) by lia.
        split; [lia |].
        split; [eapply adds_event; eassumption |].
        split; [eapply adds_step; [exact Af | exact Bf | nia] |].
        split; [eapply adds_step; [exact As | exact Bs | nia] |].
        eapply adds_step; [exact Ax | exact Bx | nia].
      * destruct (Hgive a s1 e Hm He ltac:(lia))
          as (s2 & Eatt & Bs & Bx & Bf & _).
        rewrite Eatt in Hev |- *. cbn [fst] in Hev.
        exists (S (Z.to_nat a)). cbn [returned].
        split; [lia |].
        split; [eapply adds_event; eassumption |].
        split; [eapply adds_step; [exact Af | exact Bf | nia] |].
        split; [eapply adds_step; [exact As | exact Bs | nia] |].
        eapply adds_step; [exact Ax | exact Bx | nia].
    + destruct (Hsuccess a s1 Hm) as (s2 & Eatt & Bs & Bx & Bf & _).
      rewrite Eatt in Hev |- *. cbn [fst] in Hev.
      exists (S (Z.to_nat a)). cbn [returned].
      split; [lia |].
      split; [eapply adds_event; eassumption |].
      split; [eapply adds_step; [exact Af | exact Bf | nia] |].
      split; [eapply adds_step; [exact As | exact Bs | nia] |].
      eapply adds_step; [exact Ax | exact Bx | nia].
  - intros a s1 [Ha _] Hlt. lia.
  - replace (Z.to_nat 0) with 0%nat by reflexivity.
    rewrite Nat.mul_0_r.
    repeat split; solve [lia | apply adds_refl].
  - lia.
  - exists s', r, n. auto 10.
Qed.

End One_loop.

Section Two_loops.

Variables fin1 fin2 : nat.
Variables attempt1 attempt2 : Z -> M Time Flow.
Hypothesis Hspec1 : attempt_spec env self fin1 attempt1.
Hypothesis Hspec2 : attempt_spec env self fin2 attempt2.

(** How the task function ends depends only on how often it was
    called before. *)
Hypothesis Hcount :
  forall h h',
    count_calls is_main h = count_calls is_main h' ->
    raises env h Main = raises env h' Main.

(** Two loops over the same task function invoke it alike, notify
    Telegram alike and end alike. *)
Lemma retry_alike s1 s2 :
  events_of is_main (trace s1) = events_of is_main (trace s2) ->
  map fst (events_of is_telegram (trace s1)) =
  map fst (events_of is_telegram (trace s2)) ->
  exists t1 t2 r,
    while_loop attempt1 N (Z.to_nat (N + 1)) 0 s1 = Some (t1, r) /\
    while_loop attempt2 N (Z.to_nat (N + 1)) 0 s2 = Some (t2, r) /\
    events_of is_main (trace t1) = events_of is_main (trace t2) /\
    map fst (events_of is_telegram (trace t1)) =
    map fst (events_of is_telegram (trace t2)).
Proof.
  intros Hm0 Ht0.
  destruct Hspec1 as (Hmain1 & Hsuccess1 & Hretry1 & Hgive1 & Hpass1).
  destruct Hspec2 as (Hmain2 & Hsuccess2 & Hretry2 & Hgive2 & Hpass2).
  destruct (while_loop_alike N attempt1 attempt2
              (fun t1 t2 =>
                 events_of is_main (trace t1) = events_of is_main (trace t2) /\
                 map fst (events_of is_telegram (trace t1)) =
                 map fst (events_of is_telegram (trace t2))))
    with (fuel := Z.to_nat (N + 1)) (a := 0) (s1 := s1) (s2 := s2)
    as (t1 & t2 & r & Hr1 & Hr2 & Hm & Ht).
  - intros a u1 u2 [Hm Ht] _.
    pose proof (Hmain1 a u1) as Hev1.
    pose proof (Hmain2 a u2) as Hev2.
    assert (Hsame : raises env (task_history env a u1) Main =
                    raises env (task_history env a u2) Main).
    { apply Hcount. rewrite !count_main_task_history.
      unfold count_calls. rewrite Hm. reflexivity. }
    assert (Hreply : main_reply env (task_history env a u1) =
                     main_reply env (task_history env a u2))
      by (unfold main_reply; rewrite Hsame; reflexivity).
    rewrite Hreply, Hm in Hev1.
    destruct (raises env (task_history env a u2) Main) as [e |] eqn:Hm2.
    + destruct (is_Exception e) eqn:He.
      * destruct (Z_le_gt_dec (a + 1) N) as [Hle | Hgt].
        -- destruct (Hretry1 a u1 e Hsame He Hle) as (v1 & E1 & _ & _ & _ & T1).
           destruct (Hretry2 a u2 e Hm2 He Hle) as (v2 & E2 & _ & _ & _ & T2).
           rewrite E1 in Hev1 |- *. rewrite E2 in Hev2 |- *.
           cbn [fst] in Hev1, Hev2.
           repeat split; congruence.
        -- destruct (Hgive1 a u1 e Hsame He ltac:(lia))
             as (v1 & E1 & _ & _ & _ & T1).
           destruct (Hgive2 a u2 e Hm2 He ltac:(lia))
             as (v2 & E2 & _ & _ & _ & T2).
           rewrite E1 in Hev1 |- *. rewrite E2 in Hev2 |- *.
           cbn [fst] in Hev1, Hev2.
           repeat split; congruence.
      * destruct (Hpass1 a u1 e Hsame He) as (v1 & E1 & _ & _ & _ & T1).
        destruct (Hpass2 a u2 e Hm2 He) as (v2 & E2 & _ & _ & _ & T2).
        rewrite E1 in Hev1 |- *. rewrite E2 in Hev2 |- *.
        cbn [fst] in Hev1, Hev2.
        repeat split; congruence.
    + destruct (Hsuccess1 a u1 Hsame) as (v1 & E1 & _ & _ & _ & T1).
      destruct (Hsuccess2 a u2 Hm2) as (v2 & E2 & _ & _ & _ & T2).
      rewrite E1 in Hev1 |- *. rewrite E2 in Hev2 |- *.
      cbn [fst] in Hev1, Hev2.
      repeat split; congruence.
  - split; assumption.
  - lia.
  - exists t1, t2, r. auto.
Qed.

End Two_loops.

End Retry_facts.

(** ** Invariants of the loop, in every world *)

Section Loop_invariants.

Context {Time : Type}.
Variable attempt : Z -> M Time Flow.
Variable limit : Z.

Lemma while_loop_preserves (I : State Time -> Prop) :
  (forall a s, I s -> I (fst (attempt a s))) ->
  forall fuel a s s' r,
    I s -> while_loop attempt limit fuel a s = Some (s', r) -> I s'.
Proof.
  intros Hstep fuel.
  induction fuel as [| fuel IH]; intros a s s' r HI; cbn [while_loop];
    destruct (a <=? limit); try discriminate;
    try (intros H; inversion H; subst; exact HI).
  specialize (Hstep a s HI).
  destruct (attempt a s) as [s1 [[| a'] | e]]; cbn [fst] in Hstep.
  - intros H; inversion H; subst; exact Hstep.
  - apply IH. exact Hstep.
  - intros H; inversion H; subst; exact Hstep.
Qed.

(** A loop whose body makes no call that satisfies [p] makes none. *)
Lemma while_loop_keeps p fuel a s s' r :
  (forall a, keeps p (attempt a)) ->
  while_loop attempt limit fuel a s = Some (s', r) ->
  adds p 0 s s'.
Proof.
  intros Hk.
  apply (while_loop_preserves (fun t => adds p 0 s t)).
  - intros a0 t Ht. unfold adds, count_calls in *. rewrite Hk. exact Ht.
  - apply adds_refl.
Qed.

(** A loop whose body makes one call that satisfies [p] and one that
    satisfies [q] makes as many of the one as of the other. *)
Lemma while_loop_pairs p q fuel a s s' r :
  (forall a s, exists ev,
      events_of p (trace (fst (attempt a s))) = ev :: events_of p (trace s)) ->
  (forall a s, exists ev,
      events_of q (trace (fst (attempt a s))) = ev :: events_of q (trace s)) ->
  while_loop attempt limit fuel a s = Some (s', r) ->
  exists n, adds p n s s' /\ adds q n s s'.
Proof.
  intros Hp Hq.
  apply (while_loop_preserves
           (fun t => exists n, adds p n s t /\ adds q n s t)).
  - intros a0 t (n & Hn1 & Hn2).
    destruct (Hp a0 t) as [ev1 H1]. destruct (Hq a0 t) as [ev2 H2].
    exists (S n). split; eapply adds_event; eassumption.
  - exists 0%nat. split; apply adds_refl.
Qed.

End Loop_invariants.

(** ** The retry contract of [run] *)

Section Run_contract.

Context {Time : Type}.
Variable int_sub : Time -> Time -> Z.
Variable env : Env Time.
Variable self : Attrs.

(** C1.  When the task function raises an error on every invocation (and
    the collaborators return), [run], in both classes, invokes it exactly
    [max_retries + 1] times and then raises the error of the last
    invocation. *)
Theorem run_failing_task_exhausts_retries (s : State Time) :
  0 <= max_retries self ->
  returns_unless env is_main ->
  (forall h, exists e, raises env h Main = Some e /\ is_Exception e = true) ->
  (exists s' e,
      BotRunnerMaestro.run int_sub env self s = Some (s', Raise e) /\
      adds is_main (Z.to_nat (max_retries self + 1)) s s' /\
      last_reply is_main (trace s') = Some (Raised e)) /\
  (exists s' e,
      BotRunnerLocal.run int_sub env self s = Some (s', Raise e) /\
      adds is_main (Z.to_nat (max_retries self + 1)) s s' /\
      last_reply is_main (trace s') = Some (Raised e)).
Proof.
  intros HN Hok Hfail. split.
  - unfold BotRunnerMaestro.run. rewrite maestro_run_while_eq.
    eapply retry_always_fails; eauto using maestro_attempt_spec.
  - unfold BotRunnerLocal.run. rewrite local_run_while_eq.
    eapply retry_always_fails; eauto using local_attempt_spec.
Qed.

(** C3.  When the task function raises on its first [k <= max_retries]
    invocations and returns on the next one (and the collaborators
    return), [run], in both classes, invokes it exactly [k + 1] times and
    returns normally. *)
Theorem run_succeeds_after_failures (s : State Time) (k : nat) :
  0 <= max_retries self ->
  Z.of_nat k <= max_retries self ->
  returns_unless env is_main ->
  (forall h,
     (count_calls is_main h < k + count_calls is_main (trace s))%nat ->
     exists e, raises env h Main = Some e /\ is_Exception e = true) ->
  (forall h,
     count_calls is_main h = (k + count_calls is_main (trace s))%nat ->
     raises env h Main = None) ->
  (exists s',
      BotRunnerMaestro.run int_sub env self s = Some (s', Ok tt) /\
      adds is_main (k + 1) s s') /\
  (exists s',
      BotRunnerLocal.run int_sub env self s = Some (s', Ok tt) /\
      adds is_main (k + 1) s s').
Proof.
  intros HN Hk Hok Hfail Hsucc.
  replace (k + 1)%nat with (S k) by lia. split.
  - unfold BotRunnerMaestro.run. rewrite maestro_run_while_eq.
    eapply retry_fails_then_succeeds; eauto using maestro_attempt_spec.
  - unfold BotRunnerLocal.run. rewrite local_run_while_eq.
    eapply retry_fails_then_succeeds; eauto using local_attempt_spec.
Qed.

(** C2, as the code has it.  [BotRunnerMaestro.run] calls [finish_task]
    once per attempt, not once per run: with FAILED after every attempt in
    which the task function raised, also when the attempt is retried, and
    with SUCCESS after the attempt in which it returned.  So, with [n] the
    number of attempts made, there are [n] calls; one of them carries
    SUCCESS exactly when [run] returns normally, and the others carry
    FAILED.  [BotRunnerLocal.run] never calls [finish_task]. *)
Theorem finish_task_once_per_attempt (s : State Time) :
  0 <= max_retries self ->
  returns_unless env is_main ->
  (forall h e, raises env h Main = Some e -> is_Exception e = true) ->
  (exists s' r n,
      BotRunnerMaestro.run int_sub env self s = Some (s', r) /\
      (1 <= n)%nat /\
      adds is_main n s s' /\
      adds is_finish_task n s s' /\
      adds (is_finish_with SUCCESS) (if returned r then 1 else 0) s s' /\
      adds (is_finish_with FAILED) (n - (if returned r then 1 else 0)) s s') /\
  (exists s' r,
      BotRunnerLocal.run int_sub env self s = Some (s', r) /\
      adds is_finish_task 0 s s').
Proof.
  intros HN Hok Hexc. split.
  - destruct (retry_reports env self 1
                (BotRunnerMaestro.run_attempt int_sub env self)
                (maestro_attempt_spec int_sub env self Hok) HN s Hexc)
      as (s' & r & n & Hrun & Hn & H1 & H2 & H3 & H4).
    exists s', r, n.
    unfold BotRunnerMaestro.run. rewrite maestro_run_while_eq.
    rewrite Nat.mul_1_l in H2, H4.
    repeat split; assumption.
  - destruct (local_run_returns int_sub env self s) as (s' & r & Hrun).
    exists s', r. split; [exact Hrun |].
    unfold BotRunnerLocal.run in Hrun. rewrite local_run_while_eq in Hrun.
    eapply while_loop_keeps; [| exact Hrun].
    apply local_attempt_keeps_finish.
Qed.

(** C4, as the code has it.  [BotRunnerMaestro.run] uploads the log file
    to the orchestrator once per invocation of the task function, in every
    world: whether the attempt returned or raised, and whatever the
    collaborators did.  [BotRunnerLocal.run] has no [finally] and uploads
    no artifact at all. *)
Theorem post_artifact_once_per_attempt_in_maestro (s : State Time) :
  (exists s' r n,
      BotRunnerMaestro.run int_sub env self s = Some (s', r) /\
      adds is_main n s s' /\
      adds is_post_artifact n s s') /\
  (exists s' r,
      BotRunnerLocal.run int_sub env self s = Some (s', r) /\
      adds is_post_artifact 0 s s').
Proof.
  split.
  - destruct (maestro_run_returns int_sub env self s) as (s' & r & Hrun).
    pose proof Hrun as Hloop.
    unfold BotRunnerMaestro.run in Hloop.
    rewrite maestro_run_while_eq in Hloop.
    apply (while_loop_pairs _ _ is_main is_post_artifact) in Hloop.
    + destruct Hloop as (n & Hn1 & Hn2). exists s', r, n. auto.
    + intros a t. eexists. apply maestro_attempt_main.
    + intros a t.
      destruct (maestro_attempt_artifact int_sub env self a t)
        as (c & rp & _ & H).
      eexists. exact H.
  - destruct (local_run_returns int_sub env self s) as (s' & r & Hrun).
    exists s', r. split; [exact Hrun |].
    unfold BotRunnerLocal.run in Hrun. rewrite local_run_while_eq in Hrun.
    eapply while_loop_keeps; [| exact Hrun].
    apply local_attempt_keeps_artifact.
Qed.

(** C5, as the code has it.  For the same task function (one whose
    outcome depends only on how often it was called) and the same
    attributes, with collaborators that return, the two [run]s invoke the
    task function alike, with the same outcomes, make the same Telegram
    calls and end alike.  Their other side effects differ:
    [BotRunnerLocal.run] makes none of the orchestrator calls ([error],
    [finish_task], [post_artifact]) that [BotRunnerMaestro.run] makes. *)
Theorem variants_agree_on_task_and_telegram (s : State Time) :
  returns_unless env is_main ->
  (forall h h',
     count_calls is_main h = count_calls is_main h' ->
     raises env h Main = raises env h' Main) ->
  exists t1 t2 r,
    BotRunnerMaestro.run int_sub env self s = Some (t1, r) /\
    BotRunnerLocal.run int_sub env self s = Some (t2, r) /\
    events_of is_main (trace t1) = events_of is_main (trace t2) /\
    calls_of is_telegram (trace t1) = calls_of is_telegram (trace t2) /\
    adds is_orchestrator_report 0 s t2.
Proof.
  intros Hok Hcount.
  destruct (retry_alike env self 1 0
              (BotRunnerMaestro.run_attempt int_sub env self)
              (BotRunnerLocal.run_attempt int_sub env self)
              (maestro_attempt_spec int_sub env self Hok)
              (local_attempt_spec int_sub env self Hok)
              Hcount s s eq_refl eq_refl)
    as (t1 & t2 & r & H1 & H2 & Hm & Ht).
  exists t1, t2, r.
  unfold BotRunnerMaestro.run, BotRunnerLocal.run.
  rewrite maestro_run_while_eq, local_run_while_eq.
  repeat split; try assumption.
  - unfold calls_of. rewrite Ht. reflexivity.
  - eapply while_loop_keeps; [| exact H2].
    apply local_attempt_keeps_orchestrator.
Qed.

End Run_contract.

(** ** The execution time *)

Section Execution_time.

Lemma format_02_two_digits n :
  0 <= n < 100 -> String.length (format_02 n) = 2%nat.
Proof.
  intros Hn.
  rewrite <- (Z2Nat.id n) by lia.
  assert (Hk : (Z.to_nat n < 100)%nat) by lia.
  generalize dependent (Z.to_nat n). clear n Hn. intros k Hk.
  do 100 (destruct k as [| k]; [reflexivity |]).
  lia.
Qed.

(** The four fields are the days, and the hours, minutes and seconds of
    the day. *)
Lemma format_execution_time_fields e :
  format_execution_time e =
  format_02 (e / 86400) ++ ":" ++ format_02 (e / 3600 mod 24) ++ ":" ++
  format_02 (e / 60 mod 60) ++ ":" ++ format_02 (e mod 60).
Proof.
  unfold format_execution_time, divmod.
  replace (e mod 86400 / 3600) with (e / 3600 mod 24)
    by (Z.div_mod_to_equations; lia).
  replace ((e mod 86400) mod 3600 / 60) with (e / 60 mod 60)
    by (Z.div_mod_to_equations; lia).
  replace (((e mod 86400) mod 3600) mod 60) with (e mod 60)
    by (Z.div_mod_to_equations; lia).
  reflexivity.
Qed.

Lemma length_append (a b : string) :
  String.length (a ++ b) = (String.length a + String.length b)%nat.
Proof. induction a as [| c a IH]; cbn; [reflexivity | rewrite IH; reflexivity]. Qed.

(** Below a hundred days every field has two digits. *)
Lemma format_execution_time_length e :
  0 <= e < 8640000 -> String.length (format_execution_time e) = 11%nat.
Proof.
  intros He. rewrite format_execution_time_fields.
  repeat rewrite length_append.
  rewrite !format_02_two_digits; [reflexivity | | | |];
    Z.div_mod_to_equations; lia.
Qed.

Context {Time : Type}.
Variable int_sub : Time -> Time -> Z.
Variable env : Env Time.


(** C10.  While [start_time] is [None], [_get_execution_time], in both
    classes, returns "Execution time not available" and does not read the
    clock. *)
Theorem execution_time_not_available (s : State Time) :
  start_time s = None ->
  BotRunnerMaestro._get_execution_time int_sub env s =
    (s, Ok "Execution time not available") /\
  BotRunnerLocal._get_execution_time int_sub env s =
    (s, Ok "Execution time not available").
Proof.
  intros Hstart.
  unfold BotRunnerMaestro._get_execution_time,
    BotRunnerLocal._get_execution_time.
  rewrite !bind_get_start_time, Hstart. split; reflexivity.
Qed.

End Execution_time.

(** ** The execution time of an attempt *)

Ltac in_trace :=
  cbn [trace record In];
  repeat first [ left; reflexivity | right ].

Section Timing.

Context {Time : Type}.
Variable int_sub : Time -> Time -> Z.
Variable env : Env Time.
Variable self : Attrs.

(** A pass overwrites [start_time] before it does anything else: it runs
    the same whatever [start_time] an earlier pass left. *)
Lemma maestro_attempt_resets_start_time a s t :
  BotRunnerMaestro.run_attempt int_sub env self a (mkState t (trace s)) =
  BotRunnerMaestro.run_attempt int_sub env self a s.
Proof.
  unfold BotRunnerMaestro.run_attempt, try_finally, try_except,
    BotRunnerMaestro.run_try, time_time.
  rewrite !bind_call_returns by reflexivity.
  rewrite !bind_set_start_time. reflexivity.
Qed.

Lemma local_attempt_resets_start_time a s t :
  BotRunnerLocal.run_attempt int_sub env self a (mkState t (trace s)) =
  BotRunnerLocal.run_attempt int_sub env self a s.
Proof.
  unfold BotRunnerLocal.run_attempt, try_except,
    BotRunnerLocal.run_try, time_time.
  rewrite !bind_call_returns by reflexivity.
  rewrite !bind_set_start_time. reflexivity.
Qed.

Section Collaborators_return.

Hypothesis Hok : returns_unless env is_main.

(** The times a successful pass of [BotRunnerMaestro.run] reports. *)
Lemma maestro_attempt_reports_time a s :
raises env (task_history env a s) Main = None ->
exists s' t1 t2 usage,
  BotRunnerMaestro.run_attempt int_sub env self a s = (s', Ok Break) /\
  start_time s' = Some (clock env (trace s)) /\
  events_of is_time_time (trace s') =
    (Time_time, Returned_time t2) :: (Time_time, Returned_time t1) ::
    (Time_time, Returned_time (clock env (trace s))) ::
    events_of is_time_time (trace s) /\
  In (Logger_info
        ("Execution time: " ++
         format_execution_time (int_sub t1 (clock env (trace s)))),
      Returned) (trace s') /\
  events_of is_finish_task (trace s') =
    (Maestro_finish_task (task_id (execution self)) SUCCESS
       ("Execution time: " ++
        format_execution_time (int_sub t1 (clock env (trace s))) ++
        nl ++ "Resource usage at end of execution: " ++ usage),
     Returned) :: events_of is_finish_task (trace s) /\
  events_of is_sql_execute (trace s') =
    (Sql_execute_query_from_file "botcity_aux\sql\query\insert_log.sql"
       [bot_name self; dev self; sector self; stakeholder self;
        recurrence self;
        format_execution_time (int_sub t2 (clock env (trace s)))],
     Returned) :: events_of is_sql_execute (trace s).
Proof.
intros Hm. unfold task_history in Hm.
unfold BotRunnerMaestro.run_attempt. unfold_maestro.
unfold try_finally, try_except. to_call_with.
rewrite bind_call_returns by reflexivity. exec_pure.
rewrite bind_call_returns by reflexivity. exec_pure.
rewrite bind_call_returns by exact Hm. exec Hok.
destruct (use_telegram self); exec Hok; unfold ret; exec Hok;
  unfold ret; cbv beta iota;
  do 4 eexists; (split; [reflexivity |]);
  (split; [reflexivity |]); (split; [reflexivity |]);
  (split; [in_trace |]); repeat split.
Qed.

(** The times a successful pass of [BotRunnerLocal.run] reports. *)
Lemma local_attempt_reports_time a s :
raises env (task_history env a s) Main = None ->
exists s' t1 t2,
  BotRunnerLocal.run_attempt int_sub env self a s = (s', Ok Break) /\
  start_time s' = Some (clock env (trace s)) /\
  events_of is_time_time (trace s') =
    (Time_time, Returned_time t2) :: (Time_time, Returned_time t1) ::
    (Time_time, Returned_time (clock env (trace s))) ::
    events_of is_time_time (trace s) /\
  In (Logger_info
        ("Execution time: " ++
         format_execution_time (int_sub t1 (clock env (trace s)))),
      Returned) (trace s') /\
  events_of is_sql_execute (trace s') =
    (Sql_execute_query_from_file "botcity_aux\sql\query\insert_log.sql"
       [bot_name self; dev self; sector self; stakeholder self;
        recurrence self;
        format_execution_time (int_sub t2 (clock env (trace s)))],
     Returned) :: events_of is_sql_execute (trace s).
Proof.
intros Hm. unfold task_history in Hm.
unfold BotRunnerLocal.run_attempt, try_except.
unfold_local. to_call_with.
rewrite bind_call_returns by reflexivity. exec_pure.
rewrite bind_call_returns by reflexivity. exec_pure.
rewrite bind_call_returns by exact Hm. exec Hok.
destruct (use_telegram self); exec Hok; unfold ret; cbv beta iota;
  do 3 eexists; (split; [reflexivity |]);
  (split; [reflexivity |]); (split; [reflexivity |]);
  (split; [in_trace |]); repeat split.
Qed.

End Collaborators_return.

(** C9.  In both classes, a pass through the loop in which the task
    function returns reads the clock exactly three times: at the top of
    the pass ([started], which it stores in [start_time]), for the
    execution time it logs and puts into the [finish_task] message ([t1])
    and for the one it inserts into the database ([t2]).  Every time it
    reports (one log line, one [finish_task] message, one database row)
    is measured from [started], the reading of that very pass;
    and the pass runs the same whatever [start_time] an earlier attempt
    left, so nothing accumulates across retries. *)
Theorem execution_time_from_current_attempt (a : Z) (s : State Time) :
  returns_unless env is_main ->
  raises env (task_history env a s) Main = None ->
  let started := clock env (trace s) in
  (exists s' t1 t2 usage,
      BotRunnerMaestro.run_attempt int_sub env self a s = (s', Ok Break) /\
      start_time s' = Some started /\
      events_of is_time_time (trace s') =
        (Time_time, Returned_time t2) :: (Time_time, Returned_time t1) ::
        (Time_time, Returned_time started) ::
        events_of is_time_time (trace s) /\
      In (Logger_info
            ("Execution time: " ++ format_execution_time (int_sub t1 started)),
          Returned) (trace s') /\
      events_of is_finish_task (trace s') =
        (Maestro_finish_task (task_id (execution self)) SUCCESS
           ("Execution time: " ++
            format_execution_time (int_sub t1 started) ++
            nl ++ "Resource usage at end of execution: " ++ usage),
         Returned) :: events_of is_finish_task (trace s) /\
      events_of is_sql_execute (trace s') =
        (Sql_execute_query_from_file "botcity_aux\sql\query\insert_log.sql"
           [bot_name self; dev self; sector self; stakeholder self;
            recurrence self; format_execution_time (int_sub t2 started)],
         Returned) :: events_of is_sql_execute (trace s)) /\
  (exists s' t1 t2,
      BotRunnerLocal.run_attempt int_sub env self a s = (s', Ok Break) /\
      start_time s' = Some started /\
      events_of is_time_time (trace s') =
        (Time_time, Returned_time t2) :: (Time_time, Returned_time t1) ::
        (Time_time, Returned_time started) ::
        events_of is_time_time (trace s) /\
      In (Logger_info
            ("Execution time: " ++ format_execution_time (int_sub t1 started)),
          Returned) (trace s') /\
      events_of is_sql_execute (trace s') =
        (Sql_execute_query_from_file "botcity_aux\sql\query\insert_log.sql"
           [bot_name self; dev self; sector self; stakeholder self;
            recurrence self; format_execution_time (int_sub t2 started)],
         Returned) :: events_of is_sql_execute (trace s)) /\
  (forall earlier,
      BotRunnerMaestro.run_attempt int_sub env self a
        (mkState earlier (trace s)) =
      BotRunnerMaestro.run_attempt int_sub env self a s /\
      BotRunnerLocal.run_attempt int_sub env self a
        (mkState earlier (trace s)) =
      BotRunnerLocal.run_attempt int_sub env self a s).
Proof.
  intros Hok Hm started. split; [| split].
  - apply maestro_attempt_reports_time; assumption.
  - apply local_attempt_reports_time; assumption.
  - intros earlier. split.
    + apply maestro_attempt_resets_start_time.
    + apply local_attempt_resets_start_time.
Qed.

End Timing.

(** ** The constructors *)

Section Init.

Context {Time : Type}.
Variable env : Env Time.

Lemma bind_returns {A B} (m : M Time A) (f : A -> M Time B) s s1 a :
  m s = (s1, Ok a) -> bind m f s = f a s1.
Proof. intros H. unfold bind. rewrite H. reflexivity. Qed.

(** The constructors never call the task function. *)
Lemma maestro_init_keeps_main a : keeps is_main (BotRunnerMaestro.__init__ env a).
Proof.
  unfold BotRunnerMaestro.__init__, BotRunnerMaestro._setup_maestro,
    BotRunnerMaestro._get_telegram_token.
  keeps_tac.
Qed.

Lemma local_init_keeps_main a : keeps is_main (BotRunnerLocal.__init__ env a).
Proof.
  unfold BotRunnerLocal.__init__, BotRunnerLocal._get_telegram_token.
  keeps_tac.
Qed.

(** With Telegram on and no group, no constructor returns a runner. *)
Lemma maestro_init_never_returns a s s' self :
  BotRunnerMaestro.arg_use_telegram a = true ->
  not_str (BotRunnerMaestro.arg_telegram_group a) = true ->
  BotRunnerMaestro.__init__ env a s <> (s', Ok self).
Proof.
  intros Hu Hg H. unfold BotRunnerMaestro.__init__ in H.
  do 6 (apply bind_Ok_inv in H; destruct H as (? & ? & _ & H); cbv beta zeta in H).
  apply bind_Ok_inv in H. destruct H as (? & ? & H & _).
  rewrite Hu, Hg in H. discriminate H.
Qed.

Lemma local_init_never_returns a s s' self :
  BotRunnerLocal.arg_use_telegram a = true ->
  not_str (BotRunnerLocal.arg_telegram_group a) = true ->
  BotRunnerLocal.__init__ env a s <> (s', Ok self).
Proof.
  intros Hu Hg H. unfold BotRunnerLocal.__init__ in H.
  do 8 (apply bind_Ok_inv in H; destruct H as (? & ? & _ & H); cbv beta zeta in H).
  apply bind_Ok_inv in H. destruct H as (? & ? & H & _).
  rewrite Hu, Hg in H. discriminate H.
Qed.

Lemma maestro_setup_returns b s :
  returns_unless env (fun _ => false) ->
  exists s1 x, BotRunnerMaestro._setup_maestro env b s = (s1, Ok x).
Proof.
  intros Hall. unfold BotRunnerMaestro._setup_maestro. to_call_with.
  unfold try_except. exec Hall. do 2 eexists. reflexivity.
Qed.

(** When the calls made before the check return, the error is the
    [ValueError] of the check. *)
Lemma maestro_init_raises_ValueError a s :
  returns_unless env (fun _ => false) ->
  BotRunnerMaestro.arg_use_telegram a = true ->
  not_str (BotRunnerMaestro.arg_telegram_group a) = true ->
  snd (BotRunnerMaestro.__init__ env a s) =
  Raise (mkExn ValueError
           "Telegram group must be provided when use_telegram is True.").
Proof.
  intros Hall Hu Hg.
  unfold BotRunnerMaestro.__init__.
  to_call_with. exec Hall.
  match goal with
  | |- context [BotRunnerMaestro._setup_maestro env ?b] =>
      match goal with
      | |- context [bind (BotRunnerMaestro._setup_maestro env b) _ ?s0] =>
          destruct (maestro_setup_returns b s0 Hall) as (s1 & x & Hsetup)
      end
  end.
  rewrite (bind_returns _ _ _ _ _ Hsetup).
  exec Hall. rewrite Hu, Hg. exec_pure. reflexivity.
Qed.

Lemma local_init_raises_ValueError a s :
  returns_unless env (fun _ => false) ->
  BotRunnerLocal.arg_use_telegram a = true ->
  not_str (BotRunnerLocal.arg_telegram_group a) = true ->
  snd (BotRunnerLocal.__init__ env a s) =
  Raise (mkExn ValueError
           "Telegram group must be provided when use_telegram is True.").
Proof.
  intros Hall Hu Hg.
  unfold BotRunnerLocal.__init__.
  to_call_with. exec Hall.
  rewrite Hu, Hg. exec_pure. reflexivity.
Qed.

(** C7.  With [use_telegram=True] and [telegram_group] omitted ([None] or
    empty), neither constructor returns a runner, so there is nothing to
    call [run] on, and neither has called the task function; when the
    calls a constructor makes before the check return, what it raises is
    the [ValueError] of the check. *)
Theorem init_rejects_missing_telegram_group
    (am : BotRunnerMaestro.InitArgs) (al : BotRunnerLocal.InitArgs)
    (s : State Time) :
  BotRunnerMaestro.arg_use_telegram am = true ->
  not_str (BotRunnerMaestro.arg_telegram_group am) = true ->
  BotRunnerLocal.arg_use_telegram al = true ->
  not_str (BotRunnerLocal.arg_telegram_group al) = true ->
  let missing_group :=
    mkExn ValueError
      "Telegram group must be provided when use_telegram is True." in
  (exists s' e,
      BotRunnerMaestro.__init__ env am s = (s', Raise e) /\
      adds is_main 0 s s' /\
      (returns_unless env (fun _ => false) -> e = missing_group)) /\
  (exists s' e,
      BotRunnerLocal.__init__ env al s = (s', Raise e) /\
      adds is_main 0 s s' /\
      (returns_unless env (fun _ => false) -> e = missing_group)).
Proof.
  intros Hum Hgm Hul Hgl missing_group. split.
  - pose proof (maestro_init_never_returns am s) as Hnever.
    pose proof (maestro_init_raises_ValueError am s) as Hvalue.
    pose proof (adds_keeps is_main _ s (maestro_init_keeps_main am)) as Hmain.
    destruct (BotRunnerMaestro.__init__ env am s) as [s' [self | e]].
    + exfalso. eapply Hnever; eauto.
    + exists s', e. repeat split; [exact Hmain |].
      intros Hall. specialize (Hvalue Hall Hum Hgm). cbn [snd] in Hvalue.
      inversion Hvalue. reflexivity.
  - pose proof (local_init_never_returns al s) as Hnever.
    pose proof (local_init_raises_ValueError al s) as Hvalue.
    pose proof (adds_keeps is_main _ s (local_init_keeps_main al)) as Hmain.
    destruct (BotRunnerLocal.__init__ env al s) as [s' [self | e]].
    + exfalso. eapply Hnever; eauto.
    + exists s', e. repeat split; [exact Hmain |].
      intros Hall. specialize (Hvalue Hall Hul Hgl). cbn [snd] in Hvalue.
      inversion Hvalue. reflexivity.
Qed.

End Init.

(** ** Errors of the reporting calls in [BotRunnerMaestro.run] *)

(** Settles how many calls a predicate picks in a trace whose recent
    entries are known. *)
Ltac count_known :=
  unfold adds, count_calls, events_of in *;
  cbn [trace record start_time fst snd filter List.length
       is_main is_post_artifact is_maestro_error is_finish_with
       is_send_message is_upload_document is_list_folders is_upload_files
       is_get_credential is_sql_new is_sql_connect is_sql_execute
       is_sql_disconnect];
  lia.

(** The call at hand is the first of its kind after [s]: it raises. *)
Ltac raise_first Hfirst :=
  erewrite bind_call_raises
    by (cbn [may_raise]; apply Hfirst; [reflexivity | count_known]);
  cbv beta iota.

Section Reporting_errors.

Context {Time : Type}.
Variable int_sub : Time -> Time -> Z.
Variable env : Env Time.
Variable self : Attrs.

Local Abbreviation final := (BotRunnerMaestro._add_log_file_into_maestro env self).
Local Abbreviation run_attempt := (BotRunnerMaestro.run_attempt int_sub env self).
Local Abbreviation run := (BotRunnerMaestro.run int_sub env self).

(** The first pass of [run], when the budget is not negative. *)
Lemma maestro_run_first_pass s :
  0 <= max_retries self ->
  run s =
  match run_attempt 0 s with
  | (s1, Ok Break) => Some (s1, Ok tt)
  | (s1, Ok (Continue a')) =>
      BotRunnerMaestro.run_while int_sub env self
        (Z.to_nat (max_retries self)) a' s1
  | (s1, Raise e) => Some (s1, Raise e)
  end.
Proof.
  intros HN. unfold BotRunnerMaestro.run.
  replace (Z.to_nat (max_retries self + 1))
    with (S (Z.to_nat (max_retries self))) by lia.
  cbn [BotRunnerMaestro.run_while].
  destruct (Z.leb_spec 0 (max_retries self)); [reflexivity | lia].
Qed.

Lemma attempt_adds_main a s :
  adds is_main 1 s (fst (run_attempt a s)).
Proof.
  unfold adds, count_calls. rewrite maestro_attempt_main. reflexivity.
Qed.

(** A first pass that raises ends [run]. *)
Lemma run_raises_after_first_pass s e :
  0 <= max_retries self ->
  snd (run_attempt 0 s) = Raise e ->
  exists s', run s = Some (s', Raise e) /\ adds is_main 1 s s'.
Proof.
  intros HN Hr. rewrite (maestro_run_first_pass s HN).
  pose proof (attempt_adds_main 0 s) as Hm.
  destruct (run_attempt 0 s) as [s1 r]. cbn [fst snd] in *. subst r.
  exists s1. split; [reflexivity | exact Hm].
Qed.

Ltac start_pass :=
  unfold BotRunnerMaestro.run_attempt; unfold_maestro;
  unfold try_finally, try_except; to_call_with; cbv zeta.

(** *** A report in the [except] block *)

(** The task function raises [e]; a report of that failure raises [e1]:
    the pass ends with [e1] in place of [e]. *)
Lemma maestro_attempt_error_report_raises s guilty e e1 :
  first_call_raises env guilty e1 s ->
  In guilty (except_reports self) ->
  returns_unless env (fun c => is_main c || guilty c) ->
  raises env (task_history env 0 s) Main = Some e ->
  is_Exception e = true ->
  snd (run_attempt 0 s) = Raise e1.
Proof.
  intros Hfirst Hin Hothers Hm He. unfold task_history in Hm.
  start_pass.
  rewrite bind_call_returns by reflexivity. exec_pure.
  rewrite bind_call_returns by reflexivity. exec_pure.
  erewrite bind_call_raises by exact Hm.
  cbv beta iota. rewrite He.
  unfold except_reports in Hin. apply in_app_or in Hin.
  destruct Hin as [Hin | Hin].
  - cbn [In] in Hin. destruct Hin as [<- | [<- | []]];
      exec Hothers; raise_first Hfirst; exec Hothers; reflexivity.
  - destruct (use_telegram self); [| contradiction].
    cbn [In] in Hin. destruct Hin as [<- | [<- | []]];
      exec Hothers; raise_first Hfirst; exec Hothers; reflexivity.
Qed.


(** *** The upload in the [finally] block *)

Lemma maestro_body_keeps_artifact a :
  keeps is_post_artifact
    (try_except (BotRunnerMaestro.run_try int_sub env self a)
                (BotRunnerMaestro.run_except env self a)).
Proof.
  apply keeps_try_except.
  - apply maestro_try_keeps_artifact.
  - intro. apply maestro_except_keeps; auto.
Qed.

Lemma maestro_final_raises s s1 e1 :
  first_call_raises env is_post_artifact e1 s ->
  count_calls is_post_artifact (trace s1) =
  count_calls is_post_artifact (trace s) ->
  snd (final s1) = Raise e1.
Proof.
  intros Hfirst Hcount.
  unfold BotRunnerMaestro._add_log_file_into_maestro, try_except.
  to_call_with.
  erewrite bind_call_raises
    by (cbn [may_raise]; apply Hfirst; [reflexivity | exact Hcount]).
  destruct (is_Exception e1); [| reflexivity].
  rewrite bind_call_returns by reflexivity. reflexivity.
Qed.

(** Whatever the task function and the other collaborators did, the pass
    ends with the error of the upload. *)
Lemma maestro_attempt_raises_upload_error s e1 :
  first_call_raises env is_post_artifact e1 s ->
  snd (run_attempt 0 s) = Raise e1.
Proof.
  intros Hfirst.
  pose proof (maestro_body_keeps_artifact 0 s) as Hkeep.
  unfold BotRunnerMaestro.run_attempt, try_finally.
  destruct (try_except _ _ s) as [s1 r]. cbn [fst] in Hkeep.
  assert (H : snd (final s1) = Raise e1).
  { apply (maestro_final_raises s); [exact Hfirst |].
    unfold count_calls. rewrite Hkeep. reflexivity. }
  destruct (final s1) as [s2 [u | e]]; cbn [snd] in *; congruence.
Qed.

(** *** The file-store upload on giving up *)

Section Giving_up.

Variable s : State Time.
Variable guilty : Call -> bool.
Variable e1 : Exn.
Hypothesis Hfirst : first_call_raises env guilty e1 s.
Hypothesis Hin : In guilty give_up_reports.
Hypothesis Hothers : returns_unless env (fun c => is_main c || guilty c).

(** A failed attempt that is retried does not touch the file store. *)
Lemma maestro_attempt_retry_keeps_upload a s0 e :
  raises env (task_history env a s0) Main = Some e ->
  is_Exception e = true ->
  a + 1 <= max_retries self ->
  snd (run_attempt a s0) = Ok (Continue (a + 1)) /\
  adds guilty 0 s0 (fst (run_attempt a s0)).
Proof.
  intros Hm He Hle. unfold task_history in Hm.
  start_pass.
  rewrite bind_call_returns by reflexivity. exec_pure.
  rewrite bind_call_returns by reflexivity. exec_pure.
  erewrite bind_call_raises by exact Hm.
  cbv beta iota. rewrite He.
  destruct (Z.gtb_spec (a + 1) (max_retries self)) as [Hgt | _]; [lia |].
  revert Hfirst Hothers. unfold give_up_reports in Hin. cbn [In] in Hin.
  destruct Hin as [<- | [<- | []]]; intros Hfirst' Hothers';
    destruct (use_telegram self);
    exec Hothers'; unfold ret; cbv beta iota; exec Hothers';
    (split; [reflexivity | count_known]).
Qed.

(** The attempt that gives up: the upload raises [e1], and the pass ends
    with [e1] in place of the error of the task function. *)
Lemma maestro_attempt_give_up_upload_raises a s0 e :
  raises env (task_history env a s0) Main = Some e ->
  is_Exception e = true ->
  max_retries self < a + 1 ->
  count_calls guilty (trace s0) = count_calls guilty (trace s) ->
  snd (run_attempt a s0) = Raise e1.
Proof.
  intros Hm He Hlt Hcount. unfold task_history in Hm.
  start_pass.
  rewrite bind_call_returns by reflexivity. exec_pure.
  rewrite bind_call_returns by reflexivity. exec_pure.
  erewrite bind_call_raises by exact Hm.
  cbv beta iota. rewrite He.
  destruct (Z.gtb_spec (a + 1) (max_retries self)) as [_ | Hle]; [| lia].
  revert Hfirst Hothers Hcount. unfold give_up_reports in Hin.
  cbn [In] in Hin.
  destruct Hin as [<- | [<- | []]]; intros Hfirst' Hothers' Hcount';
    destruct (use_telegram self);
    exec Hothers'; raise_first Hfirst'; exec Hothers'; reflexivity.
Qed.

(** The task function always raises: after [max_retries + 1] attempts
    [run] raises the error of the upload. *)
Lemma run_raises_give_up_upload_error :
  0 <= max_retries self ->
  (forall h, exists e, raises env h Main = Some e /\ is_Exception e = true) ->
  exists s',
    run s = Some (s', Raise e1) /\
    adds is_main (Z.to_nat (max_retries self + 1)) s s'.
Proof.
  intros HN Hfail.
  unfold BotRunnerMaestro.run. rewrite maestro_run_while_eq.
  destruct (while_loop_rule (max_retries self) run_attempt
              (fun a s1 => 0 <= a <= max_retries self /\
                 adds is_main (Z.to_nat a) s s1 /\
                 count_calls guilty (trace s1) = count_calls guilty (trace s))
              (fun s' r => r = Raise e1 /\
                 adds is_main (Z.to_nat (max_retries self + 1)) s s'))
    with (fuel := Z.to_nat (max_retries self + 1)) (a := 0) (s := s)
    as (s' & r & Hrun & -> & Hn).
  - intros a s1 (Ha & Hadds & Hcount) _.
    destruct (Hfail (task_history env a s1)) as (e & Hm & He).
    pose proof (attempt_adds_main a s1) as Hmain.
    destruct (Z_le_gt_dec (a + 1) (max_retries self)) as [Hle | Hgt].
    + destruct (maestro_attempt_retry_keeps_upload a s1 e Hm He Hle)
        as [Hr Hk].
      destruct (run_attempt a s1) as [s2 r]. cbn [fst snd] in *. subst r.
      split; [reflexivity |]. split; [lia |]. split.
      * apply (adds_step _ _ _ _ _ _ _ Hadds Hmain). lia.
      * unfold adds in Hk. rewrite Hk, Hcount. reflexivity.
    + pose proof (maestro_attempt_give_up_upload_raises a s1 e Hm He
                    ltac:(lia) Hcount) as Hr.
      destruct (run_attempt a s1) as [s2 r]. cbn [fst snd] in *. subst r.
      split; [reflexivity |].
      apply (adds_step _ _ _ _ _ _ _ Hadds Hmain). lia.
  - intros a s1 (Ha & _) Hlt. lia.
  - split; [lia |]. split; [apply adds_refl | reflexivity].
  - lia.
  - exists s'. split; assumption.
Qed.

End Giving_up.


(** *** A report in the [try] block *)

Ltac innocent Hin :=
  solve [ clear - Hin; repeat (destruct Hin as [<- | Hin]);
          try contradiction; reflexivity ].

(** The [try] block when the task function returns and the first report
    of one kind raises [e1]: the block ends there with [e1]. *)
Lemma maestro_try_report_raises a s guilty e1 :
  first_call_raises env guilty e1 s ->
  In guilty (try_reports self) ->
  returns_unless env (fun c => is_main c || guilty c) ->
  (forall h, raises env h Main = None) ->
  exists s1,
    BotRunnerMaestro.run_try int_sub env self a s = (s1, Raise e1) /\
    (count_calls guilty (trace s) < count_calls guilty (trace s1))%nat /\
    adds (is_finish_with FAILED) 0 s s1 /\
    adds is_main 1 s s1.
Proof.
  intros Hfirst Hin Hothers Htask.
  unfold BotRunnerMaestro.run_try. unfold_maestro. to_call_with. cbv zeta.
  unfold try_reports in Hin.
  destruct (use_telegram self); cbn [app In] in Hin;
    repeat first
      [ progress
          (exec_by ltac:(cbn [may_raise];
                         first [ reflexivity
                               | apply Htask
                               | apply Hothers; cbn [is_main orb];
                                 innocent Hin ]))
      | destruct Hin as [<- | Hin];
        [ raise_first Hfirst; eexists;
          (split; [reflexivity | split; [| split]; count_known]) | ] ];
    contradiction.
Qed.


Lemma count_lt_cons p n (ev : Event Time) tr :
  (n < count_calls p tr)%nat -> (n < count_calls p (ev :: tr))%nat.
Proof. rewrite count_cons. lia. Qed.

(** Once the first report of the kind [guilty] has been made, every call
    but the task function returns. *)
Section After_the_error.

Variable s : State Time.
Variable guilty : Call -> bool.
Hypothesis Hlater : later_calls_return env guilty s.
Hypothesis Hothers : returns_unless env (fun c => is_main c || guilty c).

Lemma returns_once_raised h c :
  is_main c = false ->
  (count_calls guilty (trace s) < count_calls guilty h)%nat ->
  raises env h c = None.
Proof.
  intros Hc Hlt. destruct (guilty c) eqn:Hg.
  - apply Hlater; [exact Hg | lia].
  - apply Hothers. rewrite Hc, Hg. reflexivity.
Qed.

Ltac grows Hlt :=
  cbn [trace record fst]; repeat apply count_lt_cons; exact Hlt.

Ltac later_side Hlt :=
  cbn [may_raise];
  first [ reflexivity
        | eassumption
        | apply returns_once_raised; [reflexivity | grows Hlt] ].

Ltac done_after Hlt :=
  unfold ret, raise; eexists;
  (split; [reflexivity | split; [grows Hlt | count_known]]).

Lemma maestro_except_after a e s1 :
  (count_calls guilty (trace s) < count_calls guilty (trace s1))%nat ->
  exists s2,
    BotRunnerMaestro.run_except env self a e s1 =
      (s2, if a + 1 >? max_retries self then Raise e
           else Ok (Continue (a + 1))) /\
    (count_calls guilty (trace s) < count_calls guilty (trace s2))%nat /\
    adds (is_finish_with FAILED) 1 s1 s2.
Proof.
  intros Hlt. unfold_maestro. to_call_with. cbv zeta.
  destruct (a + 1 >? max_retries self); destruct (use_telegram self);
    exec_by ltac:(later_side Hlt); done_after Hlt.
Qed.

Lemma maestro_final_after s1 :
  (count_calls guilty (trace s) < count_calls guilty (trace s1))%nat ->
  exists s2,
    final s1 = (s2, Ok tt) /\
    (count_calls guilty (trace s) < count_calls guilty (trace s2))%nat /\
    adds (is_finish_with FAILED) 0 s1 s2.
Proof.
  intros Hlt. unfold_maestro. unfold try_except. to_call_with.
  exec_by ltac:(later_side Hlt). done_after Hlt.
Qed.

Lemma maestro_try_after a s1 :
  raises env (task_history env a s1) Main = None ->
  (count_calls guilty (trace s) < count_calls guilty (trace s1))%nat ->
  exists s2,
    BotRunnerMaestro.run_try int_sub env self a s1 = (s2, Ok Break) /\
    (count_calls guilty (trace s) < count_calls guilty (trace s2))%nat /\
    adds (is_finish_with FAILED) 0 s1 s2.
Proof.
  intros Hm Hlt. unfold task_history in Hm.
  unfold BotRunnerMaestro.run_try. unfold_maestro. to_call_with. cbv zeta.
  rewrite bind_call_returns by reflexivity. exec_pure.
  rewrite bind_call_returns by reflexivity. exec_pure.
  rewrite bind_call_returns by exact Hm. cbv beta.
  destruct (use_telegram self);
    exec_by ltac:(later_side Hlt); done_after Hlt.
Qed.

(** A pass in which every call returns. *)
Lemma maestro_attempt_after a s1 :
  raises env (task_history env a s1) Main = None ->
  (count_calls guilty (trace s) < count_calls guilty (trace s1))%nat ->
  exists s2,
    run_attempt a s1 = (s2, Ok Break) /\
    adds (is_finish_with FAILED) 0 s1 s2.
Proof.
  intros Hm Hlt.
  destruct (maestro_try_after a s1 Hm Hlt) as (s2 & Et & Hlt2 & F2).
  destruct (maestro_final_after s2 Hlt2) as (s3 & Ef & _ & F3).
  exists s3. split.
  - unfold BotRunnerMaestro.run_attempt.
    eapply try_finally_returns; [| exact Ef].
    apply try_except_returns. exact Et.
  - exact (adds_trans _ _ _ _ _ _ F2 F3).
Qed.

End After_the_error.

Section In_the_try_block.

Variable s : State Time.
Variable guilty : Call -> bool.
Variable e1 : Exn.
Hypothesis Hfirst : first_call_raises env guilty e1 s.
Hypothesis Hlater : later_calls_return env guilty s.
Hypothesis He1 : is_Exception e1 = true.
Hypothesis Hin : In guilty (try_reports self).
Hypothesis Hothers : returns_unless env (fun c => is_main c || guilty c).
Hypothesis Htask : forall h, raises env h Main = None.

(** The first pass: [except Exception] handles [e1] like an error of the
    task function: it reports a failed attempt, then retries or gives
    up. *)
Lemma maestro_attempt_try_report_raises :
  exists s3,
    run_attempt 0 s =
      (s3, if 0 + 1 >? max_retries self then Raise e1
           else Ok (Continue (0 + 1))) /\
    (count_calls guilty (trace s) < count_calls guilty (trace s3))%nat /\
    adds (is_finish_with FAILED) 1 s s3.
Proof.
  destruct (maestro_try_report_raises 0 s guilty e1 Hfirst Hin Hothers Htask)
    as (s1 & Et & Hlt1 & F1 & _).
  destruct (maestro_except_after s guilty Hlater Hothers 0 e1 s1 Hlt1)
    as (s2 & Ee & Hlt2 & F2).
  destruct (maestro_final_after s guilty Hlater Hothers s2 Hlt2)
    as (s3 & Ef & Hlt3 & F3).
  exists s3. split; [| split; [exact Hlt3 |]].
  - unfold BotRunnerMaestro.run_attempt.
    eapply try_finally_returns; [| exact Ef].
    rewrite (try_except_caught _ _ _ _ _ Et He1). exact Ee.
  - pose proof (adds_trans _ _ _ _ _ _ F1 F2) as F12.
    exact (adds_trans _ _ _ _ _ _ F12 F3).
Qed.

(** Attempts remain: the task function runs again, and [run] returns
    normally; the error of the report is lost. *)
Lemma run_retries_try_report_error :
  1 <= max_retries self ->
  exists s',
    run s = Some (s', Ok tt) /\
    adds is_main 2 s s' /\
    adds (is_finish_with FAILED) 1 s s'.
Proof.
  intros HN. rewrite (maestro_run_first_pass s) by lia.
  pose proof (attempt_adds_main 0 s) as Hmain1.
  destruct maestro_attempt_try_report_raises as (s1 & E1 & Hlt1 & F1).
  rewrite E1 in Hmain1 |- *. cbn [fst] in Hmain1.
  destruct (Z.gtb_spec (0 + 1) (max_retries self)) as [Hgt | _]; [lia |].
  replace (Z.to_nat (max_retries self))
    with (S (Z.to_nat (max_retries self - 1))) by lia.
  cbn [BotRunnerMaestro.run_while].
  destruct (Z.leb_spec (0 + 1) (max_retries self)) as [_ | Hlt]; [| lia].
  pose proof (attempt_adds_main (0 + 1) s1) as Hmain2.
  destruct (maestro_attempt_after s guilty Hlater Hothers (0 + 1) s1
              (Htask _) Hlt1) as (s2 & E2 & F2).
  rewrite E2 in Hmain2 |- *. cbn [fst] in Hmain2.
  exists s2. split; [reflexivity |]. split.
  - exact (adds_trans _ _ _ _ _ _ Hmain1 Hmain2).
  - exact (adds_trans _ _ _ _ _ _ F1 F2).
Qed.

(** No attempt remains: [run] raises the error of the report. *)
Lemma run_raises_try_report_error :
  max_retries self = 0 ->
  exists s',
    run s = Some (s', Raise e1) /\
    adds is_main 1 s s' /\
    adds (is_finish_with FAILED) 1 s s'.
Proof.
  intros HN. rewrite (maestro_run_first_pass s) by lia.
  pose proof (attempt_adds_main 0 s) as Hmain1.
  destruct maestro_attempt_try_report_raises as (s1 & E1 & Hlt1 & F1).
  rewrite E1 in Hmain1 |- *. cbn [fst] in Hmain1.
  destruct (Z.gtb_spec (0 + 1) (max_retries self)) as [_ | Hle]; [| lia].
  exists s1. split; [reflexivity |]. split; assumption.
Qed.

End In_the_try_block.


End Reporting_errors.

(** ** Runs in concrete worlds *)

Section Sample_runs.

Import Sample Sample_retry.

(** C2 fails as stated.  With one retry and a task function that always
    raises, [BotRunnerMaestro.run] calls [finish_task] twice, both times
    with FAILED: not exactly once per run. *)
Lemma finish_task_called_twice :
  exists s' r,
    BotRunnerMaestro.run Z.sub (calm always_fails) (bot 1 false) fresh =
      Some (s', r) /\
    calls_of is_finish_task (trace s') =
      [Maestro_finish_task "42" FAILED
         "An error occurred during bot execution: boom";
       Maestro_finish_task "42" FAILED
         "An error occurred during bot execution: boom"] /\
    count_calls is_finish_task (trace s') <> 1%nat.
Proof.
  do 2 eexists. split; [vm_compute; reflexivity |].
  split; [reflexivity | discriminate].
Qed.

(** C4 fails as stated.  [BotRunnerLocal.run] invokes the task function
    once and uploads no artifact: the two counts differ. *)
Lemma local_run_uploads_no_artifact :
  exists s' r,
    BotRunnerLocal.run Z.sub (calm always_returns) (bot 0 false) fresh =
      Some (s', r) /\
    count_calls is_main (trace s') = 1%nat /\
    count_calls is_post_artifact (trace s') = 0%nat /\
    count_calls is_post_artifact (trace s') <> count_calls is_main (trace s').
Proof.
  do 2 eexists. split; [vm_compute; reflexivity |].
  split; [reflexivity | split; [reflexivity | discriminate]].
Qed.

(** C5 fails as stated.  For the same task function and attributes the
    two classes do not make the same sequence of calls on their
    collaborators: only [BotRunnerMaestro.run] reports to the
    orchestrator. *)
Lemma variants_differ_on_orchestrator_calls :
  exists t1 t2 r1 r2,
    BotRunnerMaestro.run Z.sub (calm always_returns) (bot 0 false) fresh =
      Some (t1, r1) /\
    BotRunnerLocal.run Z.sub (calm always_returns) (bot 0 false) fresh =
      Some (t2, r2) /\
    calls_of is_orchestrator_report (trace t1) =
      [Maestro_finish_task "42" SUCCESS
         ("Execution time: 00:00:00:03" ++ nl ++
          "Resource usage at end of execution: x");
       Maestro_post_artifact "42" "bot.log" "logs/bot.log"] /\
    calls_of is_orchestrator_report (trace t2) = [] /\
    calls_of is_side_effect (trace t1) <> calls_of is_side_effect (trace t2).
Proof.
  do 4 eexists. split; [vm_compute; reflexivity |].
  split; [vm_compute; reflexivity |].
  split; [reflexivity | split; [reflexivity | discriminate]].
Qed.


(** After a failed first attempt the second attempt reports the ten
    seconds it took itself, as a first attempt that succeeds does. *)
Example second_attempt_reports_its_own_time :
  option_map (fun out => calls_of is_sql_execute (trace (fst out)))
    (BotRunnerLocal.run Z.sub (calm (fails_first 1)) (bot 1 false) fresh) =
  Some [Sql_execute_query_from_file "botcity_aux\sql\query\insert_log.sql"
          ["bot"; "dev"; "sector"; "stakeholder"; "daily"; "00:00:00:10"]] /\
  option_map (fun out => calls_of is_sql_execute (trace (fst out)))
    (BotRunnerLocal.run Z.sub (calm always_returns) (bot 1 false) fresh) =
  Some [Sql_execute_query_from_file "botcity_aux\sql\query\insert_log.sql"
          ["bot"; "dev"; "sector"; "stakeholder"; "daily"; "00:00:00:10"]].
Proof. split; vm_compute; reflexivity. Qed.

(** The second pass, from [after_failure], starts five seconds after the
    first attempt did and takes ten seconds to the database insertion: the
    row holds ten seconds, not the fifteen since the first attempt
    began. *)
Example retry_reports_ten_seconds :
  start_time after_failure = Some 0 /\
  clock (calm (fails_first 1)) (trace after_failure) = 5 /\
  calls_of is_sql_execute
    (trace (fst (BotRunnerLocal.run_attempt Z.sub (calm (fails_first 1))
                   (bot 1 false) 1 after_failure))) =
  [Sql_execute_query_from_file "botcity_aux\sql\query\insert_log.sql"
     ["bot"; "dev"; "sector"; "stakeholder"; "daily"; "00:00:00:10"]] /\
  format_execution_time (15 - 0) = "00:00:00:15".
Proof. repeat split; vm_compute; reflexivity. Qed.

(** *** The theorems at concrete inputs *)

Lemma calm_returns outcome : returns_unless (calm outcome) is_main.
Proof. intros h c Hc. cbn. rewrite Hc. reflexivity. Defined.

Lemma calm_returns_all :
  returns_unless (calm always_returns) (fun _ => false).
Proof. intros h c _. cbn. destruct (is_main c); reflexivity. Defined.

Lemma run_failing_task_exhausts_retries_witness :
  (exists s' e,
      BotRunnerMaestro.run Z.sub (calm always_fails) (bot 2 false) fresh =
        Some (s', Raise e) /\
      adds is_main 3 fresh s' /\
      last_reply is_main (trace s') = Some (Raised e)) /\
  (exists s' e,
      BotRunnerLocal.run Z.sub (calm always_fails) (bot 2 false) fresh =
        Some (s', Raise e) /\
      adds is_main 3 fresh s' /\
      last_reply is_main (trace s') = Some (Raised e)).
Proof.
  apply (@run_failing_task_exhausts_retries Z Z.sub (calm always_fails)
           (bot 2 false) fresh).
  - cbn. lia.
  - apply calm_returns.
  - intros h. exists boom. split; reflexivity.
Defined.

Lemma run_succeeds_after_failures_witness :
  (exists s',
      BotRunnerMaestro.run Z.sub (calm (fails_first 1)) (bot 2 false) fresh =
        Some (s', Ok tt) /\
      adds is_main 2 fresh s') /\
  (exists s',
      BotRunnerLocal.run Z.sub (calm (fails_first 1)) (bot 2 false) fresh =
        Some (s', Ok tt) /\
      adds is_main 2 fresh s').
Proof.
  apply (@run_succeeds_after_failures Z Z.sub (calm (fails_first 1))
           (bot 2 false) fresh 1).
  - cbn. lia.
  - cbn. lia.
  - apply calm_returns.
  - intros h Hh. exists boom. cbn in *. unfold fails_first.
    destruct (Nat.ltb_spec (count_calls is_main h) 1);
      [split; reflexivity | lia].
  - intros h Hh. cbn in *. rewrite Hh. reflexivity.
Defined.

Lemma finish_task_once_per_attempt_witness :
  (exists s' r n,
      BotRunnerMaestro.run Z.sub (calm (fails_first 1)) (bot 2 false) fresh =
        Some (s', r) /\
      (1 <= n)%nat /\
      adds is_main n fresh s' /\
      adds is_finish_task n fresh s' /\
      adds (is_finish_with SUCCESS) (if returned r then 1 else 0) fresh s' /\
      adds (is_finish_with FAILED) (n - (if returned r then 1 else 0))
        fresh s') /\
  (exists s' r,
      BotRunnerLocal.run Z.sub (calm (fails_first 1)) (bot 2 false) fresh =
        Some (s', r) /\
      adds is_finish_task 0 fresh s').
Proof.
  apply (@finish_task_once_per_attempt Z Z.sub (calm (fails_first 1))
           (bot 2 false) fresh).
  - cbn. lia.
  - apply calm_returns.
  - intros h e. cbn. unfold fails_first.
    destruct (count_calls is_main h <? 1)%nat; intros H; inversion H.
    reflexivity.
Defined.

Lemma variants_agree_on_task_and_telegram_witness :
  exists t1 t2 r,
    BotRunnerMaestro.run Z.sub (calm (fails_first 1)) (bot 2 true) fresh =
      Some (t1, r) /\
    BotRunnerLocal.run Z.sub (calm (fails_first 1)) (bot 2 true) fresh =
      Some (t2, r) /\
    events_of is_main (trace t1) = events_of is_main (trace t2) /\
    calls_of is_telegram (trace t1) = calls_of is_telegram (trace t2) /\
    adds is_orchestrator_report 0 fresh t2.
Proof.
  apply (@variants_agree_on_task_and_telegram Z Z.sub (calm (fails_first 1))
           (bot 2 true) fresh).
  - apply calm_returns.
  - intros h h' Hh. cbn. rewrite Hh. reflexivity.
Defined.

Lemma not_main (flaky : Call -> bool) :
  flaky Main = false -> forall c, flaky c = true -> is_main c = false.
Proof. intros H [] Hc; try reflexivity. congruence. Defined.

Lemma failing_once_first outcome flaky :
  flaky Main = false ->
  first_call_raises (failing_once outcome flaky) flaky disk_full fresh.
Proof.
  intros Hf h c Hc Hn. cbn.
  rewrite (not_main flaky Hf c Hc), Hc.
  change (count_calls flaky (trace fresh)) with 0%nat in Hn.
  rewrite Hn. reflexivity.
Defined.

Lemma failing_once_later outcome flaky :
  flaky Main = false ->
  later_calls_return (failing_once outcome flaky) flaky fresh.
Proof.
  intros Hf h c Hc Hn. cbn.
  rewrite (not_main flaky Hf c Hc), Hc.
  change (count_calls flaky (trace fresh)) with 0%nat in Hn.
  apply Nat.eqb_neq in Hn. rewrite Hn. reflexivity.
Defined.

Lemma failing_once_others outcome flaky :
  returns_unless (failing_once outcome flaky)
    (fun c => is_main c || flaky c).
Proof.
  intros h c Hc. apply orb_false_elim in Hc. destruct Hc as [H1 H2].
  cbn. rewrite H1, H2. reflexivity.
Defined.


Lemma init_rejects_missing_telegram_group_witness :
  (exists s' e,
      BotRunnerMaestro.__init__ (calm always_returns)
        (maestro_args true None) fresh = (s', Raise e) /\
      adds is_main 0 fresh s' /\
      (returns_unless (calm always_returns) (fun _ => false) ->
       e = mkExn ValueError
             "Telegram group must be provided when use_telegram is True.")) /\
  (exists s' e,
      BotRunnerLocal.__init__ (calm always_returns)
        (local_args true (Some "")) fresh = (s', Raise e) /\
      adds is_main 0 fresh s' /\
      (returns_unless (calm always_returns) (fun _ => false) ->
       e = mkExn ValueError
             "Telegram group must be provided when use_telegram is True.")).
Proof.
  apply (@init_rejects_missing_telegram_group Z (calm always_returns)
           (maestro_args true None) (local_args true (Some "")) fresh);
    reflexivity.
Defined.


Lemma execution_time_from_current_attempt_witness :
  (exists s' t1 t2 usage,
      BotRunnerMaestro.run_attempt Z.sub (calm (fails_first 1)) (bot 1 false)
        1 after_failure = (s', Ok Break) /\
      start_time s' = Some 5 /\
      events_of is_time_time (trace s') =
        [(Time_time, Returned_time t2); (Time_time, Returned_time t1);
         (Time_time, Returned_time 5); (Time_time, Returned_time 0)] /\
      In (Logger_info ("Execution time: " ++ format_execution_time (t1 - 5)),
          Returned) (trace s') /\
      events_of is_finish_task (trace s') =
        [(Maestro_finish_task "42" SUCCESS
            ("Execution time: " ++ format_execution_time (t1 - 5) ++
             nl ++ "Resource usage at end of execution: " ++ usage),
          Returned)] /\
      events_of is_sql_execute (trace s') =
        [(Sql_execute_query_from_file "botcity_aux\sql\query\insert_log.sql"
            ["bot"; "dev"; "sector"; "stakeholder"; "daily";
             format_execution_time (t2 - 5)],
          Returned)]) /\
  (exists s' t1 t2,
      BotRunnerLocal.run_attempt Z.sub (calm (fails_first 1)) (bot 1 false)
        1 after_failure = (s', Ok Break) /\
      start_time s' = Some 5 /\
      events_of is_time_time (trace s') =
        [(Time_time, Returned_time t2); (Time_time, Returned_time t1);
         (Time_time, Returned_time 5); (Time_time, Returned_time 0)] /\
      In (Logger_info ("Execution time: " ++ format_execution_time (t1 - 5)),
          Returned) (trace s') /\
      events_of is_sql_execute (trace s') =
        [(Sql_execute_query_from_file "botcity_aux\sql\query\insert_log.sql"
            ["bot"; "dev"; "sector"; "stakeholder"; "daily";
             format_execution_time (t2 - 5)],
          Returned)]) /\
  (forall earlier,
      BotRunnerMaestro.run_attempt Z.sub (calm (fails_first 1)) (bot 1 false)
        1 (mkState earlier (trace after_failure)) =
      BotRunnerMaestro.run_attempt Z.sub (calm (fails_first 1)) (bot 1 false)
        1 after_failure /\
      BotRunnerLocal.run_attempt Z.sub (calm (fails_first 1)) (bot 1 false)
        1 (mkState earlier (trace after_failure)) =
      BotRunnerLocal.run_attempt Z.sub (calm (fails_first 1)) (bot 1 false)
        1 after_failure).
Proof.
  apply (@execution_time_from_current_attempt Z Z.sub (calm (fails_first 1))
           (bot 1 false) 1 after_failure (calm_returns (fails_first 1))
           eq_refl).
Defined.

Lemma execution_time_not_available_witness :
  BotRunnerMaestro._get_execution_time Z.sub (calm always_returns) fresh =
    (fresh, Ok "Execution time not available") /\
  BotRunnerLocal._get_execution_time Z.sub (calm always_returns) fresh =
    (fresh, Ok "Execution time not available").
Proof.
  apply (@execution_time_not_available Z Z.sub (calm always_returns) fresh).
  reflexivity.
Defined.

End Sample_runs.

(** ** Further properties of [run] *)

Section Bounded_attempts.

Context {Time : Type}.
Variable attempt : Z -> M Time Flow.
Variable limit : Z.

Hypothesis Hcontinue :
  forall a s s' a',
    attempt a s = (s', Ok (Continue a')) -> a' = a + 1 /\ a + 1 <= limit.
Hypothesis Hmain :
  forall a s, exists ev,
    events_of is_main (trace (fst (attempt a s))) =
    ev :: events_of is_main (trace s).

(** A loop whose passes each call the task function once and count one
    more attempt when they continue ends after at most [limit + 1]
    passes. *)
Lemma while_loop_bounded s :
  exists s' r n,
    while_loop attempt limit (Z.to_nat (limit + 1)) 0 s = Some (s', r) /\
    adds is_main n s s' /\
    (n <= Z.to_nat (limit + 1))%nat.
Proof.
  destruct (while_loop_rule limit attempt
              (fun a s1 => (a = 0 \/ 0 < a <= limit) /\
                           adds is_main (Z.to_nat a) s s1)
              (fun s' r => exists n,
                 adds is_main n s s' /\ (n <= Z.to_nat (limit + 1))%nat))
    with (fuel := Z.to_nat (limit + 1)) (a := 0) (s := s)
    as (s' & r & Hrun & n & Hn & Hle).
  - intros a s1 [Ha Hadds] Hlim.
    destruct (Hmain a s1) as [ev Hev].
    destruct (attempt a s1) as [s2 [[| a'] | e]] eqn:E; cbn [fst] in Hev.
    + exists (S (Z.to_nat a)). split; [eapply adds_event; eassumption | lia].
    + apply Hcontinue in E. destruct E as [-> Hle].
      split; [reflexivity |]. split; [lia |].
      replace (Z.to_nat (a + 1)) with (S (Z.to_nat a)) by lia.
      eapply adds_event; eassumption.
    + exists (S (Z.to_nat a)). split; [eapply adds_event; eassumption | lia].
  - intros a s1 [Ha Hadds] Hlt.
    exists (Z.to_nat a). split; [exact Hadds | lia].
  - split; [left; reflexivity | apply adds_refl].
  - lia.
  - exists s', r, n. auto.
Qed.

End Bounded_attempts.

Section More_of_run.

Context {Time : Type}.
Variable int_sub : Time -> Time -> Z.
Variable env : Env Time.
Variable self : Attrs.

(** X1.  In every world, whatever the task function and the collaborators
    do, [run] returns or raises after at most [max_retries + 1]
    invocations of the task function (none when [max_retries] is
    negative), in both classes. *)
Theorem run_attempts_bounded (s : State Time) :
  (exists s' r n,
      BotRunnerMaestro.run int_sub env self s = Some (s', r) /\
      adds is_main n s s' /\
      (n <= Z.to_nat (max_retries self + 1))%nat) /\
  (exists s' r n,
      BotRunnerLocal.run int_sub env self s = Some (s', r) /\
      adds is_main n s s' /\
      (n <= Z.to_nat (max_retries self + 1))%nat).
Proof.
  split.
  - unfold BotRunnerMaestro.run. rewrite maestro_run_while_eq.
    apply while_loop_bounded.
    + apply maestro_attempt_continue.
    + intros a t. eexists. apply maestro_attempt_main.
  - unfold BotRunnerLocal.run. rewrite local_run_while_eq.
    apply while_loop_bounded.
    + apply local_attempt_continue.
    + intros a t. eexists. apply local_attempt_main.
Qed.

(** X2.  With a negative [max_retries] the loop is never entered: [run]
    returns normally without calling the task function or any
    collaborator, in both classes. *)
Theorem run_with_negative_budget (s : State Time) :
  max_retries self < 0 ->
  BotRunnerMaestro.run int_sub env self s = Some (s, Ok tt) /\
  BotRunnerLocal.run int_sub env self s = Some (s, Ok tt).
Proof.
  intros HN.
  unfold BotRunnerMaestro.run, BotRunnerLocal.run.
  replace (Z.to_nat (max_retries self + 1)) with 0%nat by lia.
  cbn [BotRunnerMaestro.run_while BotRunnerLocal.run_while].
  destruct (Z.leb_spec 0 (max_retries self)); [lia |].
  split; reflexivity.
Qed.

Lemma local_run_first_pass s :
  0 <= max_retries self ->
  BotRunnerLocal.run int_sub env self s =
  match BotRunnerLocal.run_attempt int_sub env self 0 s with
  | (s1, Ok Break) => Some (s1, Ok tt)
  | (s1, Ok (Continue a')) =>
      BotRunnerLocal.run_while int_sub env self
        (Z.to_nat (max_retries self)) a' s1
  | (s1, Raise e) => Some (s1, Raise e)
  end.
Proof.
  intros HN. unfold BotRunnerLocal.run.
  replace (Z.to_nat (max_retries self + 1))
    with (S (Z.to_nat (max_retries self))) by lia.
  cbn [BotRunnerLocal.run_while].
  destruct (Z.leb_spec 0 (max_retries self)); [reflexivity | lia].
Qed.

Lemma telegram_count (s s' : State Time) tele :
  map fst (events_of is_telegram (trace s')) =
  (tele ++ map fst (events_of is_telegram (trace s)))%list ->
  adds is_telegram (List.length tele) s s'.
Proof.
  intros H. apply (f_equal (@List.length Call)) in H.
  rewrite length_app, !length_map in H. exact H.
Qed.

(** X3.  An error of the task function that is not an [Exception]
    ([KeyboardInterrupt], [SystemExit]) is not retried, whatever the
    budget: [run] raises it after the first invocation, without
    [finish_task] and without Telegram calls; [BotRunnerMaestro.run]
    still uploads the log file in its [finally] block. *)
Theorem run_lets_base_exceptions_through (s : State Time) (e : Exn) :
  0 <= max_retries self ->
  returns_unless env is_main ->
  raises env (task_history env 0 s) Main = Some e ->
  is_Exception e = false ->
  (exists s',
      BotRunnerMaestro.run int_sub env self s = Some (s', Raise e) /\
      adds is_main 1 s s' /\
      adds is_finish_task 0 s s' /\
      adds is_telegram 0 s s' /\
      adds is_post_artifact 1 s s') /\
  (exists s',
      BotRunnerLocal.run int_sub env self s = Some (s', Raise e) /\
      adds is_main 1 s s' /\
      adds is_telegram 0 s s').
Proof.
  intros HN Hok Hm He. split.
  - rewrite (maestro_run_first_pass int_sub env self s HN).
    destruct (maestro_attempt_spec int_sub env self Hok)
      as (Hmain & _ & _ & _ & Hpass).
    pose proof (Hmain 0 s) as Hev.
    destruct (maestro_attempt_artifact int_sub env self 0 s)
      as (c & rp & _ & Hart).
    destruct (Hpass 0 s e Hm He) as (s' & E & _ & _ & Hfin & Htele).
    rewrite E in Hev, Hart |- *. cbn [fst] in Hev, Hart.
    exists s'. split; [reflexivity |].
    split; [eapply adds_event; [exact Hev | apply adds_refl] |].
    split; [exact Hfin |].
    split; [exact (telegram_count _ _ [] Htele) |].
    eapply adds_event; [exact Hart | apply adds_refl].
  - rewrite (local_run_first_pass s HN).
    destruct (local_attempt_spec int_sub env self Hok)
      as (Hmain & _ & _ & _ & Hpass).
    pose proof (Hmain 0 s) as Hev.
    destruct (Hpass 0 s e Hm He) as (s' & E & _ & _ & _ & Htele).
    rewrite E in Hev |- *. cbn [fst] in Hev.
    exists s'. split; [reflexivity |].
    split; [eapply adds_event; [exact Hev | apply adds_refl] |].
    exact (telegram_count _ _ [] Htele).
Qed.

(** Without Telegram no pass makes a Telegram call. *)
Lemma maestro_attempt_keeps_telegram a :
  use_telegram self = false ->
  keeps is_telegram (BotRunnerMaestro.run_attempt int_sub env self a).
Proof.
  intros Hu. unfold BotRunnerMaestro.run_attempt. unfold_maestro.
  rewrite Hu. keeps_tac.
Qed.

Lemma local_attempt_keeps_telegram a :
  use_telegram self = false ->
  keeps is_telegram (BotRunnerLocal.run_attempt int_sub env self a).
Proof.
  intros Hu. unfold BotRunnerLocal.run_attempt. unfold_local.
  rewrite Hu. keeps_tac.
Qed.

(** X4.  With [use_telegram] off, [run] makes no Telegram call in any
    world, in both classes. *)
Theorem run_without_telegram_never_notifies (s : State Time) :
  use_telegram self = false ->
  (exists s' r,
      BotRunnerMaestro.run int_sub env self s = Some (s', r) /\
      adds is_telegram 0 s s') /\
  (exists s' r,
      BotRunnerLocal.run int_sub env self s = Some (s', r) /\
      adds is_telegram 0 s s').
Proof.
  intros Hu. split.
  - destruct (maestro_run_returns int_sub env self s) as (s' & r & Hrun).
    exists s', r. split; [exact Hrun |].
    unfold BotRunnerMaestro.run in Hrun. rewrite maestro_run_while_eq in Hrun.
    eapply while_loop_keeps; [| exact Hrun].
    intro. apply maestro_attempt_keeps_telegram. exact Hu.
  - destruct (local_run_returns int_sub env self s) as (s' & r & Hrun).
    exists s', r. split; [exact Hrun |].
    unfold BotRunnerLocal.run in Hrun. rewrite local_run_while_eq in Hrun.
    eapply while_loop_keeps; [| exact Hrun].
    intro. apply local_attempt_keeps_telegram. exact Hu.
Qed.

End More_of_run.

(** ** The database row *)

Section Database_log.

Context {Time : Type}.
Variable int_sub : Time -> Time -> Z.
Variable env : Env Time.
Variable self : Attrs.

(** X5.  [_insert_database_log_execution] does not guard the connection:
    when the query raises, the error leaves the method with the connection
    opened and [disconnect] never called, in both classes. *)
Theorem insert_log_leaves_connection_open (s : State Time) (e : Exn) :
  returns_unless env is_sql_execute ->
  (forall h q ps, raises env h (Sql_execute_query_from_file q ps) = Some e) ->
  (exists s',
      BotRunnerMaestro._insert_database_log_execution int_sub env self s =
        (s', Raise e) /\
      adds is_sql_connect 1 s s' /\
      adds is_sql_disconnect 0 s s') /\
  (exists s',
      BotRunnerLocal._insert_database_log_execution int_sub env self s =
        (s', Raise e) /\
      adds is_sql_connect 1 s s' /\
      adds is_sql_disconnect 0 s s').
Proof.
  intros Hok Hquery. split.
  - unfold BotRunnerMaestro._insert_database_log_execution,
      BotRunnerMaestro._get_execution_time.
    to_call_with. rewrite bind_bind, bind_get_start_time.
    destruct (start_time s); exec Hok;
      (erewrite bind_call_raises by (cbn [may_raise]; apply Hquery));
      (eexists; split; [reflexivity | split; reflexivity]).
  - unfold BotRunnerLocal._insert_database_log_execution,
      BotRunnerLocal._get_execution_time.
    to_call_with. rewrite bind_bind, bind_get_start_time.
    destruct (start_time s); exec Hok;
      (erewrite bind_call_raises by (cbn [may_raise]; apply Hquery));
      (eexists; split; [reflexivity | split; reflexivity]).
Qed.

(** X6.  When its calls return, [_insert_database_log_execution] opens,
    uses and closes one connection, in that order, and inserts one row:
    the five attributes of the runner and the execution time, which is
    "Execution time not available" on a runner that has not started an
    attempt.  [BotRunnerMaestro] connects with the four credentials it has
    just fetched from the orchestrator, [BotRunnerLocal] to the fixed
    homologation server with Windows authentication.  (The lists give the
    calls most recent first.) *)
Theorem insert_log_session (s : State Time) :
  returns_unless env (fun _ => false) ->
  (exists s' time server database username password,
      BotRunnerMaestro._insert_database_log_execution int_sub env self s =
        (s', Ok tt) /\
      events_of is_database_session (trace s') =
        ([(Sql_disconnect, Returned);
          (Sql_execute_query_from_file "botcity_aux\sql\query\insert_log.sql"
             [bot_name self; dev self; sector self; stakeholder self;
              recurrence self; time], Returned);
          (Sql_connect, Returned);
          (Sql_new server database false (Some username) (Some password),
           Returned);
          (Maestro_get_credential "Your_SQL_Credentials" "your_sql_key",
           Returned_str password);
          (Maestro_get_credential "Your_SQL_Credentials" "your_sql_username",
           Returned_str username);
          (Maestro_get_credential "Your_SQL_Credentials" "your_sql_database",
           Returned_str database);
          (Maestro_get_credential "Your_SQL_Credentials" "your_sql_server",
           Returned_str server)]
         ++ events_of is_database_session (trace s))%list /\
      (start_time s = None -> time = "Execution time not available") /\
      (forall start, start_time s = Some start ->
         time = format_execution_time (int_sub (clock env (trace s)) start))) /\
  (exists s' time,
      BotRunnerLocal._insert_database_log_execution int_sub env self s =
        (s', Ok tt) /\
      events_of is_database_session (trace s') =
        ([(Sql_disconnect, Returned);
          (Sql_execute_query_from_file "botcity_aux\sql\query\insert_log.sql"
             [bot_name self; dev self; sector self; stakeholder self;
              recurrence self; time], Returned);
          (Sql_connect, Returned);
          (Sql_new "srv-homologation" "your_database" true None None,
           Returned)]
         ++ events_of is_database_session (trace s))%list /\
      (start_time s = None -> time = "Execution time not available") /\
      (forall start, start_time s = Some start ->
         time = format_execution_time (int_sub (clock env (trace s)) start))).
Proof.
  intros Hok. split.
  - unfold BotRunnerMaestro._insert_database_log_execution,
      BotRunnerMaestro._get_execution_time.
    to_call_with. rewrite bind_bind, bind_get_start_time.
    destruct (start_time s) as [start |].
    + rewrite bind_bind. rewrite bind_call_returns by reflexivity.
      exec Hok. rewrite call_returns by call_side Hok.
      do 6 eexists. split; [reflexivity |].
      split; [reflexivity |]. split; [discriminate |].
      intros start' H. inversion H. reflexivity.
    + exec Hok. rewrite call_returns by call_side Hok.
      do 6 eexists. split; [reflexivity |].
      split; [reflexivity |]. split; [reflexivity | discriminate].
  - unfold BotRunnerLocal._insert_database_log_execution,
      BotRunnerLocal._get_execution_time.
    to_call_with. rewrite bind_bind, bind_get_start_time.
    destruct (start_time s) as [start |].
    + rewrite bind_bind. rewrite bind_call_returns by reflexivity.
      exec Hok. rewrite call_returns by call_side Hok.
      do 2 eexists. split; [reflexivity |].
      split; [reflexivity |]. split; [discriminate |].
      intros start' H. inversion H. reflexivity.
    + exec Hok. rewrite call_returns by call_side Hok.
      do 2 eexists. split; [reflexivity |].
      split; [reflexivity |]. split; [reflexivity | discriminate].
Qed.

End Database_log.

(** ** What the constructors do *)

Section Telegram_token.

Context {Time : Type}.
Variable env : Env Time.

Local Abbreviation token_call := (Maestro_get_credential "Telegram" "token").

Lemma maestro_token_returns s :
  raises env (trace s) token_call = None ->
  answer env (trace s) token_call <> "" ->
  BotRunnerMaestro._get_telegram_token env true s =
  (record (Logger_info "Telegram token retrieved successfully.") Returned
     (record token_call (Returned_str (answer env (trace s) token_call)) s),
   Ok (Some (answer env (trace s) token_call))).
Proof.
  intros Hr Ha. unfold BotRunnerMaestro._get_telegram_token. cbn [negb].
  apply try_except_returns. to_call_with.
  rewrite bind_call_returns by (cbn [may_raise]; exact Hr). cbv beta.
  rewrite (proj2 (String.eqb_neq _ _) Ha).
  rewrite bind_call_returns by reflexivity. reflexivity.
Qed.

Lemma maestro_token_empty s :
  raises env (trace s) token_call = None ->
  answer env (trace s) token_call = "" ->
  BotRunnerMaestro._get_telegram_token env true s =
  (record (Logger_error ("Failed to retrieve telegram token: " ++
                         str_exn missing_token_error)) Returned
     (record token_call (Returned_str "") s),
   Raise missing_token_error).
Proof.
  intros Hr Ha. unfold BotRunnerMaestro._get_telegram_token. cbn [negb].
  unfold try_except. to_call_with.
  rewrite bind_call_returns by (cbn [may_raise]; exact Hr). cbv beta.
  rewrite Ha. cbn [String.eqb]. unfold raise at 1. cbv beta iota.
  change (is_Exception _) with true. cbv iota.
  rewrite bind_call_returns by reflexivity. reflexivity.
Qed.

Lemma local_token_returns s :
  raises env (trace s) token_call = None ->
  answer env (trace s) token_call <> "" ->
  BotRunnerLocal._get_telegram_token env true s =
  (record (Logger_info "Telegram token retrieved successfully.") Returned
     (record token_call (Returned_str (answer env (trace s) token_call)) s),
   Ok (Some (answer env (trace s) token_call))).
Proof.
  intros Hr Ha. unfold BotRunnerLocal._get_telegram_token. cbn [negb].
  apply try_except_returns. to_call_with.
  rewrite bind_call_returns by (cbn [may_raise]; exact Hr). cbv beta.
  rewrite (proj2 (String.eqb_neq _ _) Ha).
  rewrite bind_call_returns by reflexivity. reflexivity.
Qed.

Lemma local_token_empty s :
  raises env (trace s) token_call = None ->
  answer env (trace s) token_call = "" ->
  BotRunnerLocal._get_telegram_token env true s =
  (record (Logger_error ("Failed to retrieve telegram token: " ++
                         str_exn missing_token_error)) Returned
     (record token_call (Returned_str "") s),
   Raise missing_token_error).
Proof.
  intros Hr Ha. unfold BotRunnerLocal._get_telegram_token. cbn [negb].
  unfold try_except. to_call_with.
  rewrite bind_call_returns by (cbn [may_raise]; exact Hr). cbv beta.
  rewrite Ha. cbn [String.eqb]. unfold raise at 1. cbv beta iota.
  change (is_Exception _) with true. cbv iota.
  rewrite bind_call_returns by reflexivity. reflexivity.
Qed.

(** X7.  [_get_telegram_token], in both classes: without Telegram it
    returns [None] and calls nothing; otherwise it returns the token the
    orchestrator holds, unless that token is empty, in which case it logs
    the failure and raises the [ValueError] it has just caught itself. *)
Theorem get_telegram_token_cases (s : State Time) :
  raises env (trace s) token_call = None ->
  let token := answer env (trace s) token_call in
  let failure :=
    (Logger_error
       ("Failed to retrieve telegram token: " ++
        "Telegram Token must be provided in Maestro credentials"),
     @Returned Time) in
  (BotRunnerMaestro._get_telegram_token env false s = (s, Ok None) /\
   (token <> "" ->
    snd (BotRunnerMaestro._get_telegram_token env true s) = Ok (Some token)) /\
   (token = "" ->
    snd (BotRunnerMaestro._get_telegram_token env true s) =
      Raise missing_token_error /\
    hd_error (trace (fst (BotRunnerMaestro._get_telegram_token env true s))) =
      Some failure)) /\
  (BotRunnerLocal._get_telegram_token env false s = (s, Ok None) /\
   (token <> "" ->
    snd (BotRunnerLocal._get_telegram_token env true s) = Ok (Some token)) /\
   (token = "" ->
    snd (BotRunnerLocal._get_telegram_token env true s) =
      Raise missing_token_error /\
    hd_error (trace (fst (BotRunnerLocal._get_telegram_token env true s))) =
      Some failure)).
Proof.
  intros Hr token failure. split.
  - split; [reflexivity |]. split.
    + intros Ha. rewrite maestro_token_returns by assumption. reflexivity.
    + intros Ha. rewrite maestro_token_empty by assumption.
      split; reflexivity.
  - split; [reflexivity |]. split.
    + intros Ha. rewrite local_token_returns by assumption. reflexivity.
    + intros Ha. rewrite local_token_empty by assumption.
      split; reflexivity.
Qed.

End Telegram_token.

Section Constructors.

Context {Time : Type}.
Variable env : Env Time.

Local Abbreviation token_call := (Maestro_get_credential "Telegram" "token").

(** Running [_setup_maestro] inside a constructor, when it returns. *)
Ltac run_setup Hall :=
  match goal with
  | |- context [bind (BotRunnerMaestro._setup_maestro env ?b) _ ?s0] =>
      let s1 := fresh "s1" in
      let x := fresh "x" in
      let Hsetup := fresh "Hsetup" in
      destruct (maestro_setup_returns env b s0 Hall) as (s1 & x & Hsetup);
      rewrite (bind_returns _ _ _ _ _ Hsetup)
  end.

(** X8.  When the SDK session cannot be set up ([from_sys_args] raises, or
    [get_execution] does), the constructor of [BotRunnerMaestro] logs the
    failure and raises the same error; it has fetched no credential by
    then. *)
Theorem maestro_init_fails_when_setup_fails
    (a : BotRunnerMaestro.InitArgs) (s : State Time) (e : Exn) :
  is_Exception e = true ->
  (forall h n d, raises env h (LoggerConfig_new n d) = None) ->
  (forall h b, raises env h (Maestro_from_sys_args b) = Some e) \/
  ((forall h b, raises env h (Maestro_from_sys_args b) = None) /\
   (forall h, raises env h Maestro_get_execution = Some e)) ->
  exists s',
    BotRunnerMaestro.__init__ env a s = (s', Raise e) /\
    hd_error (trace s') =
      Some (Logger_error ("Failed to initialize BotMaestroSDK: " ++ str_exn e),
            Returned) /\
    adds is_get_credential 0 s s'.
Proof.
  intros He Hlogger Hsdk.
  unfold BotRunnerMaestro.__init__, BotRunnerMaestro._setup_maestro,
    try_except at 1.
  to_call_with.
  rewrite bind_call_returns by (cbn [may_raise]; apply Hlogger). cbv beta.
  unfold bind at 1. unfold try_except.
  destruct Hsdk as [Hargs | [Hargs Hexec]].
  - erewrite bind_call_raises by (cbn [may_raise]; apply Hargs).
    rewrite He. rewrite bind_call_returns by reflexivity.
    eexists. split; [reflexivity |]. split; reflexivity.
  - rewrite bind_call_returns by (cbn [may_raise]; apply Hargs). cbv beta.
    erewrite bind_call_raises by (cbn [may_raise]; apply Hexec).
    rewrite He. rewrite bind_call_returns by reflexivity.
    eexists. split; [reflexivity |]. split; reflexivity.
Qed.

Lemma maestro_init_keeps_telegram_setup a :
  BotRunnerMaestro.arg_use_telegram a = false ->
  keeps is_telegram_setup (BotRunnerMaestro.__init__ env a).
Proof.
  intros Hu.
  unfold BotRunnerMaestro.__init__, BotRunnerMaestro._setup_maestro.
  rewrite Hu. keeps_tac.
Qed.

(** X9.  With Telegram off and every call returning, both constructors
    return a runner that carries the arguments, with [start_time] [None],
    and do nothing for Telegram: no token is fetched and no [TelegramBot]
    is built. *)
Theorem init_without_telegram
    (am : BotRunnerMaestro.InitArgs) (al : BotRunnerLocal.InitArgs)
    (s : State Time) :
  returns_unless env (fun _ => false) ->
  BotRunnerMaestro.arg_use_telegram am = false ->
  BotRunnerLocal.arg_use_telegram al = false ->
  (exists s' log_files task,
      BotRunnerMaestro.__init__ env am s =
        (s', Ok (mkAttrs (BotRunnerMaestro.arg_bot_name am) log_files task
                   (BotRunnerMaestro.arg_dev am)
                   (BotRunnerMaestro.arg_sector am)
                   (BotRunnerMaestro.arg_stakeholder am)
                   (BotRunnerMaestro.arg_recurrence am)
                   (BotRunnerMaestro.arg_max_retries am) false "")) /\
      start_time s' = None /\
      adds is_telegram_setup 0 s s') /\
  (exists s' log_files,
      BotRunnerLocal.__init__ env al s =
        (s', Ok (mkAttrs (BotRunnerLocal.arg_bot_name al) log_files
                   (mkExecution "" "")
                   (BotRunnerLocal.arg_dev al)
                   (BotRunnerLocal.arg_sector al)
                   (BotRunnerLocal.arg_stakeholder al)
                   (BotRunnerLocal.arg_recurrence al)
                   (BotRunnerLocal.arg_max_retries al) false "")) /\
      start_time s' = None /\
      adds is_telegram_setup 0 s s').
Proof.
  intros Hall Hum Hul. split.
  - pose proof (adds_keeps is_telegram_setup _ s
                  (maestro_init_keeps_telegram_setup am Hum)) as Hadds.
    assert (E : exists s' log_files task,
               BotRunnerMaestro.__init__ env am s =
                 (s', Ok (mkAttrs (BotRunnerMaestro.arg_bot_name am)
                            log_files task
                            (BotRunnerMaestro.arg_dev am)
                            (BotRunnerMaestro.arg_sector am)
                            (BotRunnerMaestro.arg_stakeholder am)
                            (BotRunnerMaestro.arg_recurrence am)
                            (BotRunnerMaestro.arg_max_retries am) false "")) /\
               start_time s' = None).
    { unfold BotRunnerMaestro.__init__. rewrite Hum.
      to_call_with. exec Hall. run_setup Hall. exec Hall.
      unfold ret. do 3 eexists. split; reflexivity. }
    destruct E as (s' & log_files & task & E & Hstart).
    rewrite E in Hadds. cbn [fst] in Hadds.
    exists s', log_files, task. auto.
  - unfold BotRunnerLocal.__init__. rewrite Hul.
    to_call_with. exec Hall.
    unfold ret. do 2 eexists. split; [reflexivity |].
    split; reflexivity.
Qed.

(** X10.  With Telegram on, a group given and a token in the orchestrator,
    both constructors return a runner that carries the group.  Their last
    three calls fetch the credential "token" of "Telegram", log the
    success and build the [TelegramBot] with the very string the
    orchestrator answered to that request. *)
Theorem init_with_telegram
    (am : BotRunnerMaestro.InitArgs) (al : BotRunnerLocal.InitArgs)
    (s : State Time) (group : string) :
  returns_unless env (fun _ => false) ->
  BotRunnerMaestro.arg_use_telegram am = true ->
  BotRunnerMaestro.arg_telegram_group am = Some group ->
  BotRunnerLocal.arg_use_telegram al = true ->
  BotRunnerLocal.arg_telegram_group al = Some group ->
  group <> "" ->
  (forall h, answer env h token_call <> "") ->
  (exists s' log_files task token,
      BotRunnerMaestro.__init__ env am s =
        (s', Ok (mkAttrs (BotRunnerMaestro.arg_bot_name am) log_files task
                   (BotRunnerMaestro.arg_dev am)
                   (BotRunnerMaestro.arg_sector am)
                   (BotRunnerMaestro.arg_stakeholder am)
                   (BotRunnerMaestro.arg_recurrence am)
                   (BotRunnerMaestro.arg_max_retries am) true group)) /\
      start_time s' = None /\
      token = answer env (skipn 3 (trace s')) token_call /\
      token <> "" /\
      firstn 3 (trace s') =
        [(TelegramBot_new (Some token), Returned);
         (Logger_info "Telegram token retrieved successfully.", Returned);
         (token_call, Returned_str token)]) /\
  (exists s' log_files token,
      BotRunnerLocal.__init__ env al s =
        (s', Ok (mkAttrs (BotRunnerLocal.arg_bot_name al) log_files
                   (mkExecution "" "")
                   (BotRunnerLocal.arg_dev al)
                   (BotRunnerLocal.arg_sector al)
                   (BotRunnerLocal.arg_stakeholder al)
                   (BotRunnerLocal.arg_recurrence al)
                   (BotRunnerLocal.arg_max_retries al) true group)) /\
      start_time s' = None /\
      token = answer env (skipn 3 (trace s')) token_call /\
      token <> "" /\
      firstn 3 (trace s') =
        [(TelegramBot_new (Some token), Returned);
         (Logger_info "Telegram token retrieved successfully.", Returned);
         (token_call, Returned_str token)]).
Proof.
  intros Hall Hum Hgm Hul Hgl Hgroup Htoken.
  pose proof (proj2 (String.eqb_neq group "") Hgroup) as Hneq.
  split.
  - unfold BotRunnerMaestro.__init__. rewrite Hum, Hgm. cbn [not_str].
    rewrite Hneq. to_call_with. exec Hall. run_setup Hall. exec Hall.
    erewrite bind_returns;
      [| apply maestro_token_returns; [apply Hall; reflexivity | apply Htoken]].
    exec Hall. unfold ret. do 4 eexists. split; [reflexivity |].
    split; [reflexivity |]. split; [reflexivity |].
    split; [apply Htoken | reflexivity].
  - unfold BotRunnerLocal.__init__. rewrite Hul, Hgl. cbn [not_str].
    rewrite Hneq. to_call_with. exec Hall.
    erewrite bind_returns;
      [| apply local_token_returns; [apply Hall; reflexivity | apply Htoken]].
    exec Hall. unfold ret. do 3 eexists. split; [reflexivity |].
    split; [reflexivity |]. split; [reflexivity |].
    split; [apply Htoken | reflexivity].
Qed.

Lemma maestro_setup_keeps_bot_new b :
  keeps is_telegram_bot_new (BotRunnerMaestro._setup_maestro env b).
Proof. unfold BotRunnerMaestro._setup_maestro. keeps_tac. Qed.

Lemma bind_raises {A B} (m : M Time A) (f : A -> M Time B) s s1 e :
  m s = (s1, Raise e) -> bind m f s = (s1, Raise e).
Proof. intros H. unfold bind. rewrite H. reflexivity. Qed.

(** X11.  With Telegram on and a group given, but an empty token in the
    orchestrator, both constructors log the failure and raise the
    [ValueError] of the token; no [TelegramBot] is built. *)
Theorem init_with_empty_token
    (am : BotRunnerMaestro.InitArgs) (al : BotRunnerLocal.InitArgs)
    (s : State Time) (group : string) :
  returns_unless env (fun _ => false) ->
  BotRunnerMaestro.arg_use_telegram am = true ->
  BotRunnerMaestro.arg_telegram_group am = Some group ->
  BotRunnerLocal.arg_use_telegram al = true ->
  BotRunnerLocal.arg_telegram_group al = Some group ->
  group <> "" ->
  (forall h, answer env h token_call = "") ->
  let failure :=
    (Logger_error
       ("Failed to retrieve telegram token: " ++
        "Telegram Token must be provided in Maestro credentials"),
     @Returned Time) in
  (exists s',
      BotRunnerMaestro.__init__ env am s = (s', Raise missing_token_error) /\
      hd_error (trace s') = Some failure /\
      adds is_telegram_bot_new 0 s s') /\
  (exists s',
      BotRunnerLocal.__init__ env al s = (s', Raise missing_token_error) /\
      hd_error (trace s') = Some failure /\
      adds is_telegram_bot_new 0 s s').
Proof.
  intros Hall Hum Hgm Hul Hgl Hgroup Htoken failure.
  pose proof (proj2 (String.eqb_neq group "") Hgroup) as Hneq.
  split.
  - unfold BotRunnerMaestro.__init__. rewrite Hum, Hgm. cbn [not_str].
    rewrite Hneq. to_call_with. exec Hall.
    match goal with
    | |- context [bind (BotRunnerMaestro._setup_maestro env ?b) _ ?s0] =>
        destruct (maestro_setup_returns env b s0 Hall) as (s1 & x & Hsetup);
        pose proof (adds_keeps is_telegram_bot_new _ s0
                      (maestro_setup_keeps_bot_new b)) as Hk;
        rewrite Hsetup in Hk; cbn [fst] in Hk;
        rewrite (bind_returns _ _ _ _ _ Hsetup)
    end.
    exec Hall.
    erewrite bind_raises;
      [| apply maestro_token_empty; [apply Hall; reflexivity | apply Htoken]].
    eexists. split; [reflexivity |]. split; [reflexivity |].
    exact Hk.
  - unfold BotRunnerLocal.__init__. rewrite Hul, Hgl. cbn [not_str].
    rewrite Hneq. to_call_with. exec Hall.
    erewrite bind_raises;
      [| apply local_token_empty; [apply Hall; reflexivity | apply Htoken]].
    eexists. split; [reflexivity |]. split; reflexivity.
Qed.

End Constructors.

(** ** The execution time when the clock steps back *)

Section Negative_elapsed.

Lemma str_int_negative n : n < 0 -> str_int n = "-" ++ str_int (- n).
Proof. destruct n as [| p | p]; intros H; try lia. reflexivity. Qed.

Context {Time : Type}.
Variable int_sub : Time -> Time -> Z.
Variable env : Env Time.

(** X12.  [time.time()] is not monotonic.  When the truncated difference
    is negative, [_get_execution_time], in both classes, does not give the
    [DD:HH:MM:SS] shape: the days field is a minus sign and the number of
    days rounded away from zero, not padded, while hours, minutes and
    seconds count forward from that earlier midnight (-1 second gives
    "-1:23:59:59"). *)
Theorem execution_time_of_negative_elapsed (s : State Time) (start : Time)
    (e : Z) :
  start_time s = Some start ->
  int_sub (clock env (trace s)) start = e ->
  e < 0 ->
  let text :=
    "-" ++ str_int (- (e / 86400)) ++ ":" ++
    format_02 (e / 3600 mod 24) ++ ":" ++
    format_02 (e / 60 mod 60) ++ ":" ++ format_02 (e mod 60) in
  snd (BotRunnerMaestro._get_execution_time int_sub env s) = Ok text /\
  snd (BotRunnerLocal._get_execution_time int_sub env s) = Ok text /\
  0 < - (e / 86400) /\
  (e = -1 -> text = "-1:23:59:59").
Proof.
  intros Hstart He Hneg text.
  assert (Hdays : e / 86400 < 0) by (Z.div_mod_to_equations; lia).
  assert (Htext : format_execution_time e = text).
  { rewrite format_execution_time_fields. unfold text, format_02 at 1.
    destruct (Z.ltb_spec (e / 86400) 0) as [_ | Hge]; [| lia].
    rewrite (str_int_negative _ Hdays). reflexivity. }
  unfold BotRunnerMaestro._get_execution_time,
    BotRunnerLocal._get_execution_time, time_time.
  rewrite !bind_get_start_time, Hstart.
  rewrite !bind_call_returns by reflexivity.
  unfold ret. cbn [snd]. rewrite He, Htext.
  repeat split; try lia.
  intros ->. reflexivity.
Qed.

End Negative_elapsed.

(** ** Notifications and uploads of a whole run *)

Section Notifications.

Context {Time : Type}.
Variable env : Env Time.
Variable self : Attrs.
Variable fin : nat.
Variable attempt : Z -> M Time Flow.
Hypothesis Hspec : attempt_spec env self fin attempt.
Hypothesis Hbudget : 0 <= max_retries self.
Hypothesis Hexc :
  forall h e, raises env h Main = Some e -> is_Exception e = true.

Lemma notify_calls_length text :
  List.length (notify_calls self text) =
  if use_telegram self then 2%nat else 0%nat.
Proof. unfold notify_calls. destruct (use_telegram self); reflexivity. Qed.

Lemma notified (s s' : State Time) text :
  map fst (events_of is_telegram (trace s')) =
  (notify_calls self text ++ map fst (events_of is_telegram (trace s)))%list ->
  adds is_telegram (if use_telegram self then 2 else 0) s s'.
Proof.
  intros H. apply (f_equal (@List.length Call)) in H.
  rewrite length_app, !length_map, notify_calls_length in H. exact H.
Qed.

(** Every attempt ends with one message and one document sent to
    Telegram, when Telegram is on. *)
Lemma retry_notifies s :
  exists s' r n,
    while_loop attempt (max_retries self)
      (Z.to_nat (max_retries self + 1)) 0 s = Some (s', r) /\
    (1 <= n)%nat /\
    adds is_main n s s' /\
    adds is_telegram (if use_telegram self then 2 * n else 0) s s'.
Proof.
  destruct Hspec as (Hmain & Hsuccess & Hretry & Hgive & _).
  set (per := if use_telegram self then 2%nat else 0%nat).
  assert (Hper : forall n, (if use_telegram self then 2 * n else 0)%nat =
                           (per * n)%nat)
    by (intros n; unfold per; destruct (use_telegram self); lia).
  destruct (while_loop_rule (max_retries self) attempt
              (fun a s1 => 0 <= a <= max_retries self /\
                 adds is_main (Z.to_nat a) s s1 /\
                 adds is_telegram (per * Z.to_nat a) s s1)
              (fun s' r => exists n,
                 (1 <= n)%nat /\
                 adds is_main n s s' /\
                 adds is_telegram (per * n) s s'))
    with (fuel := Z.to_nat (max_retries self + 1)) (a := 0) (s := s)
    as (s' & r & Hrun & n & Hn & H1 & H2).
  - intros a s1 (Ha & Am & At) _.
    pose proof (Hmain a s1) as Hev.
    destruct (raises env (task_history env a s1) Main) as [e |] eqn:Hm.
    + pose proof (Hexc _ _ Hm) as He.
      destruct (Z_le_gt_dec (a + 1) (max_retries self)) as [Hle | Hgt].
      * destruct (Hretry a s1 e Hm He Hle) as (s2 & Eatt & _ & _ & _ & T).
        rewrite Eatt in Hev |- *. cbn [fst] in Hev.
        apply notified in T. fold per in T.
        split; [reflexivity |].
        replace (Z.to_nat (a + 1)) with (S (Z.to_nat a)) by lia.
        split; [lia |].
        split; [eapply adds_event; eassumption |].
        eapply adds_step; [exact At | exact T | lia].
      * destruct (Hgive a s1 e Hm He ltac:(lia)) as (s2 & Eatt & _ & _ & _ & T).
        rewrite Eatt in Hev |- *. cbn [fst] in Hev.
        apply notified in T. fold per in T.
        exists (S (Z.to_nat a)). split; [lia |].
        split; [eapply adds_event; eassumption |].
        eapply adds_step; [exact At | exact T | lia].
    + destruct (Hsuccess a s1 Hm) as (s2 & Eatt & _ & _ & _ & T).
      rewrite Eatt in Hev |- *. cbn [fst] in Hev.
      apply notified in T. fold per in T.
      exists (S (Z.to_nat a)). split; [lia |].
      split; [eapply adds_event; eassumption |].
      eapply adds_step; [exact At | exact T | lia].
  - intros a s1 [Ha _] Hlt. lia.
  - replace (Z.to_nat 0) with 0%nat by reflexivity. rewrite Nat.mul_0_r.
    repeat split; solve [lia | apply adds_refl].
  - lia.
  - exists s', r, n. rewrite Hper. auto.
Qed.

End Notifications.

Section Run_notifications.

Context {Time : Type}.
Variable int_sub : Time -> Time -> Z.
Variable env : Env Time.
Variable self : Attrs.

(** X13.  With Telegram on, the collaborators returning and a task
    function whose errors are [Exception]s, [run], in both classes, sends
    one message and one document to Telegram per attempt, failed or not:
    [2 * n] Telegram calls for [n] invocations of the task function. *)
Theorem run_notifies_every_attempt (s : State Time) :
  0 <= max_retries self ->
  returns_unless env is_main ->
  (forall h e, raises env h Main = Some e -> is_Exception e = true) ->
  (exists s' r n,
      BotRunnerMaestro.run int_sub env self s = Some (s', r) /\
      (1 <= n)%nat /\
      adds is_main n s s' /\
      adds is_telegram (if use_telegram self then 2 * n else 0) s s') /\
  (exists s' r n,
      BotRunnerLocal.run int_sub env self s = Some (s', r) /\
      (1 <= n)%nat /\
      adds is_main n s s' /\
      adds is_telegram (if use_telegram self then 2 * n else 0) s s').
Proof.
  intros HN Hok Hexc. split.
  - unfold BotRunnerMaestro.run. rewrite maestro_run_while_eq.
    eapply retry_notifies; eauto using maestro_attempt_spec.
  - unfold BotRunnerLocal.run. rewrite local_run_while_eq.
    eapply retry_notifies; eauto using local_attempt_spec.
Qed.

End Run_notifications.

(** ** The upload of the log file to SharePoint *)

Section File_store_uploads.

Context {Time : Type}.
Variable int_sub : Time -> Time -> Z.
Variable env : Env Time.
Variable self : Attrs.
Hypothesis Hok : returns_unless env is_main.

Ltac run_prelude :=
  to_call_with;
  rewrite bind_call_returns by reflexivity; exec_pure;
  rewrite bind_call_returns by reflexivity; exec_pure.

Ltac finish_pass :=
  exec Hok; unfold ret, raise; cbv beta iota; exec Hok; cbn [fst];
  reflexivity.

(** A pass of [BotRunnerMaestro.run] uploads once when it is the last
    one, and not at all when it is retried. *)
Lemma maestro_attempt_uploads a s :
  adds is_upload_files
    match raises env (task_history env a s) Main with
    | None => 1
    | Some e =>
        if is_Exception e && (a + 1 >? max_retries self) then 1 else 0
    end
    s (fst (BotRunnerMaestro.run_attempt int_sub env self a s)).
Proof.
  destruct (raises env (task_history env a s) Main) as [e |] eqn:Hm;
    unfold task_history in Hm;
    unfold BotRunnerMaestro.run_attempt; unfold_maestro;
    unfold try_finally, try_except; run_prelude.
  - erewrite bind_call_raises by exact Hm. cbv beta iota.
    destruct (is_Exception e); cbn [andb]; cbv zeta.
    + destruct (a + 1 >? max_retries self);
        destruct (use_telegram self); finish_pass.
    + finish_pass.
  - rewrite bind_call_returns by exact Hm. exec Hok.
    destruct (use_telegram self); finish_pass.
Qed.

(** A pass of [BotRunnerLocal.run] uploads only when the task function
    returned. *)
Lemma local_attempt_uploads a s :
  adds is_upload_files
    match raises env (task_history env a s) Main with
    | None => 1
    | Some _ => 0
    end
    s (fst (BotRunnerLocal.run_attempt int_sub env self a s)).
Proof.
  destruct (raises env (task_history env a s) Main) as [e |] eqn:Hm;
    unfold task_history in Hm;
    unfold BotRunnerLocal.run_attempt; unfold_local;
    unfold try_except; run_prelude.
  - erewrite bind_call_raises by exact Hm. cbv beta iota.
    destruct (is_Exception e); cbv zeta.
    + destruct (a + 1 >? max_retries self);
        destruct (use_telegram self); finish_pass.
    + reflexivity.
  - rewrite bind_call_returns by exact Hm. exec Hok.
    destruct (use_telegram self); finish_pass.
Qed.

Hypothesis Hbudget : 0 <= max_retries self.
Hypothesis Hexc :
  forall h e, raises env h Main = Some e -> is_Exception e = true.

Lemma maestro_run_uploads_once s :
  exists s' r,
    BotRunnerMaestro.run int_sub env self s = Some (s', r) /\
    adds is_upload_files 1 s s'.
Proof.
  unfold BotRunnerMaestro.run. rewrite maestro_run_while_eq.
  destruct (maestro_attempt_spec int_sub env self Hok)
    as (_ & Hsuccess & Hretry & Hgive & _).
  apply (while_loop_rule (max_retries self) _
           (fun a s1 => a <= max_retries self /\ adds is_upload_files 0 s s1)
           (fun s' r => adds is_upload_files 1 s s')).
  - intros a s1 [Ha Hup] _.
    pose proof (maestro_attempt_uploads a s1) as Hnew.
    destruct (raises env (task_history env a s1) Main) as [e |] eqn:Hm.
    + pose proof (Hexc _ _ Hm) as He. rewrite He in Hnew. cbn [andb] in Hnew.
      destruct (Z.gtb_spec (a + 1) (max_retries self)) as [Hgt | Hle].
      * destruct (Hgive a s1 e Hm He ltac:(lia)) as (s2 & Eatt & _).
        rewrite Eatt in Hnew |- *. cbn [fst] in Hnew.
        eapply adds_step; [exact Hup | exact Hnew | reflexivity].
      * destruct (Hretry a s1 e Hm He Hle) as (s2 & Eatt & _).
        rewrite Eatt in Hnew |- *. cbn [fst] in Hnew.
        split; [reflexivity |]. split; [lia |].
        eapply adds_step; [exact Hup | exact Hnew | reflexivity].
    + destruct (Hsuccess a s1 Hm) as (s2 & Eatt & _).
      rewrite Eatt in Hnew |- *. cbn [fst] in Hnew.
      eapply adds_step; [exact Hup | exact Hnew | reflexivity].
  - intros a s1 [Ha _] Hlt. lia.
  - split; [lia | apply adds_refl].
  - lia.
Qed.

Lemma local_run_uploads_on_success s :
  exists s' r,
    BotRunnerLocal.run int_sub env self s = Some (s', r) /\
    adds is_upload_files (if returned r then 1 else 0) s s'.
Proof.
  unfold BotRunnerLocal.run. rewrite local_run_while_eq.
  destruct (local_attempt_spec int_sub env self Hok)
    as (_ & Hsuccess & Hretry & Hgive & _).
  apply (while_loop_rule (max_retries self) _
           (fun a s1 => a <= max_retries self /\ adds is_upload_files 0 s s1)
           (fun s' r => adds is_upload_files (if returned r then 1 else 0) s s')).
  - intros a s1 [Ha Hup] _.
    pose proof (local_attempt_uploads a s1) as Hnew.
    destruct (raises env (task_history env a s1) Main) as [e |] eqn:Hm.
    + pose proof (Hexc _ _ Hm) as He.
      destruct (Z.gtb_spec (a + 1) (max_retries self)) as [Hgt | Hle].
      * destruct (Hgive a s1 e Hm He ltac:(lia)) as (s2 & Eatt & _).
        rewrite Eatt in Hnew |- *. cbn [fst] in Hnew. cbn [returned].
        eapply adds_step; [exact Hup | exact Hnew | reflexivity].
      * destruct (Hretry a s1 e Hm He Hle) as (s2 & Eatt & _).
        rewrite Eatt in Hnew |- *. cbn [fst] in Hnew.
        split; [reflexivity |]. split; [lia |].
        eapply adds_step; [exact Hup | exact Hnew | reflexivity].
    + destruct (Hsuccess a s1 Hm) as (s2 & Eatt & _).
      rewrite Eatt in Hnew |- *. cbn [fst] in Hnew. cbn [returned].
      eapply adds_step; [exact Hup | exact Hnew | reflexivity].
  - intros a s1 [Ha _] Hlt. lia.
  - split; [lia | apply adds_refl].
  - lia.
Qed.

End File_store_uploads.

Section Run_uploads.

Context {Time : Type}.
Variable int_sub : Time -> Time -> Z.
Variable env : Env Time.
Variable self : Attrs.

(** X14.  With the collaborators returning and a task function whose
    errors are [Exception]s, [BotRunnerMaestro.run] uploads the log file to
    SharePoint exactly once per run, however many attempts it makes: after
    the attempt that succeeds, or on giving up.  [BotRunnerLocal.run]
    uploads it once when it returns normally and not at all when it
    raises. *)
Theorem run_uploads_log_file_once (s : State Time) :
  0 <= max_retries self ->
  returns_unless env is_main ->
  (forall h e, raises env h Main = Some e -> is_Exception e = true) ->
  (exists s' r,
      BotRunnerMaestro.run int_sub env self s = Some (s', r) /\
      adds is_upload_files 1 s s') /\
  (exists s' r,
      BotRunnerLocal.run int_sub env self s = Some (s', r) /\
      adds is_upload_files (if returned r then 1 else 0) s s').
Proof.
  intros HN Hok Hexc. split.
  - apply maestro_run_uploads_once; assumption.
  - apply local_run_uploads_on_success; assumption.
Qed.

End Run_uploads.

(** ** The upload of the log file to the orchestrator *)

Section Artifact_upload.

Context {Time : Type}.
Variable env : Env Time.
Variable self : Attrs.

(** X15.  [_add_log_file_into_maestro] posts the log file under the task
    of the execution, with the log file's name and path.  When the upload
    returns it logs the success; when it raises an [Exception] it logs the
    failure and raises the same error; any other error leaves at once,
    unlogged. *)
Theorem add_log_file_outcomes (s : State Time) (e : Exn) :
  let upload :=
    Maestro_post_artifact (task_id (execution self))
      (log_filename (logger self)) (log_path (logger self)) in
  let run := BotRunnerMaestro._add_log_file_into_maestro env self s in
  (raises env (trace s) upload = None ->
   run =
   (record (Logger_info ("Log file '" ++ log_filename (logger self) ++
                         "' uploaded successfully to BotCity Maestro."))
      Returned (record upload Returned s),
    Ok tt)) /\
  (raises env (trace s) upload = Some e ->
   run =
   (if is_Exception e then
      record (Logger_error ("Failed to upload log file '" ++
                            log_filename (logger self) ++
                            "' into BotCity Maestro: " ++ str_exn e))
        Returned (record upload (Raised e) s)
    else record upload (Raised e) s,
    Raise e)).
Proof.
  intros upload run. subst upload run.
  unfold BotRunnerMaestro._add_log_file_into_maestro, try_except.
  to_call_with. split; intros Hr.
  - rewrite bind_call_returns by (cbn [may_raise]; exact Hr). cbv beta.
    rewrite bind_call_returns by reflexivity. reflexivity.
  - erewrite bind_call_raises by (cbn [may_raise]; exact Hr).
    destruct (is_Exception e); [| reflexivity].
    rewrite bind_call_returns by reflexivity. reflexivity.
Qed.

End Artifact_upload.

(** ** The further properties at concrete inputs *)

Section More_sample_runs.

Import Sample Sample_answers.

Lemma answering_returns credential :
  returns_unless (answering credential) (fun _ => false).
Proof. intros h c _. reflexivity. Defined.

Lemma run_with_negative_budget_witness :
  BotRunnerMaestro.run Z.sub (calm always_returns) (bot (-1) false) fresh =
    Some (fresh, Ok tt) /\
  BotRunnerLocal.run Z.sub (calm always_returns) (bot (-1) false) fresh =
    Some (fresh, Ok tt).
Proof.
  apply (@run_with_negative_budget Z Z.sub (calm always_returns)
           (bot (-1) false) fresh).
  cbn. lia.
Defined.

Lemma run_lets_base_exceptions_through_witness :
  (exists s',
      BotRunnerMaestro.run Z.sub (calm interrupted) (bot 2 true) fresh =
        Some (s', Raise keyboard_interrupt) /\
      adds is_main 1 fresh s' /\
      adds is_finish_task 0 fresh s' /\
      adds is_telegram 0 fresh s' /\
      adds is_post_artifact 1 fresh s') /\
  (exists s',
      BotRunnerLocal.run Z.sub (calm interrupted) (bot 2 true) fresh =
        Some (s', Raise keyboard_interrupt) /\
      adds is_main 1 fresh s' /\
      adds is_telegram 0 fresh s').
Proof.
  apply (@run_lets_base_exceptions_through Z Z.sub (calm interrupted)
           (bot 2 true) fresh keyboard_interrupt).
  - cbn. lia.
  - apply calm_returns.
  - reflexivity.
  - reflexivity.
Defined.

Lemma run_without_telegram_never_notifies_witness :
  (exists s' r,
      BotRunnerMaestro.run Z.sub (calm (fails_first 1)) (bot 2 false) fresh =
        Some (s', r) /\
      adds is_telegram 0 fresh s') /\
  (exists s' r,
      BotRunnerLocal.run Z.sub (calm (fails_first 1)) (bot 2 false) fresh =
        Some (s', r) /\
      adds is_telegram 0 fresh s').
Proof.
  apply (@run_without_telegram_never_notifies Z Z.sub (calm (fails_first 1))
           (bot 2 false) fresh).
  reflexivity.
Defined.

Lemma insert_log_leaves_connection_open_witness :
  (exists s',
      BotRunnerMaestro._insert_database_log_execution Z.sub
        (world always_returns is_sql_execute always) (bot 0 false) fresh =
        (s', Raise disk_full) /\
      adds is_sql_connect 1 fresh s' /\
      adds is_sql_disconnect 0 fresh s') /\
  (exists s',
      BotRunnerLocal._insert_database_log_execution Z.sub
        (world always_returns is_sql_execute always) (bot 0 false) fresh =
        (s', Raise disk_full) /\
      adds is_sql_connect 1 fresh s' /\
      adds is_sql_disconnect 0 fresh s').
Proof.
  apply (@insert_log_leaves_connection_open Z Z.sub
           (world always_returns is_sql_execute always) (bot 0 false) fresh
           disk_full).
  - intros h c Hc. cbn. rewrite Hc. destruct (is_main c); reflexivity.
  - intros h q ps. reflexivity.
Defined.

Lemma insert_log_session_witness :
  exists s' time,
    BotRunnerLocal._insert_database_log_execution Z.sub (answering by_key)
      (bot 0 false) fresh = (s', Ok tt) /\
    events_of is_database_session (trace s') =
      ([(Sql_disconnect, Returned);
        (Sql_execute_query_from_file "botcity_aux\sql\query\insert_log.sql"
           ["bot"; "dev"; "sector"; "stakeholder"; "daily"; time], Returned);
        (Sql_connect, Returned);
        (Sql_new "srv-homologation" "your_database" true None None,
         Returned)]
       ++ events_of is_database_session (trace fresh))%list /\
    (start_time fresh = None -> time = "Execution time not available") /\
    (forall start, start_time fresh = Some start ->
       time = format_execution_time (clock (answering by_key) (trace fresh) - start)).
Proof.
  apply (proj2 (@insert_log_session Z Z.sub (answering by_key) (bot 0 false)
                  fresh (answering_returns by_key))).
Defined.

Lemma get_telegram_token_cases_witness :
  snd (BotRunnerMaestro._get_telegram_token (answering no_token) true fresh) =
    Raise missing_token_error /\
  snd (BotRunnerLocal._get_telegram_token (answering by_key) true fresh) =
    Ok (Some "token").
Proof.
  split.
  - apply (proj2 (proj2 (proj1
      (@get_telegram_token_cases Z (answering no_token) fresh eq_refl)))).
    reflexivity.
  - apply (proj1 (proj2 (proj2
      (@get_telegram_token_cases Z (answering by_key) fresh eq_refl)))).
    discriminate.
Defined.

Lemma maestro_init_fails_when_setup_fails_witness :
  exists s',
    BotRunnerMaestro.__init__ (world always_returns is_from_sys_args always)
      (maestro_args false None) fresh = (s', Raise disk_full) /\
    hd_error (trace s') =
      Some (Logger_error ("Failed to initialize BotMaestroSDK: " ++
                          str_exn disk_full), Returned) /\
    adds is_get_credential 0 fresh s'.
Proof.
  apply (@maestro_init_fails_when_setup_fails Z
           (world always_returns is_from_sys_args always)
           (maestro_args false None) fresh disk_full).
  - reflexivity.
  - intros h n d. reflexivity.
  - left. intros h b. reflexivity.
Defined.

Lemma init_without_telegram_witness :
  (exists s' log_files task,
      BotRunnerMaestro.__init__ (answering by_key) (maestro_args false None)
        fresh =
        (s', Ok (mkAttrs "bot" log_files task "dev" "sector" "stakeholder"
                   "daily" 2 false "")) /\
      start_time s' = None /\
      adds is_telegram_setup 0 fresh s') /\
  (exists s' log_files,
      BotRunnerLocal.__init__ (answering by_key) (local_args false None)
        fresh =
        (s', Ok (mkAttrs "bot" log_files (mkExecution "" "") "dev" "sector"
                   "stakeholder" "daily" 2 false "")) /\
      start_time s' = None /\
      adds is_telegram_setup 0 fresh s').
Proof.
  apply (@init_without_telegram Z (answering by_key)
           (maestro_args false None) (local_args false None) fresh).
  - apply answering_returns.
  - reflexivity.
  - reflexivity.
Defined.

Lemma init_with_telegram_witness :
  (exists s' log_files task token,
      BotRunnerMaestro.__init__ (answering by_key)
        (maestro_args true (Some "ops")) fresh =
        (s', Ok (mkAttrs "bot" log_files task "dev" "sector" "stakeholder"
                   "daily" 2 true "ops")) /\
      start_time s' = None /\
      token = "token" /\
      token <> "" /\
      firstn 3 (trace s') =
        [(TelegramBot_new (Some token), Returned);
         (Logger_info "Telegram token retrieved successfully.", Returned);
         (Maestro_get_credential "Telegram" "token", Returned_str token)]) /\
  (exists s' log_files token,
      BotRunnerLocal.__init__ (answering by_key)
        (local_args true (Some "ops")) fresh =
        (s', Ok (mkAttrs "bot" log_files (mkExecution "" "") "dev" "sector"
                   "stakeholder" "daily" 2 true "ops")) /\
      start_time s' = None /\
      token = "token" /\
      token <> "" /\
      firstn 3 (trace s') =
        [(TelegramBot_new (Some token), Returned);
         (Logger_info "Telegram token retrieved successfully.", Returned);
         (Maestro_get_credential "Telegram" "token", Returned_str token)]).
Proof.
  apply (@init_with_telegram Z (answering by_key)
           (maestro_args true (Some "ops")) (local_args true (Some "ops"))
           fresh "ops").
  - apply answering_returns.
  - reflexivity.
  - reflexivity.
  - reflexivity.
  - reflexivity.
  - discriminate.
  - intros h. discriminate.
Defined.

Lemma init_with_empty_token_witness :
  (exists s',
      BotRunnerMaestro.__init__ (answering no_token)
        (maestro_args true (Some "ops")) fresh =
        (s', Raise missing_token_error) /\
      hd_error (trace s') =
        Some (Logger_error
                ("Failed to retrieve telegram token: " ++
                 "Telegram Token must be provided in Maestro credentials"),
              Returned) /\
      adds is_telegram_bot_new 0 fresh s') /\
  (exists s',
      BotRunnerLocal.__init__ (answering no_token)
        (local_args true (Some "ops")) fresh =
        (s', Raise missing_token_error) /\
      hd_error (trace s') =
        Some (Logger_error
                ("Failed to retrieve telegram token: " ++
                 "Telegram Token must be provided in Maestro credentials"),
              Returned) /\
      adds is_telegram_bot_new 0 fresh s').
Proof.
  apply (@init_with_empty_token Z (answering no_token)
           (maestro_args true (Some "ops")) (local_args true (Some "ops"))
           fresh "ops").
  - apply answering_returns.
  - reflexivity.
  - reflexivity.
  - reflexivity.
  - reflexivity.
  - discriminate.
  - intros h. reflexivity.
Defined.

Lemma execution_time_of_negative_elapsed_witness :
  snd (BotRunnerMaestro._get_execution_time Z.sub (calm always_returns)
         (mkState (Some 1) [])) = Ok "-1:23:59:59" /\
  snd (BotRunnerLocal._get_execution_time Z.sub (calm always_returns)
         (mkState (Some 1) [])) = Ok "-1:23:59:59".
Proof.
  destruct (@execution_time_of_negative_elapsed Z Z.sub (calm always_returns)
              (mkState (Some 1) []) 1 (-1) eq_refl eq_refl eq_refl)
    as (H1 & H2 & _ & H3).
  rewrite H1, H2, (H3 eq_refl). split; reflexivity.
Defined.

Lemma run_notifies_every_attempt_witness :
  (exists s' r n,
      BotRunnerMaestro.run Z.sub (calm (fails_first 1)) (bot 2 true) fresh =
        Some (s', r) /\
      (1 <= n)%nat /\
      adds is_main n fresh s' /\
      adds is_telegram (2 * n) fresh s') /\
  (exists s' r n,
      BotRunnerLocal.run Z.sub (calm (fails_first 1)) (bot 2 true) fresh =
        Some (s', r) /\
      (1 <= n)%nat /\
      adds is_main n fresh s' /\
      adds is_telegram (2 * n) fresh s').
Proof.
  apply (@run_notifies_every_attempt Z Z.sub (calm (fails_first 1))
           (bot 2 true) fresh).
  - cbn. lia.
  - apply calm_returns.
  - intros h e. cbn. unfold fails_first.
    destruct (count_calls is_main h <? 1)%nat; intros H; inversion H.
    reflexivity.
Defined.

Lemma run_uploads_log_file_once_witness :
  (exists s' r,
      BotRunnerMaestro.run Z.sub (calm always_fails) (bot 2 false) fresh =
        Some (s', r) /\
      adds is_upload_files 1 fresh s') /\
  (exists s' r,
      BotRunnerLocal.run Z.sub (calm always_fails) (bot 2 false) fresh =
        Some (s', r) /\
      adds is_upload_files (if returned r then 1 else 0) fresh s').
Proof.
  apply (@run_uploads_log_file_once Z Z.sub (calm always_fails)
           (bot 2 false) fresh).
  - cbn. lia.
  - apply calm_returns.
  - intros h e H. cbn in H. inversion H. reflexivity.
Defined.

(** The runs behind the witnesses, evaluated. *)
Example uploads_of_a_run_that_gives_up :
  option_map (fun out => count_calls is_upload_files (trace (fst out)))
    (BotRunnerMaestro.run Z.sub (calm always_fails) (bot 2 false) fresh) =
    Some 1%nat /\
  option_map (fun out => count_calls is_upload_files (trace (fst out)))
    (BotRunnerLocal.run Z.sub (calm always_fails) (bot 2 false) fresh) =
    Some 0%nat /\
  option_map (fun out => count_calls is_telegram (trace (fst out)))
    (BotRunnerLocal.run Z.sub (calm (fails_first 1)) (bot 2 true) fresh) =
    Some 4%nat.
Proof. repeat split; vm_compute; reflexivity. Qed.

End More_sample_runs.
